(** * COGNESTIC2024 notebooks

    The repository is a set of Jupyter notebooks that call MNE-Python and
    MNE-Connectivity.  Two things are modelled here.

    - What the cells compute themselves, around the library calls: the
      array arithmetic of the Granger-causality, VAR and connectivity
      comparison notebooks, the [try]/[except] of the rank check, the
      construction of annotations.  The notebooks hold NumPy [float64]
      arrays; their elementwise arithmetic is [spec_float] at precision 53
      and maximal exponent 1024, the IEEE 754 binary64 format with
      round-to-nearest-even.  Library routines (spectral connectivity, SVD,
      VAR prediction) are not part of the repository: they enter as section
      variables.  Where a statement is about what a library routine does
      (the rank-deficiency check, the constructor of annotations), the
      routine is modelled from its description, and the model says so.

    - The notebooks as programs: the statements of every code cell, from
      which imports, definitions, calls and the origin of the data are read
      off. *)

From Stdlib Require Import String Ascii ZArith List Bool Sorted Permutation Lia.
From Stdlib Require Import Floats.SpecFloat.
From Stdlib Require Import Reals.Rdefinitions Reals.Raxioms Reals.RIneq.
Import ListNotations.

Local Open Scope Z_scope.
Set Warnings "-register-all".

(** ** binary64 *)

Module F64.

Definition prec : Z := 53.
Definition emax : Z := 1024.

Definition t := spec_float.

Definition add : t -> t -> t := SFadd prec emax.
Definition sub : t -> t -> t := SFsub prec emax.
Definition mul : t -> t -> t := SFmul prec emax.
Definition div : t -> t -> t := SFdiv prec emax.
Definition neg : t -> t := SFopp.
Definition of_Z (z : Z) : t := binary_normalize prec emax z 0 false.

(** NumPy's [==], [<=] and [>=] on float64. *)
Definition eqb : t -> t -> bool := SFeqb.
Definition leb : t -> t -> bool := SFleb.
Definition geb (x y : t) : bool := SFleb y x.
Definition ltb : t -> t -> bool := SFltb.

Definition is_zero (x : t) : bool :=
  match x with S754_zero _ => true | _ => false end.

Definition zero : t := S754_zero false.

(** A float64 datum: a finite value is stored with its canonical mantissa
    and exponent. *)
Definition valid (x : t) : bool := valid_binary prec emax x.

Definition is_nan (x : t) : bool :=
  match x with S754_nan => true | _ => false end.

(** Two floats denote the same value: they are the same datum, or both are
    zeros (of either sign). *)
Definition same (x y : t) : Prop :=
  x = y \/ (is_zero x = true /\ is_zero y = true).

End F64.


(** ** NumPy arrays

    Arrays are nested lists, outermost axis first.  Elementwise operators are
    applied position by position; the notebooks only ever combine arrays of
    one shape, and the statements below assume equal shapes (for unequal
    shapes NumPy broadcasts or raises, which is outside this model). *)

Module Np.

Fixpoint map2 {A B C : Type} (f : A -> B -> C) (xs : list A) (ys : list B)
  : list C :=
  match xs, ys with
  | x :: xs', y :: ys' => f x y :: map2 f xs' ys'
  | _, _ => []
  end.

Definition array1 (F : Type) := list F.
Definition array2 (F : Type) := list (list F).
Definition array3 (F : Type) := list (list (list F)).

Definition ew2 {F : Type} (op : F -> F -> F) : array2 F -> array2 F -> array2 F :=
  map2 (map2 op).
Definition ew3 {F : Type} (op : F -> F -> F) : array3 F -> array3 F -> array3 F :=
  map2 (map2 (map2 op)).

(** [a[i][j][k]], [None] when an index is out of range. *)
Definition item3 {F : Type} (a : array3 F) (i j k : nat) : option F :=
  match nth_error a i with
  | Some m =>
      match nth_error m j with
      | Some r => nth_error r k
      | None => None
      end
  | None => None
  end.

Definition item2 {F : Type} (a : array2 F) (i j : nat) : option F :=
  match nth_error a i with
  | Some r => nth_error r j
  | None => None
  end.

(** Shapes: an array2 is [rows x cols], an array3 is [n x rows x cols]. *)
Definition shape2 {F : Type} (rows cols : nat) (a : array2 F) : Prop :=
  length a = rows /\ Forall (fun r => length r = cols) a.
Definition shape3 {F : Type} (n rows cols : nat) (a : array3 F) : Prop :=
  length a = n /\ Forall (shape2 rows cols) a.

(** [np.count_nonzero] of a boolean array. *)
Definition count_nonzero (bs : list bool) : nat :=
  length (filter (fun b => b) bs).

End Np.

(** ** Python exceptions and cell execution

    A code cell prints lines and either completes or lets an exception
    escape.  Only the part of the built-in exception hierarchy that a
    [RuntimeError] handler can tell apart is listed. *)

Module Py.

Inductive exc_class :=
| BaseException | Exception | KeyboardInterrupt
| RuntimeError | NotImplementedError | RecursionError
| ValueError | TypeError | IndexError | MemoryError.

(** The direct base class, as in the Python built-in hierarchy. *)
Definition base (c : exc_class) : option exc_class :=
  match c with
  | BaseException => None
  | Exception | KeyboardInterrupt => Some BaseException
  | RuntimeError | ValueError | TypeError | IndexError | MemoryError => Some Exception
  | NotImplementedError | RecursionError => Some RuntimeError
  end.

Definition exc_class_eqb (c d : exc_class) : bool :=
  match c, d with
  | BaseException, BaseException | Exception, Exception
  | KeyboardInterrupt, KeyboardInterrupt | RuntimeError, RuntimeError
  | NotImplementedError, NotImplementedError | RecursionError, RecursionError
  | ValueError, ValueError | TypeError, TypeError | IndexError, IndexError
  | MemoryError, MemoryError => true
  | _, _ => false
  end.

(** The hierarchy above has depth three, so three steps reach every base. *)
Fixpoint issubclass_upto (n : nat) (c d : exc_class) : bool :=
  exc_class_eqb c d ||
  match n with
  | O => false
  | S n' => match base c with
            | Some b => issubclass_upto n' b d
            | None => false
            end
  end.

Definition issubclass : exc_class -> exc_class -> bool := issubclass_upto 3.

Record exception := { exc_type : exc_class; exc_msg : string }.

(** The newline character of Python's [\n]. *)
Definition nl : string := String (ascii_of_nat 10) EmptyString.

Definition isinstance (e : exception) (c : exc_class) : bool :=
  issubclass (exc_type e) c.

Inductive outcome (A : Type) :=
| Returned (a : A)
| Raised (e : exception).
Arguments Returned {A} a.
Arguments Raised {A} e.

Definition bind {A B : Type} (m : outcome A) (k : A -> outcome B) : outcome B :=
  match m with
  | Returned a => k a
  | Raised e => Raised e
  end.

(** What a cell leaves behind: the lines printed, and how it ended. *)
Record cell_result (A : Type) := { stdout : list string; ended : outcome A }.
Arguments stdout {A} c.
Arguments ended {A} c.
Arguments Build_cell_result {A} stdout ended.

Definition cell_bind {A B : Type} (m : cell_result A) (k : A -> cell_result B)
  : cell_result B :=
  match ended m with
  | Returned a =>
      let r := k a in {| stdout := stdout m ++ stdout r; ended := ended r |}
  | Raised e => {| stdout := stdout m; ended := Raised e |}
  end.

Definition print (s : string) : cell_result unit :=
  {| stdout := [s]; ended := Returned tt |}.

Definition lift {A : Type} (m : outcome A) : cell_result A :=
  {| stdout := []; ended := m |}.

(** [try: body / except cls as error: handler error]. *)
Definition try_except {A : Type} (body : cell_result A) (cls : exc_class)
  (handler : exception -> cell_result A) : cell_result A :=
  match ended body with
  | Returned _ => body
  | Raised e =>
      if isinstance e cls
      then let r := handler e in
           {| stdout := stdout body ++ stdout r; ended := ended r |}
      else body
  end.

End Py.

Notation "x <- m ;; k" := (Py.bind m (fun x => k))
  (at level 61, m at next level, right associativity).
Notation "x <-- m ;; k" := (Py.cell_bind m (fun x => k))
  (at level 61, m at next level, right associativity).

(** ** Granger-causality notebook *)

Module Granger.

(** The connectivity object returned by the library. *)
Record connectivity := { get_data : Np.array2 F64.t; freqs : list F64.t }.

(** The keyword arguments the notebook passes to
    [spectral_connectivity_epochs]. *)
Record sce_args := {
  method : list string;
  indices : list (list nat) * list (list nat);
  fmin : Z;
  fmax : Z;
  rank : option (list nat * list nat);
  gc_n_lags : nat;
  verbose : option bool
}.

Definition indices_ab (signals_a signals_b : list nat) :=
  ([signals_a], [signals_b]).
Definition indices_ba (signals_a signals_b : list nat) :=
  ([signals_b], [signals_a]).

(** The calls of the notebook share everything but method, indices, rank
    and number of lags. *)
Definition gc_call (m : string) (idx : list (list nat) * list (list nat))
  (lags : nat) : sce_args :=
  {| method := [m]; indices := idx; fmin := 5; fmax := 30;
     rank := Some ([5%nat], [5%nat]); gc_n_lags := lags; verbose := None |}.

Definition rank_none_call (idx : list (list nat) * list (list nat)) : sce_args :=
  {| method := ["gc"%string]; indices := idx; fmin := 5; fmax := 30;
     rank := None; gc_n_lags := 20; verbose := Some false |}.

Record scores := {
  net_gc : Np.array2 F64.t;
  net_gc_tr : Np.array2 F64.t;
  trgc : Np.array2 F64.t
}.

(** [negated a b]: array [a] holds, at every position, the negation of the
    entry of [b] at that position (and the two arrays have one shape). *)
Definition negated (a b : Np.array2 F64.t) : Prop :=
  Forall2 (Forall2 (fun u v => F64.same u (F64.neg v))) a b.

(** [1e-4] as a float64. *)
Definition tol : F64.t := S754_finite false 7378697629483821 (-66).

Section Cells.
Variable epochs_t : Type.
Variable spectral_connectivity_epochs :
  epochs_t -> sce_args -> Py.outcome connectivity.
Variable epochs : epochs_t.
(** Python's [repr] of an exception object. *)
Variable repr : Py.exception -> string.

(** The cells that compute net GC, net GC on time-reversed signals and
    TRGC, for the two sensor groups. *)
Definition trgc_cells (signals_a signals_b : list nat) : Py.outcome scores :=
  let iab := indices_ab signals_a signals_b in
  let iba := indices_ba signals_a signals_b in
  gc_ab <- spectral_connectivity_epochs epochs (gc_call "gc" iab 20) ;;
  gc_ba <- spectral_connectivity_epochs epochs (gc_call "gc" iba 20) ;;
  let net_gc := Np.ew2 F64.sub (get_data gc_ab) (get_data gc_ba) in
  gc_tr_ab <- spectral_connectivity_epochs epochs (gc_call "gc_tr" iab 20) ;;
  gc_tr_ba <- spectral_connectivity_epochs epochs (gc_call "gc_tr" iba 20) ;;
  let net_gc_tr :=
    Np.ew2 F64.sub (get_data gc_tr_ab) (get_data gc_tr_ba) in
  let trgc := Np.ew2 F64.sub net_gc net_gc_tr in
  Py.Returned {| net_gc := net_gc; net_gc_tr := net_gc_tr; trgc := trgc |}.

(** The cell that tries the computation with [rank=None]. *)
Definition rank_none_cell (signals_a signals_b : list nat)
  : Py.cell_result unit :=
  Py.try_except
    (_ <-- Py.lift (spectral_connectivity_epochs epochs
                      (rank_none_call (indices_ab signals_a signals_b))) ;;
     Py.print "Success!")
    Py.RuntimeError
    (fun error =>
       Py.print (Py.nl ++ "Caught the following error:" ++ Py.nl
                 ++ repr error)%string).
End Cells.

(** [rank = np.count_nonzero(s >= s[0] * 1e-4)]; indexing an empty [s]
    raises [IndexError]. *)
Definition conservative_rank (s : list F64.t) : Py.outcome nat :=
  match s with
  | [] => Py.Raised {| Py.exc_type := Py.IndexError;
                       Py.exc_msg := "index 0 is out of bounds" |}
  | s0 :: _ =>
      Py.Returned
        (Np.count_nonzero (map (fun x => F64.geb x (F64.mul s0 tol)) s))
  end.

(** The same count, worded as the notebook explains it: the number of
    singular values within a factor [1e-4] of the largest one. *)
Definition maximum (a b : F64.t) : F64.t := if F64.ltb a b then b else a.

Definition largest (s : list F64.t) : option F64.t :=
  match s with
  | [] => None
  | x :: xs => Some (fold_left maximum xs x)
  end.

Definition rank_within_factor (s : list F64.t) : option nat :=
  match largest s with
  | None => None
  | Some m =>
      Some (Np.count_nonzero (map (fun x => F64.geb x (F64.mul m tol)) s))
  end.

(** [np.linalg.svd] returns the singular values in descending order. *)
Definition descending (s : list F64.t) : Prop :=
  StronglySorted (fun a b => F64.geb a b = true) s.

End Granger.

(** ** The library's rank-deficiency check *)

Module Library.

Import Granger.

(** [1e-6] as a float64. *)
Definition sv_tol : F64.t := S754_finite false 4722366482869645 (-72).

(** Modelled from the spec: what the rank-deficiency check of the
    external library looks at in a recording; the library is not under
    src/.  The spec names "a RuntimeError from a rank-deficiency check",
    "the external library's own validation", and the text of the
    Granger-causality notebook gives its terms: the data "should not be
    rank deficient", "the autocovariance matrix must not be singular or
    close to singular", and whether it is "can depend on, e.g. the number
    of lags".  These are numerical facts of the recorded data, which a
    [recording] carries as they are: the singular values of the data of a
    group of channels, whether the autocovariance sequence of a connection
    (seeds, targets) is singular at given ranks and number of lags, the
    scores the estimation gives when it is not, and the frequencies
    between two bounds. *)
Record recording := {
  singular_values : list nat -> list F64.t;
  singular : list nat -> list nat -> nat * nat -> nat -> bool;
  estimate : list string -> list nat -> list nat -> nat * nat -> nat -> list F64.t;
  frequencies : Z -> Z -> list F64.t
}.

(** Modelled from the spec: the automatic rank computation.  In the
    notebook's words, when [rank] is left as [None] "the rank of the data
    is determined by computing the singular values of the data and finding
    those within a factor of 1e-6 relative to the largest singular
    value". *)
Definition automatic_rank (s : list F64.t) : nat :=
  match s with
  | [] => 0%nat
  | s0 :: _ => Np.count_nonzero (map (fun x => F64.geb x (F64.mul s0 sv_tol)) s)
  end.

Definition automatic_ranks (r : recording) (seeds targets : list nat)
  : nat * nat :=
  (automatic_rank (singular_values r seeds),
   automatic_rank (singular_values r targets)).

(** Modelled from the spec: the error of the check, "a RuntimeError from
    a rank-deficiency check". *)
Definition singular_error : Py.exception :=
  {| Py.exc_type := Py.RuntimeError;
     Py.exc_msg := "the autocovariance matrix is singular; check if your data is rank deficient and specify an appropriate rank argument <= the rank of the seeds and targets" |}.

(** Modelled from the spec: the connections of one call, each checked
    before it is estimated.  In the notebook's words, computing the scores
    "would not succeed, given that the resulting autocovariance sequence
    is singular", and "rigorous checks are implemented to identify any such
    instances": a singular autocovariance sequence is a [RuntimeError]. *)
Fixpoint connections (r : recording) (m : list string) (lags : nat)
  (groups : list (list nat * list nat)) (ranks : list (nat * nat))
  : Py.outcome (Np.array2 F64.t) :=
  match groups, ranks with
  | (seeds, targets) :: groups', rk :: ranks' =>
      if singular r seeds targets rk lags then Py.Raised singular_error
      else
        rows <- connections r m lags groups' ranks' ;;
        Py.Returned (estimate r m seeds targets rk lags :: rows)
  | _, _ => Py.Returned []
  end.

(** Modelled from the spec: [spectral_connectivity_epochs] for the
    Granger-causality methods, as far as the rank-deficiency check goes:
    the ranks are those given in [rank], or the automatic ones when [rank]
    is [None]; every connection is checked, and the result holds one
    spectrum per connection. *)
Definition spectral_connectivity_epochs (r : recording) (a : sce_args)
  : Py.outcome connectivity :=
  let groups := combine (fst (indices a)) (snd (indices a)) in
  let ranks :=
    match rank a with
    | Some (seed_ranks, target_ranks) => combine seed_ranks target_ranks
    | None => map (fun g => automatic_ranks r (fst g) (snd g)) groups
    end in
  data <- connections r (method a) (gc_n_lags a) groups ranks ;;
  Py.Returned {| get_data := data;
                 freqs := frequencies r (fmin a) (fmax a) |}.

(** The recording is rank deficient for the connection from [seeds] to
    [targets]: at the ranks found automatically, its autocovariance
    sequence with [lags] lags is singular. *)
Definition rank_deficient (r : recording) (seeds targets : list nat)
  (lags : nat) : Prop :=
  singular r seeds targets (automatic_ranks r seeds targets) lags = true.

End Library.

(** ** VAR-model notebook *)

Module VAR.

Section Residuals.
Variable F : Type.
Variables add sub : F -> F -> F.

(** [conn.predict], the library's prediction from the fitted model. *)
Variable predict : Np.array3 F -> Np.array3 F.

(** [predicted_data = conn.predict(epochs.get_data())] and
    [residuals = epochs.get_data() - predicted_data]. *)
Definition predicted_data (data : Np.array3 F) : Np.array3 F := predict data.

Definition residuals (data : Np.array3 F) : Np.array3 F :=
  Np.ew3 sub data (predicted_data data).

(** [predicted_data + residuals], the sum the decomposition speaks of. *)
Definition prediction_plus_residuals (data : Np.array3 F) : Np.array3 F :=
  Np.ew3 add (predicted_data data) (residuals data).

End Residuals.

End VAR.

(** ** Notebook comparing connectivity over time and over trials *)

Module Compare.

(** [n_connections = (n_channels * n_channels - n_channels) / 2]: integer
    arithmetic, then Python's true division of two ints, which rounds the
    exact quotient once.  As long as the dividend is below 2^53, far beyond
    any channel count, that is the float division of the two converted
    operands. *)
Definition n_connections (n_channels : Z) : F64.t :=
  F64.div (F64.of_Z (n_channels * n_channels - n_channels)) (F64.of_Z 2).

(** [np.zeros((rows, cols))]. *)
Definition zeros (rows cols : nat) : Np.array2 F64.t :=
  repeat (repeat F64.zero cols) rows.

(** NumPy's summation of one contiguous run of [float64], the inner loop
    of [np.add.reduce]: fewer than eight numbers are added one after the
    other, starting from -0.0; up to 128 numbers go through eight running
    sums, which are added in pairs before the remaining numbers are added
    one by one; a longer run is split in two near the middle, at a multiple
    of eight. *)
Fixpoint unrolled (r a : list F64.t) {struct a} : list F64.t * list F64.t :=
  match a with
  | a0 :: a1 :: a2 :: a3 :: a4 :: a5 :: a6 :: a7 :: rest =>
      unrolled (Np.map2 F64.add r [a0; a1; a2; a3; a4; a5; a6; a7]) rest
  | _ => (r, a)
  end.

Definition blocked_sum (a : list F64.t) : F64.t :=
  let '(r, rest) := unrolled (firstn 8 a) (skipn 8 a) in
  let r := fun k => nth k r (S754_zero true) in
  fold_left F64.add rest
    (F64.add (F64.add (F64.add (r 0%nat) (r 1%nat)) (F64.add (r 2%nat) (r 3%nat)))
             (F64.add (F64.add (r 4%nat) (r 5%nat)) (F64.add (r 6%nat) (r 7%nat)))).

(** [depth] bounds the number of nested splits; the length of the run is
    always enough, since every split at least halves it. *)
Fixpoint pairwise_sum (depth : nat) (a : list F64.t) : F64.t :=
  let n := length a in
  if (n <? 8)%nat then fold_left F64.add a (S754_zero true)
  else if (n <=? 128)%nat then blocked_sum a
  else
    match depth with
    | O => blocked_sum a
    | S depth =>
        let n2 := (n / 2 - (n / 2) mod 8)%nat in
        F64.add (pairwise_sum depth (firstn n2 a))
                (pairwise_sum depth (skipn n2 a))
    end.

(** [np.sum(a, axis=0)] for a C-contiguous [float64] array [a] of shape
    [(n, rows, cols)]; the shape is part of a NumPy array, and is passed
    along since a nested list with no slice does not record it.  The
    result starts as zeros of shape [(rows, cols)].  When a slice holds
    more than one number, the slices are added to it one after the other,
    position by position; when a slice is a single number, the reduction
    runs over one contiguous run and the result is 0.0 plus its pairwise
    sum. *)
Definition sum_axis0 (rows cols : nat) (a : Np.array3 F64.t)
  : Np.array2 F64.t :=
  if (rows * cols =? 1)%nat
  then let run := concat (map (@concat F64.t) a) in
       [[F64.add F64.zero (pairwise_sum (length run) run)]]
  else fold_left (Np.ew2 F64.add) a (zeros rows cols).

(** [global_con_epochs = np.sum(con_epochs_raveled_array, axis=0) /
    n_connections], then [global_con_epochs[0]], the only frequency band;
    the raveled array has shape [(n, n_freq_bands, n_times)]. *)
Definition global_con_epochs (n_channels : Z) (n_freq_bands n_times : nat)
    (con_epochs_raveled_array : Np.array3 F64.t)
  : Py.outcome (Np.array1 F64.t) :=
  match map (map (fun v => F64.div v (n_connections n_channels)))
            (sum_axis0 n_freq_bands n_times con_epochs_raveled_array) with
  | [] => Py.Raised {| Py.exc_type := Py.IndexError;
                       Py.exc_msg := "index 0 is out of bounds" |}
  | band :: _ => Py.Returned band
  end.

(** The values of all connections at frequency band [f] and time [t]. *)
Fixpoint column {F : Type} (a : Np.array3 F) (f t : nat) : option (list F) :=
  match a with
  | [] => Some []
  | m :: ms =>
      match Np.item2 m f t, column ms f t with
      | Some v, Some vs => Some (v :: vs)
      | _, _ => None
      end
  end.

(** [dense[i, j, f, t]] of the connectivity in matrix form, one block of
    shape [(n_freq_bands, n_times)] per ordered pair of channels; [None]
    when an index is out of range.  The raveled form lists the blocks row
    after row. *)
Definition dense_item (dense : list (list (Np.array2 F64.t)))
    (i j f t : nat) : option F64.t :=
  match nth_error dense i with
  | Some row =>
      match nth_error row j with
      | Some m => Np.item2 m f t
      | None => None
      end
  | None => None
  end.

(** The unordered pairs of distinct channels among [n] channels, each
    listed once with the larger index first. *)
Definition channel_pairs (n : nat) : list (nat * nat) :=
  flat_map (fun i => map (fun j => (i, j)) (seq 0 i)) (seq 0 n).

End Compare.

(** ** Event-parsing notebook *)

Module Events.



(** What the constructor does with a duration or a description given as a
    sequence of one item: it repeats it for every onset
    ([np.repeat(duration, len(onset))]). *)
Definition broadcast {A : Type} (n : nat) (xs : list A) : list A :=
  match xs with
  | [x] => repeat x n
  | _ => xs
  end.








End Events.

(** ** The notebooks as programs

    Each notebook is a list of code cells, each cell a list of Python
    statements.  Expressions keep names, attribute access, calls with their
    positional and keyword arguments, and literals; every other expression
    form ([a - b], [a[i]], tuples, comprehensions, ...) is an [Op] node over
    its sub-expressions in evaluation order (for a comprehension: the
    iterable, the loop variable, the conditions, the element). *)

Module Ast.

Local Open Scope string_scope.
Local Open Scope list_scope.

Inductive expr :=
| Name (id : string)
| Str (s : string)
| Num (src : string)
| Lit (src : string)
| Attr (e : expr) (attr : string)
| Call (f : expr) (args : list expr) (kwargs : list (string * expr))
| Op (kind : string) (es : list expr).

Inductive stmt :=
| Import (module local : string)
| ImportFrom (module name local : string)
| Assign (targets : list expr) (value : expr)
| AugAssign (target : expr) (op : string) (value : expr)
| Expr (value : expr)
| FunctionDef (name : string) (params : list string) (body : list stmt)
| ClassDef (name : string) (body : list stmt)
| For (target iter : expr) (body : list stmt)
| If (test : expr) (body orelse : list stmt)
| Try (body : list stmt) (exc bound : string) (handler : list stmt)
| Return (value : expr)
| Delete (targets : list expr)
| Continue.

Record notebook := { path : string; cells : list (list stmt) }.

Definition code (nb : notebook) : list stmt := concat (cells nb).

(** *** Definitions and imports *)

Fixpoint function_defs (s : stmt) : list string :=
  match s with
  | FunctionDef name _ body => name :: flat_map function_defs body
  | ClassDef _ body | For _ _ body => flat_map function_defs body
  | If _ body orelse => flat_map function_defs body ++ flat_map function_defs orelse
  | Try body _ _ handler => flat_map function_defs body ++ flat_map function_defs handler
  | _ => []
  end.

Fixpoint class_defs (s : stmt) : list string :=
  match s with
  | ClassDef name body => name :: flat_map class_defs body
  | FunctionDef _ _ body | For _ _ body => flat_map class_defs body
  | If _ body orelse => flat_map class_defs body ++ flat_map class_defs orelse
  | Try body _ _ handler => flat_map class_defs body ++ flat_map class_defs handler
  | _ => []
  end.

(** The local name an import binds, with the dotted name it stands for. *)
Fixpoint imports (s : stmt) : list (string * string) :=
  match s with
  | Import module local => [(local, module)]
  | ImportFrom module name local => [(local, module ++ "." ++ name)%string]
  | FunctionDef _ _ body | ClassDef _ body | For _ _ body => flat_map imports body
  | If _ body orelse => flat_map imports body ++ flat_map imports orelse
  | Try body _ _ handler => flat_map imports body ++ flat_map imports handler
  | _ => []
  end.

(** *** Call sites *)

Record call := { callee : expr; args : list expr; kwargs : list (string * expr) }.

(** The calls of an expression, in evaluation order: the callee expression
    and the arguments are evaluated before the call itself. *)
Fixpoint calls_expr (e : expr) : list call :=
  match e with
  | Call f args kwargs =>
      calls_expr f ++ flat_map calls_expr args
      ++ flat_map (fun kv => calls_expr (snd kv)) kwargs
      ++ [{| callee := f; args := args; kwargs := kwargs |}]
  | Attr e' _ => calls_expr e'
  | Op _ es => flat_map calls_expr es
  | _ => []
  end.

(** Every call written in a statement, bodies of compound statements and
    of function definitions included. *)
Fixpoint calls_stmt (s : stmt) : list call :=
  match s with
  | Assign targets value => calls_expr value ++ flat_map calls_expr targets
  | AugAssign target _ value => calls_expr target ++ calls_expr value
  | Expr value | Return value => calls_expr value
  | FunctionDef _ _ body | ClassDef _ body => flat_map calls_stmt body
  | For target iter body => calls_expr iter ++ flat_map calls_stmt body
  | If test body orelse =>
      calls_expr test ++ flat_map calls_stmt body ++ flat_map calls_stmt orelse
  | Try body _ _ handler => flat_map calls_stmt body ++ flat_map calls_stmt handler
  | Delete targets => flat_map calls_expr targets
  | _ => []
  end.

Definition calls (nb : notebook) : list call := flat_map calls_stmt (code nb).

(** *** Resolving a callee *)

Inductive target :=
| Lib (qualified : string)      (* a name reached through an import *)
| Local (name : string)         (* a function the notebook defines *)
| Builtin (name : string)       (* a bare name that is neither *)
| Method (name : string).       (* an attribute of a value *)

Fixpoint lookup (x : string) (env : list (string * string)) : option string :=
  match env with
  | [] => None
  | (k, v) :: env' => if String.eqb k x then Some v else lookup x env'
  end.

(** The dotted name an expression spells, resolved through the imports. *)
Fixpoint dotted (al : list (string * string)) (e : expr) : option string :=
  match e with
  | Name x => lookup x al
  | Attr e' a =>
      match dotted al e' with
      | Some q => Some (q ++ "." ++ a)%string
      | None => None
      end
  | _ => None
  end.

Definition mem (x : string) (xs : list string) : bool :=
  existsb (String.eqb x) xs.

Definition resolve (nb : notebook) (f : expr) : target :=
  match dotted (flat_map imports (code nb)) f with
  | Some q => Lib q
  | None =>
      match f with
      | Name x =>
          if mem x (flat_map function_defs (code nb)) then Local x else Builtin x
      | Attr _ a => Method a
      | _ => Method ""
      end
  end.

Definition targets (nb : notebook) : list target :=
  map (fun c => resolve nb (callee c)) (calls nb).

(** *** Names *)

Fixpoint suffix (s t : string) {struct t} : bool :=
  String.eqb s t ||
  match t with
  | EmptyString => false
  | String _ t' => suffix s t'
  end.

(** The first component of a dotted name (the top-level package). *)
Fixpoint package (q : string) : string :=
  match q with
  | EmptyString => EmptyString
  | String c q' => if Ascii.eqb c "." then EmptyString else String c (package q')
  end.

(** The last component of a dotted name. *)
Fixpoint last_component (acc q : string) : string :=
  match q with
  | EmptyString => acc
  | String c q' =>
      if Ascii.eqb c "." then last_component EmptyString q'
      else last_component (acc ++ String c EmptyString) q'
  end.

Definition target_name (t : target) : string :=
  match t with
  | Lib q => last_component EmptyString q
  | Local x | Builtin x | Method x => x
  end.

Definition kwarg (k : string) (c : call) : option expr :=
  match find (fun kv => String.eqb (fst kv) k) (kwargs c) with
  | Some kv => Some (snd kv)
  | None => None
  end.

(** *** Assignments and function bodies *)

(** Every assignment statement, with its targets and its value. *)
Fixpoint assignments (s : stmt) : list (list expr * expr) :=
  match s with
  | Assign targets value => [(targets, value)]
  | FunctionDef _ _ body | ClassDef _ body | For _ _ body =>
      flat_map assignments body
  | If _ body orelse => flat_map assignments body ++ flat_map assignments orelse
  | Try body _ _ handler =>
      flat_map assignments body ++ flat_map assignments handler
  | _ => []
  end.

Fixpoint function_bodies (s : stmt) : list (string * list stmt) :=
  match s with
  | FunctionDef name _ body => (name, body) :: flat_map function_bodies body
  | ClassDef _ body | For _ _ body => flat_map function_bodies body
  | If _ body orelse =>
      flat_map function_bodies body ++ flat_map function_bodies orelse
  | Try body _ _ handler =>
      flat_map function_bodies body ++ flat_map function_bodies handler
  | _ => []
  end.

(** The targets of the calls written in the body of a function the
    notebook defines. *)
Definition body_targets (nb : notebook) (name : string) : list target :=
  flat_map (fun nb_body =>
              if String.eqb (fst nb_body) name
              then map (fun c => resolve nb (callee c))
                       (flat_map calls_stmt (snd nb_body))
              else [])
           (flat_map function_bodies (code nb)).

End Ast.

(** ** The nine notebooks of the repository

    The code cells in order; markdown cells are left out, a cell holding
    only comments is empty.  String literals are written with Python's
    escapes. *)

Module Repo.
Import Ast.

Local Open Scope string_scope.
Local Open Scope list_scope.

Definition granger_causality : notebook :=
  {| path := "unnamed/part_000";
     cells := [
    [];
    [
      Import "mne" "mne";
      Import "numpy" "np";
      ImportFrom "matplotlib" "pyplot" "plt";
      ImportFrom "mne.datasets.fieldtrip_cmc" "data_path" "data_path";
      ImportFrom "mne_connectivity" "spectral_connectivity_epochs" "spectral_connectivity_epochs"
    ];
    [
      Assign [Name "raw"] (Call (Attr (Attr (Name "mne") "io") "read_raw_ctf") [Op "/" [Call (Name "data_path") [] []; Str "SubjectCMC.ds"]] []);
      Expr (Call (Attr (Name "raw") "pick") [Str "mag"] []);
      Expr (Call (Attr (Call (Attr (Name "raw") "crop") [Num "50.0"; Num "110.0"] []) "load_data") [] []);
      Expr (Call (Attr (Name "raw") "notch_filter") [Num "50"] []);
      Expr (Call (Attr (Name "raw") "resample") [Num "100"] []);
      Assign [Name "epochs"] (Call (Attr (Call (Attr (Name "mne") "make_fixed_length_epochs") [Name "raw"] [("duration", Num "2.0")]) "load_data") [] [])
    ];
    [
      Assign [Name "signals_a"] (Op "listcomp" [Call (Name "enumerate") [Op "subscript" [Attr (Name "epochs") "info"; Str "chs"]] []; Op "tuple" [Name "idx"; Name "ch_info"]; Op "==" [Op "subscript" [Op "subscript" [Name "ch_info"; Str "ch_name"]; Num "2"]; Str "P"]; Name "idx"]);
      Assign [Name "signals_b"] (Op "listcomp" [Call (Name "enumerate") [Op "subscript" [Attr (Name "epochs") "info"; Str "chs"]] []; Op "tuple" [Name "idx"; Name "ch_info"]; Op "==" [Op "subscript" [Op "subscript" [Name "ch_info"; Str "ch_name"]; Num "2"]; Str "O"]; Name "idx"]);
      Assign [Name "indices_ab"] (Op "tuple" [Call (Attr (Name "np") "array") [Op "list" [Name "signals_a"]] []; Call (Attr (Name "np") "array") [Op "list" [Name "signals_b"]] []]);
      Assign [Name "indices_ba"] (Op "tuple" [Call (Attr (Name "np") "array") [Op "list" [Name "signals_b"]] []; Call (Attr (Name "np") "array") [Op "list" [Name "signals_a"]] []]);
      Assign [Name "gc_ab"] (Call (Name "spectral_connectivity_epochs") [Name "epochs"] [("method", Op "list" [Str "gc"]); ("indices", Name "indices_ab"); ("fmin", Num "5"); ("fmax", Num "30"); ("rank", Op "tuple" [Call (Attr (Name "np") "array") [Op "list" [Num "5"]] []; Call (Attr (Name "np") "array") [Op "list" [Num "5"]] []]); ("gc_n_lags", Num "20")]);
      Assign [Name "gc_ba"] (Call (Name "spectral_connectivity_epochs") [Name "epochs"] [("method", Op "list" [Str "gc"]); ("indices", Name "indices_ba"); ("fmin", Num "5"); ("fmax", Num "30"); ("rank", Op "tuple" [Call (Attr (Name "np") "array") [Op "list" [Num "5"]] []; Call (Attr (Name "np") "array") [Op "list" [Num "5"]] []]); ("gc_n_lags", Num "20")]);
      Assign [Name "freqs"] (Attr (Name "gc_ab") "freqs")
    ];
    [
      Assign [Op "tuple" [Name "fig"; Name "axis"]] (Call (Attr (Name "plt") "subplots") [Num "1"; Num "1"] []);
      Expr (Call (Attr (Name "axis") "plot") [Name "freqs"; Op "subscript" [Call (Attr (Name "gc_ab") "get_data") [] []; Num "0"]] [("linewidth", Num "2")]);
      Expr (Call (Attr (Name "axis") "set_xlabel") [Str "Frequency (Hz)"] []);
      Expr (Call (Attr (Name "axis") "set_ylabel") [Str "Connectivity (A.U.)"] []);
      Expr (Call (Attr (Name "fig") "suptitle") [Str "GC: [A => B]"] [])
    ];
    [
      Assign [Name "net_gc"] (Op "-" [Call (Attr (Name "gc_ab") "get_data") [] []; Call (Attr (Name "gc_ba") "get_data") [] []]);
      Assign [Op "tuple" [Name "fig"; Name "axis"]] (Call (Attr (Name "plt") "subplots") [Num "1"; Num "1"] []);
      Expr (Call (Attr (Name "axis") "plot") [Op "tuple" [Op "subscript" [Name "freqs"; Num "0"]; Op "subscript" [Name "freqs"; Op "unary -" [Num "1"]]]; Op "tuple" [Num "0"; Num "0"]] [("linewidth", Num "2"); ("linestyle", Str "--"); ("color", Str "k")]);
      Expr (Call (Attr (Name "axis") "plot") [Name "freqs"; Op "subscript" [Name "net_gc"; Num "0"]] [("linewidth", Num "2")]);
      Expr (Call (Attr (Name "axis") "set_xlabel") [Str "Frequency (Hz)"] []);
      Expr (Call (Attr (Name "axis") "set_ylabel") [Str "Connectivity (A.U.)"] []);
      Expr (Call (Attr (Name "fig") "suptitle") [Str "Net GC: [A => B] - [B => A]"] [])
    ];
    [
      Assign [Name "gc_tr_ab"] (Call (Name "spectral_connectivity_epochs") [Name "epochs"] [("method", Op "list" [Str "gc_tr"]); ("indices", Name "indices_ab"); ("fmin", Num "5"); ("fmax", Num "30"); ("rank", Op "tuple" [Call (Attr (Name "np") "array") [Op "list" [Num "5"]] []; Call (Attr (Name "np") "array") [Op "list" [Num "5"]] []]); ("gc_n_lags", Num "20")]);
      Assign [Name "gc_tr_ba"] (Call (Name "spectral_connectivity_epochs") [Name "epochs"] [("method", Op "list" [Str "gc_tr"]); ("indices", Name "indices_ba"); ("fmin", Num "5"); ("fmax", Num "30"); ("rank", Op "tuple" [Call (Attr (Name "np") "array") [Op "list" [Num "5"]] []; Call (Attr (Name "np") "array") [Op "list" [Num "5"]] []]); ("gc_n_lags", Num "20")]);
      Assign [Name "net_gc_tr"] (Op "-" [Call (Attr (Name "gc_tr_ab") "get_data") [] []; Call (Attr (Name "gc_tr_ba") "get_data") [] []]);
      Assign [Name "trgc"] (Op "-" [Name "net_gc"; Name "net_gc_tr"])
    ];
    [
      Assign [Op "tuple" [Name "fig"; Name "axis"]] (Call (Attr (Name "plt") "subplots") [Num "1"; Num "1"] []);
      Expr (Call (Attr (Name "axis") "plot") [Op "tuple" [Op "subscript" [Name "freqs"; Num "0"]; Op "subscript" [Name "freqs"; Op "unary -" [Num "1"]]]; Op "tuple" [Num "0"; Num "0"]] [("linewidth", Num "2"); ("linestyle", Str "--"); ("color", Str "k")]);
      Expr (Call (Attr (Name "axis") "plot") [Name "freqs"; Op "subscript" [Name "trgc"; Num "0"]] [("linewidth", Num "2")]);
      Expr (Call (Attr (Name "axis") "set_xlabel") [Str "Frequency (Hz)"] []);
      Expr (Call (Attr (Name "axis") "set_ylabel") [Str "Connectivity (A.U.)"] []);
      Expr (Call (Attr (Name "fig") "suptitle") [Str "TRGC: net[A => B] - net time-reversed[A => B]"] [])
    ];
    [
      Assign [Name "gc_ab_60"] (Call (Name "spectral_connectivity_epochs") [Name "epochs"] [("method", Op "list" [Str "gc"]); ("indices", Name "indices_ab"); ("fmin", Num "5"); ("fmax", Num "30"); ("rank", Op "tuple" [Call (Attr (Name "np") "array") [Op "list" [Num "5"]] []; Call (Attr (Name "np") "array") [Op "list" [Num "5"]] []]); ("gc_n_lags", Num "60")]);
      Assign [Op "tuple" [Name "fig"; Name "axis"]] (Call (Attr (Name "plt") "subplots") [Num "1"; Num "1"] []);
      Expr (Call (Attr (Name "axis") "plot") [Name "freqs"; Op "subscript" [Call (Attr (Name "gc_ab") "get_data") [] []; Num "0"]] [("linewidth", Num "2"); ("label", Str "20 lags")]);
      Expr (Call (Attr (Name "axis") "plot") [Name "freqs"; Op "subscript" [Call (Attr (Name "gc_ab_60") "get_data") [] []; Num "0"]] [("linewidth", Num "2"); ("label", Str "60 lags")]);
      Expr (Call (Attr (Name "axis") "set_xlabel") [Str "Frequency (Hz)"] []);
      Expr (Call (Attr (Name "axis") "set_ylabel") [Str "Connectivity (A.U.)"] []);
      Expr (Call (Attr (Name "axis") "legend") [] []);
      Expr (Call (Attr (Name "fig") "suptitle") [Str "GC: [A => B]"] [])
    ];
    [
      Assign [Name "s"] (Call (Attr (Attr (Name "np") "linalg") "svd") [Call (Attr (Name "raw") "get_data") [] []] [("compute_uv", Lit "False")]);
      Assign [Name "rank"] (Call (Attr (Name "np") "count_nonzero") [Op ">=" [Name "s"; Op "*" [Op "subscript" [Name "s"; Num "0"]; Num "1e-4"]]] [])
    ];
    [
      Try [
        Expr (Call (Name "spectral_connectivity_epochs") [Name "epochs"] [("method", Op "list" [Str "gc"]); ("indices", Name "indices_ab"); ("fmin", Num "5"); ("fmax", Num "30"); ("rank", Lit "None"); ("gc_n_lags", Num "20"); ("verbose", Lit "False")]);
        Expr (Call (Name "print") [Str "Success!"] [])
      ] "RuntimeError" "error" [
        Expr (Call (Name "print") [Op "+" [Str "\nCaught the following error:\n"; Call (Name "repr") [Name "error"] []]] [])
      ]
    ]
  ] |}.

Definition seed_tfr_connectivity : notebook :=
  {| path := "unnamed/part_001";
     cells := [
    [
      Import "os.path" "op";
      Import "mne" "mne";
      Import "numpy" "np";
      ImportFrom "mne" "io" "io";
      ImportFrom "mne.datasets" "sample" "sample";
      ImportFrom "mne.time_frequency" "AverageTFRArray" "AverageTFRArray";
      ImportFrom "mne_connectivity" "seed_target_indices" "seed_target_indices";
      ImportFrom "mne_connectivity" "spectral_connectivity_epochs" "spectral_connectivity_epochs";
      Expr (Call (Name "print") [Name "__doc__"] [])
    ];
    [
      Assign [Name "data_path"] (Call (Attr (Name "sample") "data_path") [] []);
      Assign [Name "raw_fname"] (Call (Attr (Name "op") "join") [Name "data_path"; Str "MEG"; Str "sample"; Str "sample_audvis_filt-0-40_raw.fif"] []);
      Assign [Name "event_fname"] (Call (Attr (Name "op") "join") [Name "data_path"; Str "MEG"; Str "sample"; Str "sample_audvis_filt-0-40_raw-eve.fif"] []);
      Assign [Name "raw"] (Call (Attr (Name "io") "read_raw_fif") [Name "raw_fname"] []);
      Assign [Name "events"] (Call (Attr (Name "mne") "read_events") [Name "event_fname"] []);
      AugAssign (Op "subscript" [Attr (Name "raw") "info"; Str "bads"]) "+" (Op "list" [Str "MEG 2443"]);
      Assign [Name "picks"] (Call (Attr (Name "mne") "pick_types") [Attr (Name "raw") "info"] [("meg", Str "grad"); ("eeg", Lit "False"); ("stim", Lit "False"); ("eog", Lit "True"); ("exclude", Str "bads")]);
      Assign [Op "tuple" [Name "event_id"; Name "tmin"; Name "tmax"]] (Op "tuple" [Num "3"; Op "unary -" [Num "0.2"]; Num "0.5"]);
      Assign [Name "epochs"] (Call (Attr (Name "mne") "Epochs") [Name "raw"; Name "events"; Name "event_id"; Name "tmin"; Name "tmax"] [("picks", Name "picks"); ("baseline", Op "tuple" [Lit "None"; Num "0"]); ("reject", Call (Name "dict") [] [("grad", Num "4000e-13"); ("eog", Num "150e-6")]); ("preload", Lit "True")]);
      Assign [Name "seed_ch"] (Str "MEG 2343");
      Assign [Name "picks_ch_names"] (Op "listcomp" [Name "picks"; Name "i"; Op "subscript" [Attr (Name "raw") "ch_names"; Name "i"]]);
      Assign [Name "seed"] (Call (Attr (Name "picks_ch_names") "index") [Name "seed_ch"] []);
      Assign [Name "targets"] (Call (Attr (Name "np") "arange") [Call (Name "len") [Name "picks"] []] []);
      Assign [Name "indices"] (Call (Name "seed_target_indices") [Name "seed"; Name "targets"] []);
      Assign [Name "cwt_freqs"] (Call (Attr (Name "np") "arange") [Num "7"; Num "30"; Num "2"] []);
      Assign [Name "cwt_n_cycles"] (Op "/" [Name "cwt_freqs"; Num "7.0"]);
      Assign [Name "sfreq"] (Op "subscript" [Attr (Name "raw") "info"; Str "sfreq"]);
      Assign [Name "con"] (Call (Name "spectral_connectivity_epochs") [Name "epochs"] [("indices", Name "indices"); ("method", Str "wpli2_debiased"); ("mode", Str "cwt_morlet"); ("sfreq", Name "sfreq"); ("cwt_freqs", Name "cwt_freqs"); ("cwt_n_cycles", Name "cwt_n_cycles"); ("n_jobs", Num "1")]);
      Assign [Name "times"] (Attr (Name "con") "times");
      Assign [Name "freqs"] (Attr (Name "con") "freqs");
      Assign [Op "subscript" [Call (Attr (Name "con") "get_data") [] []; Call (Attr (Name "np") "where") [Op "==" [Op "subscript" [Name "indices"; Num "1"]; Name "seed"]] []]] (Num "1.0");
      Assign [Name "title"] (Op "%" [Str "WPLI2 - Visual - Seed %s"; Name "seed_ch"]);
      Assign [Name "layout"] (Call (Attr (Name "mne") "find_layout") [Attr (Name "epochs") "info"; Str "meg"] []);
      Assign [Name "tfr"] (Call (Name "AverageTFRArray") [Attr (Name "epochs") "info"; Call (Attr (Name "con") "get_data") [] []; Name "times"; Name "freqs"] [("nave", Call (Name "len") [Name "epochs"] [])]);
      Expr (Call (Attr (Name "tfr") "plot_topo") [] [("fig_facecolor", Str "w"); ("font_color", Str "k"); ("border", Str "k")])
    ]
  ] |}.

Definition compare_coherency_methods : notebook :=
  {| path := "unnamed/part_002";
     cells := [
    [];
    [
      Import "numpy" "np";
      ImportFrom "matplotlib" "pyplot" "plt";
      ImportFrom "mne_connectivity" "make_signals_in_freq_bands" "make_signals_in_freq_bands";
      ImportFrom "mne_connectivity" "seed_target_indices" "seed_target_indices";
      ImportFrom "mne_connectivity" "spectral_connectivity_epochs" "spectral_connectivity_epochs"
    ];
    [
      Assign [Name "data_delay"] (Call (Name "make_signals_in_freq_bands") [] [("n_seeds", Num "3"); ("n_targets", Num "3"); ("freq_band", Op "tuple" [Num "10"; Num "12"]); ("connection_delay", Num "2"); ("rng_seed", Num "42")]);
      Assign [Name "data_no_delay"] (Call (Name "make_signals_in_freq_bands") [] [("n_seeds", Num "3"); ("n_targets", Num "3"); ("freq_band", Op "tuple" [Num "23"; Num "25"]); ("connection_delay", Num "0"); ("rng_seed", Num "44")]);
      Assign [Name "data"] (Call (Attr (Name "data_delay") "add_channels") [Op "list" [Name "data_no_delay"]] [])
    ];
    [
      Assign [Name "seeds"] (Op "list" [Num "0"; Num "1"; Num "2"; Num "6"; Num "7"; Num "8"]);
      Assign [Name "targets"] (Op "list" [Num "3"; Num "4"; Num "5"; Num "9"; Num "10"; Num "11"]);
      Assign [Name "bivar_indices"] (Call (Name "seed_target_indices") [Name "seeds"; Name "targets"] []);
      Assign [Name "multivar_indices"] (Op "tuple" [Op "list" [Name "seeds"]; Op "list" [Name "targets"]]);
      Assign [Op "tuple" [Name "cacoh"; Name "mic"]] (Call (Name "spectral_connectivity_epochs") [Name "data"] [("method", Op "list" [Str "cacoh"; Str "mic"]); ("indices", Name "multivar_indices"); ("sfreq", Num "100"); ("fmin", Num "3"); ("fmax", Num "35")])
    ];
    [
      Assign [Op "tuple" [Name "fig"; Name "axis"]] (Call (Attr (Name "plt") "subplots") [Num "1"; Num "1"] []);
      Expr (Call (Attr (Name "axis") "plot") [Attr (Name "cacoh") "freqs"; Call (Attr (Name "np") "abs") [Op "subscript" [Call (Attr (Name "cacoh") "get_data") [] []; Num "0"]] []] [("linewidth", Num "2"); ("label", Str "CaCoh")]);
      Expr (Call (Attr (Name "axis") "plot") [Attr (Name "mic") "freqs"; Call (Attr (Name "np") "abs") [Op "subscript" [Call (Attr (Name "mic") "get_data") [] []; Num "0"]] []] [("linewidth", Num "2"); ("label", Str "MIC"); ("linestyle", Str "--")]);
      Expr (Call (Attr (Name "axis") "set_xlabel") [Str "Frequency (Hz)"] []);
      Expr (Call (Attr (Name "axis") "set_ylabel") [Str "Connectivity (A.U.)"] []);
      Expr (Call (Attr (Name "axis") "annotate") [Str "Non-zero\ntime-lag\ninteraction"] [("xy", Op "tuple" [Num "13.5"; Num "0.85"])]);
      Expr (Call (Attr (Name "axis") "annotate") [Str "Zero\ntime-lag\ninteraction"] [("xy", Op "tuple" [Num "26.5"; Num "0.85"])]);
      Expr (Call (Attr (Name "axis") "legend") [] [("loc", Str "upper left")]);
      Expr (Call (Attr (Name "fig") "suptitle") [Str "CaCoh vs. MIC\nNon-zero & zero time-lags"] [])
    ];
    [
      FunctionDef "plot_connectivity_circle" [] [
        Expr (Str "Plot a circle with radius 1, real and imag. axes, and angles marked.");
        Assign [Op "tuple" [Name "fig"; Name "axis"]] (Call (Attr (Name "plt") "subplots") [Num "1"; Num "1"] []);
        Assign [Name "t"] (Call (Attr (Name "np") "linspace") [Num "0"; Op "*" [Num "2"; Attr (Name "np") "pi"]; Num "100"] []);
        Expr (Call (Attr (Name "axis") "plot") [Call (Attr (Name "np") "cos") [Name "t"] []; Call (Attr (Name "np") "sin") [Name "t"] []] [("color", Str "k"); ("linewidth", Num "0.1")]);
        Expr (Call (Attr (Name "axis") "plot") [Op "list" [Op "unary -" [Num "1"]; Num "1"]; Op "list" [Num "0"; Num "0"]] [("color", Str "k"); ("linestyle", Str "--")]);
        Expr (Call (Attr (Name "axis") "plot") [Op "list" [Num "0"; Num "0"]; Op "list" [Op "unary -" [Num "1"]; Num "1"]] [("color", Str "k"); ("linestyle", Str "--")]);
        Expr (Call (Attr (Name "axis") "axis") [Str "off"] []);
        Assign [Name "fontdict"] (Op "dict" [Str "fontsize"; Num "10"]);
        Assign [Name "qpi"] (Op "/" [Attr (Name "np") "pi"; Num "4"]);
        Expr (Call (Attr (Name "axis") "text") [Num "1"; Num "0"; Str " 0\u00b0"] [("ha", Str "left"); ("va", Str "center"); ("fontdict", Name "fontdict")]);
        Expr (Call (Attr (Name "axis") "text") [Op "/" [Attr (Name "np") "pi"; Num "4"]; Op "/" [Attr (Name "np") "pi"; Num "4"]; Str "45\u00b0"] [("ha", Str "center"); ("va", Str "center"); ("fontdict", Name "fontdict")]);
        Expr (Call (Attr (Name "axis") "text") [Num "0"; Num "1"; Str "90\u00b0"] [("ha", Str "center"); ("va", Str "bottom"); ("fontdict", Name "fontdict")]);
        Expr (Call (Attr (Name "axis") "text") [Op "unary -" [Name "qpi"]; Name "qpi"; Str "135\u00b0"] [("ha", Str "center"); ("va", Str "center"); ("fontdict", Name "fontdict")]);
        Expr (Call (Attr (Name "axis") "text") [Op "unary -" [Num "1"]; Num "0"; Str "180\u00b0"] [("ha", Str "right"); ("va", Str "center"); ("fontdict", Name "fontdict")]);
        Expr (Call (Attr (Name "axis") "text") [Op "unary -" [Name "qpi"]; Op "unary -" [Name "qpi"]; Str "-135\u00b0"] [("ha", Str "center"); ("va", Str "center"); ("fontdict", Name "fontdict")]);
        Expr (Call (Attr (Name "axis") "text") [Num "0"; Op "unary -" [Num "1"]; Str "-90\u00b0"] [("ha", Str "center"); ("va", Str "top"); ("fontdict", Name "fontdict")]);
        Expr (Call (Attr (Name "axis") "text") [Name "qpi"; Op "unary -" [Name "qpi"]; Str "-45\u00b0"] [("ha", Str "center"); ("va", Str "center"); ("fontdict", Name "fontdict")]);
        Assign [Name "fontdict"] (Op "dict" [Str "fontsize"; Num "12"]);
        Expr (Call (Attr (Name "axis") "text") [Num "1.15"; Num "0"; Str " Real"] [("ha", Str "left"); ("va", Str "center"); ("fontdict", Name "fontdict")]);
        Expr (Call (Attr (Name "axis") "text") [Num "0"; Num "1.15"; Str "Imaginary"] [("ha", Str "center"); ("va", Str "bottom"); ("fontdict", Name "fontdict")]);
        Expr (Call (Attr (Name "axis") "text") [Num "0"; Num "0"; Str "0 "] [("ha", Str "right"); ("va", Str "top"); ("fontdict", Name "fontdict")]);
        Expr (Call (Attr (Name "axis") "text") [Op "unary -" [Num "1"]; Num "0"; Str "-1"] [("ha", Str "left"); ("va", Str "top"); ("fontdict", Name "fontdict")]);
        Expr (Call (Attr (Name "axis") "text") [Num "1"; Num "0"; Str "+1"] [("ha", Str "right"); ("va", Str "top"); ("fontdict", Name "fontdict")]);
        Expr (Call (Attr (Name "axis") "text") [Num "0"; Op "unary -" [Num "1"]; Str "-1 "] [("ha", Str "right"); ("va", Str "bottom"); ("fontdict", Name "fontdict")]);
        Expr (Call (Attr (Name "axis") "text") [Num "0"; Num "1"; Str "+1 "] [("ha", Str "right"); ("va", Str "top"); ("fontdict", Name "fontdict")]);
        Expr (Call (Attr (Name "axis") "set_aspect") [Str "equal"] []);
        Return (Op "tuple" [Name "fig"; Name "axis"])
      ]
    ];
    [
      Assign [Name "freqs"] (Attr (Name "cacoh") "freqs");
      Assign [Name "cacoh_10_12"] (Call (Attr (Name "np") "mean") [Op "subscript" [Call (Attr (Name "cacoh") "get_data") [] []; Op "tuple" [Num "0"; Op "slice" [Call (Attr (Name "freqs") "index") [Num "10"] []; Op "+" [Call (Attr (Name "freqs") "index") [Num "12"] []; Num "1"]; Lit "None"]]]] []);
      Assign [Name "cacoh_23_25"] (Call (Attr (Name "np") "mean") [Op "subscript" [Call (Attr (Name "cacoh") "get_data") [] []; Op "tuple" [Num "0"; Op "slice" [Call (Attr (Name "freqs") "index") [Num "23"] []; Op "+" [Call (Attr (Name "freqs") "index") [Num "25"] []; Num "1"]; Lit "None"]]]] []);
      Assign [Op "tuple" [Name "fig"; Name "axis"]] (Call (Name "plot_connectivity_circle") [] []);
      Expr (Call (Attr (Name "axis") "quiver") [Num "0"; Num "0"; Call (Attr (Name "np") "real") [Name "cacoh_10_12"] []; Call (Attr (Name "np") "imag") [Name "cacoh_10_12"] []] [("units", Str "xy"); ("scale", Num "1"); ("linewidth", Num "2"); ("color", Str "C2"); ("label", Str "10-12 Hz")]);
      Expr (Call (Attr (Name "axis") "quiver") [Num "0"; Num "0"; Call (Attr (Name "np") "real") [Name "cacoh_23_25"] []; Call (Attr (Name "np") "imag") [Name "cacoh_23_25"] []] [("units", Str "xy"); ("scale", Num "1"); ("linewidth", Num "2"); ("color", Str "C3"); ("label", Str "23-25 Hz"); ("zorder", Num "99")]);
      Expr (Call (Attr (Name "axis") "legend") [] [("loc", Str "upper right"); ("bbox_to_anchor", Op "list" [Num "1.1"; Num "1.1"])])
    ];
    [
      Assign [Op "tuple" [Name "coh"; Name "imcoh"]] (Call (Name "spectral_connectivity_epochs") [Name "data"] [("method", Op "list" [Str "coh"; Str "imcoh"]); ("indices", Name "bivar_indices"); ("sfreq", Num "100"); ("fmin", Num "3"); ("fmax", Num "35")]);
      Assign [Name "coh_mean"] (Call (Attr (Name "np") "mean") [Call (Attr (Name "coh") "get_data") [] []] [("axis", Num "0")]);
      Assign [Name "imcoh_mean"] (Call (Attr (Name "np") "mean") [Call (Attr (Name "np") "abs") [Call (Attr (Name "imcoh") "get_data") [] []] []] [("axis", Num "0")]);
      Assign [Name "coh_mean_subbed"] (Op "-" [Name "coh_mean"; Call (Attr (Name "np") "mean") [Name "coh_mean"] []]);
      Assign [Name "imcoh_mean_subbed"] (Op "-" [Name "imcoh_mean"; Call (Attr (Name "np") "mean") [Name "imcoh_mean"] []]);
      Assign [Op "tuple" [Name "fig"; Name "axis"]] (Call (Attr (Name "plt") "subplots") [Num "1"; Num "1"] []);
      Expr (Call (Attr (Name "axis") "plot") [Attr (Name "coh") "freqs"; Name "coh_mean_subbed"] [("linewidth", Num "2"); ("label", Str "Coh")]);
      Expr (Call (Attr (Name "axis") "plot") [Attr (Name "imcoh") "freqs"; Name "imcoh_mean_subbed"] [("linewidth", Num "2"); ("label", Str "ImCoh"); ("linestyle", Str "--")]);
      Expr (Call (Attr (Name "axis") "set_xlabel") [Str "Frequency (Hz)"] []);
      Expr (Call (Attr (Name "axis") "set_ylabel") [Str "Mean-corrected connectivity (A.U.)"] []);
      Expr (Call (Attr (Name "axis") "annotate") [Str "Non-zero\ntime-lag\ninteraction"] [("xy", Op "tuple" [Num "13"; Num "0.25"])]);
      Expr (Call (Attr (Name "axis") "annotate") [Str "Zero\ntime-lag\ninteraction"] [("xy", Op "tuple" [Num "25"; Num "0.25"])]);
      Expr (Call (Attr (Name "axis") "legend") [] [("loc", Str "upper left")]);
      Expr (Call (Attr (Name "fig") "suptitle") [Str "Coh vs. ImCoh\nNon-zero & zero time-lags"] [])
    ];
    [
      Assign [Name "data_10_12"] (Call (Name "make_signals_in_freq_bands") [] [("n_seeds", Num "3"); ("n_targets", Num "3"); ("freq_band", Op "tuple" [Num "10"; Num "12"]); ("connection_delay", Num "1"); ("rng_seed", Num "40")]);
      Assign [Name "data_23_25"] (Call (Name "make_signals_in_freq_bands") [] [("n_seeds", Num "3"); ("n_targets", Num "3"); ("freq_band", Op "tuple" [Num "23"; Num "25"]); ("connection_delay", Num "1"); ("rng_seed", Num "42")]);
      Assign [Name "data"] (Call (Attr (Name "data_10_12") "add_channels") [Op "list" [Name "data_23_25"]] []);
      Assign [Op "tuple" [Name "cacoh"; Name "mic"]] (Call (Name "spectral_connectivity_epochs") [Name "data"] [("method", Op "list" [Str "cacoh"; Str "mic"]); ("indices", Name "multivar_indices"); ("sfreq", Num "100"); ("fmin", Num "3"); ("fmax", Num "35")]);
      Assign [Name "freqs"] (Attr (Name "cacoh") "freqs");
      Assign [Name "cacoh_10_12"] (Call (Attr (Name "np") "mean") [Op "subscript" [Call (Attr (Name "cacoh") "get_data") [] []; Op "tuple" [Num "0"; Op "slice" [Call (Attr (Name "freqs") "index") [Num "10"] []; Op "+" [Call (Attr (Name "freqs") "index") [Num "12"] []; Num "1"]; Lit "None"]]]] []);
      Assign [Name "cacoh_23_25"] (Call (Attr (Name "np") "mean") [Op "subscript" [Call (Attr (Name "cacoh") "get_data") [] []; Op "tuple" [Num "0"; Op "slice" [Call (Attr (Name "freqs") "index") [Num "23"] []; Op "+" [Call (Attr (Name "freqs") "index") [Num "25"] []; Num "1"]; Lit "None"]]]] []);
      Assign [Op "tuple" [Name "fig"; Name "axis"]] (Call (Name "plot_connectivity_circle") [] []);
      Expr (Call (Attr (Name "axis") "quiver") [Num "0"; Num "0"; Call (Attr (Name "np") "real") [Name "cacoh_10_12"] []; Call (Attr (Name "np") "imag") [Name "cacoh_10_12"] []] [("units", Str "xy"); ("scale", Num "1"); ("linewidth", Num "2"); ("color", Str "C2"); ("label", Str "10-12 Hz")]);
      Expr (Call (Attr (Name "axis") "quiver") [Num "0"; Num "0"; Call (Attr (Name "np") "real") [Name "cacoh_23_25"] []; Call (Attr (Name "np") "imag") [Name "cacoh_23_25"] []] [("units", Str "xy"); ("scale", Num "1"); ("linewidth", Num "2"); ("color", Str "C3"); ("label", Str "23-25 Hz"); ("zorder", Num "99")]);
      Expr (Call (Attr (Name "axis") "legend") [] [("loc", Str "upper right"); ("bbox_to_anchor", Op "list" [Num "1.1"; Num "1.1"])])
    ];
    [
      Assign [Op "tuple" [Name "fig"; Name "axis"]] (Call (Attr (Name "plt") "subplots") [Num "1"; Num "1"] []);
      Expr (Call (Attr (Name "axis") "plot") [Attr (Name "cacoh") "freqs"; Call (Attr (Name "np") "abs") [Op "subscript" [Call (Attr (Name "cacoh") "get_data") [] []; Num "0"]] []] [("linewidth", Num "2"); ("label", Str "CaCoh")]);
      Expr (Call (Attr (Name "axis") "plot") [Attr (Name "mic") "freqs"; Call (Attr (Name "np") "abs") [Op "subscript" [Call (Attr (Name "mic") "get_data") [] []; Num "0"]] []] [("linewidth", Num "2"); ("label", Str "MIC"); ("linestyle", Str "--")]);
      Expr (Call (Attr (Name "axis") "set_xlabel") [Str "Frequency (Hz)"] []);
      Expr (Call (Attr (Name "axis") "set_ylabel") [Str "Connectivity (A.U.)"] []);
      Expr (Call (Attr (Name "axis") "annotate") [Str "$\\pm$45\u00b0\ninteraction"] [("xy", Op "tuple" [Num "12.5"; Num "0.9"])]);
      Expr (Call (Attr (Name "axis") "annotate") [Str "$\\pm$90\u00b0\ninteraction"] [("xy", Op "tuple" [Num "26.5"; Num "0.9"])]);
      Expr (Call (Attr (Name "axis") "legend") [] [("loc", Str "upper left")]);
      Expr (Call (Attr (Name "fig") "suptitle") [Str "CaCoh vs. MIC\n$\\pm$45\u00b0 & $\\pm$90\u00b0 interactions"] [])
    ];
    [
      Assign [Op "tuple" [Name "coh"; Name "imcoh"]] (Call (Name "spectral_connectivity_epochs") [Name "data"] [("method", Op "list" [Str "coh"; Str "imcoh"]); ("indices", Name "bivar_indices"); ("sfreq", Num "100"); ("fmin", Num "3"); ("fmax", Num "35")]);
      Assign [Name "coh_mean"] (Call (Attr (Name "np") "mean") [Call (Attr (Name "coh") "get_data") [] []] [("axis", Num "0")]);
      Assign [Name "imcoh_mean"] (Call (Attr (Name "np") "mean") [Call (Attr (Name "np") "abs") [Call (Attr (Name "imcoh") "get_data") [] []] []] [("axis", Num "0")]);
      Assign [Name "coh_mean_subbed"] (Op "-" [Name "coh_mean"; Call (Attr (Name "np") "mean") [Name "coh_mean"] []]);
      Assign [Name "imcoh_mean_subbed"] (Op "-" [Name "imcoh_mean"; Call (Attr (Name "np") "mean") [Name "imcoh_mean"] []]);
      Assign [Op "tuple" [Name "fig"; Name "axis"]] (Call (Attr (Name "plt") "subplots") [Num "1"; Num "1"] []);
      Expr (Call (Attr (Name "axis") "plot") [Attr (Name "coh") "freqs"; Name "coh_mean_subbed"] [("linewidth", Num "2"); ("label", Str "Coh")]);
      Expr (Call (Attr (Name "axis") "plot") [Attr (Name "imcoh") "freqs"; Name "imcoh_mean_subbed"] [("linewidth", Num "2"); ("label", Str "ImCoh"); ("linestyle", Str "--")]);
      Expr (Call (Attr (Name "axis") "set_xlabel") [Str "Frequency (Hz)"] []);
      Expr (Call (Attr (Name "axis") "set_ylabel") [Str "Mean-corrected connectivity (A.U.)"] []);
      Expr (Call (Attr (Name "axis") "annotate") [Str "$\\pm$45\u00b0\ninteraction"] [("xy", Op "tuple" [Num "13"; Num "0.25"])]);
      Expr (Call (Attr (Name "axis") "annotate") [Str "$\\pm$90\u00b0\ninteraction"] [("xy", Op "tuple" [Num "26.5"; Num "0.25"])]);
      Expr (Call (Attr (Name "axis") "legend") [] [("loc", Str "upper left")]);
      Expr (Call (Attr (Name "fig") "suptitle") [Str "Coh vs. ImCoh\n$\\pm$45\u00b0 & $\\pm$90\u00b0 interactions"] [])
    ]
  ] |}.

Definition var_model : notebook :=
  {| path := "unnamed/part_003";
     cells := [
    [
      Import "matplotlib.pyplot" "plt";
      Import "mne" "mne";
      Import "numpy" "np";
      ImportFrom "mne" "make_fixed_length_epochs" "make_fixed_length_epochs";
      ImportFrom "mne_bids" "BIDSPath" "BIDSPath";
      ImportFrom "mne_bids" "read_raw_bids" "read_raw_bids";
      ImportFrom "mne_connectivity" "vector_auto_regression" "vector_auto_regression"
    ];
    [
      Assign [Name "bids_root"] (Call (Attr (Attr (Attr (Name "mne") "datasets") "epilepsy_ecog") "data_path") [] []);
      Assign [Name "bids_path"] (Call (Name "BIDSPath") [] [("root", Name "bids_root"); ("subject", Str "pt1"); ("session", Str "presurgery"); ("task", Str "ictal"); ("datatype", Str "ieeg"); ("extension", Str "vhdr")]);
      Assign [Name "raw"] (Call (Name "read_raw_bids") [] [("bids_path", Name "bids_path"); ("verbose", Lit "False")]);
      Assign [Name "line_freq"] (Op "subscript" [Attr (Name "raw") "info"; Str "line_freq"]);
      Expr (Call (Name "print") [Op "fstring" [Str "Data has a power line frequency at "; Name "line_freq"; Str "."]] []);
      Expr (Call (Attr (Name "raw") "pick_types") [] [("ecog", Lit "True")]);
      Expr (Call (Attr (Name "raw") "load_data") [] []);
      Expr (Call (Attr (Name "raw") "notch_filter") [Name "line_freq"] []);
      Expr (Call (Attr (Name "raw") "drop_channels") [Op "subscript" [Attr (Name "raw") "info"; Str "bads"]] [])
    ];
    [
      Assign [Op "tuple" [Name "events"; Name "event_id"]] (Call (Attr (Name "mne") "events_from_annotations") [Name "raw"] []);
      Assign [Name "onset_id"] (Op "subscript" [Name "event_id"; Str "onset"]);
      Assign [Name "onset_idx"] (Call (Attr (Name "np") "argwhere") [Op "==" [Op "subscript" [Name "events"; Op "tuple" [Op "slice" [Lit "None"; Lit "None"; Lit "None"]; Num "2"]]; Name "onset_id"]] []);
      Assign [Name "onset_sample"] (Call (Attr (Op "subscript" [Name "events"; Op "tuple" [Name "onset_idx"; Num "0"]]) "squeeze") [] []);
      Assign [Name "onset_sec"] (Op "/" [Name "onset_sample"; Op "subscript" [Attr (Name "raw") "info"; Str "sfreq"]]);
      Assign [Name "raw"] (Call (Attr (Name "raw") "crop") [] [("tmin", Num "0"); ("tmax", Name "onset_sec"); ("include_tmax", Lit "False")])
    ];
    [
      Assign [Name "epochs"] (Call (Name "make_fixed_length_epochs") [] [("raw", Name "raw"); ("duration", Num "0.5"); ("overlap", Num "0.25")]);
      Assign [Name "times"] (Attr (Name "epochs") "times");
      Assign [Name "ch_names"] (Attr (Name "epochs") "ch_names");
      Expr (Call (Name "print") [Name "epochs"] []);
      Expr (Call (Name "print") [Attr (Name "epochs") "times"] []);
      Expr (Call (Name "print") [Attr (Name "epochs") "event_id"] []);
      Expr (Call (Name "print") [Attr (Name "epochs") "events"] [])
    ];
    [
      Assign [Name "conn"] (Call (Name "vector_auto_regression") [] [("data", Call (Attr (Name "epochs") "get_data") [] []); ("times", Name "times"); ("names", Name "ch_names")]);
      Expr (Call (Name "print") [Name "conn"] [])
    ];
    [
      Assign [Name "predicted_data"] (Call (Attr (Name "conn") "predict") [Call (Attr (Name "epochs") "get_data") [] []] []);
      Assign [Name "residuals"] (Op "-" [Call (Attr (Name "epochs") "get_data") [] []; Name "predicted_data"]);
      Assign [Op "tuple" [Name "fig"; Name "ax"]] (Call (Attr (Name "plt") "subplots") [] []);
      Expr (Call (Attr (Name "ax") "plot") [Call (Attr (Name "residuals") "flatten") [] []; Str "*"] []);
      Expr (Call (Attr (Name "ax") "set") [] [("title", Str "Residuals of fitted VAR model"); ("ylabel", Str "Magnitude")]);
      Assign [Name "model_order"] (Call (Attr (Attr (Name "conn") "attrs") "get") [Str "model_order"] []);
      Assign [Name "t"] (Op "subscript" [Attr (Name "residuals") "shape"; Num "0"]);
      Assign [Name "sampled_residuals"] (Call (Attr (Call (Attr (Name "np") "concatenate") [Call (Attr (Name "np") "split") [Op "subscript" [Name "residuals"; Op "tuple" [Op "slice" [Lit "None"; Lit "None"; Lit "None"]; Op "slice" [Lit "None"; Lit "None"; Lit "None"]; Op "slice" [Name "model_order"; Lit "None"; Lit "None"]]]; Name "t"; Num "0"] []] [("axis", Num "2")]) "squeeze") [Num "0"] []);
      Assign [Name "rescov"] (Call (Attr (Name "np") "cov") [Name "sampled_residuals"] []);
      Assign [Op "tuple" [Name "fig"; Name "ax"]] (Call (Attr (Name "plt") "subplots") [] []);
      Assign [Name "cax"] (Call (Attr (Name "fig") "add_axes") [Op "list" [Num "0.27"; Num "0.8"; Num "0.5"; Num "0.05"]] []);
      Assign [Name "im"] (Call (Attr (Name "ax") "imshow") [Name "rescov"] [("cmap", Str "viridis"); ("aspect", Str "equal"); ("interpolation", Str "none")]);
      Expr (Call (Attr (Name "fig") "colorbar") [Name "im"] [("cax", Name "cax"); ("orientation", Str "horizontal")])
    ];
    [
      Assign [Name "conn"] (Call (Name "vector_auto_regression") [] [("data", Call (Attr (Name "epochs") "get_data") [] []); ("times", Name "times"); ("names", Name "ch_names"); ("model", Str "avg-epochs")]);
      Expr (Call (Name "print") [Name "conn"] [])
    ];
    [
      Assign [Name "first_epoch"] (Op "subscript" [Call (Attr (Name "epochs") "get_data") [] []; Op "tuple" [Num "0"; Num "..."]]);
      Assign [Name "predicted_data"] (Call (Attr (Name "conn") "predict") [Name "first_epoch"] []);
      Assign [Name "residuals"] (Op "-" [Call (Attr (Name "epochs") "get_data") [] []; Name "predicted_data"]);
      Assign [Op "tuple" [Name "fig"; Name "ax"]] (Call (Attr (Name "plt") "subplots") [] []);
      Expr (Call (Attr (Name "ax") "plot") [Call (Attr (Name "residuals") "flatten") [] []; Str "*"] []);
      Expr (Call (Attr (Name "ax") "set") [] [("title", Str "Residuals of fitted VAR model"); ("ylabel", Str "Magnitude")]);
      Assign [Name "model_order"] (Call (Attr (Attr (Name "conn") "attrs") "get") [Str "model_order"] []);
      Assign [Name "t"] (Op "subscript" [Attr (Name "residuals") "shape"; Num "0"]);
      Assign [Name "sampled_residuals"] (Call (Attr (Call (Attr (Name "np") "concatenate") [Call (Attr (Name "np") "split") [Op "subscript" [Name "residuals"; Op "tuple" [Op "slice" [Lit "None"; Lit "None"; Lit "None"]; Op "slice" [Lit "None"; Lit "None"; Lit "None"]; Op "slice" [Name "model_order"; Lit "None"; Lit "None"]]]; Name "t"; Num "0"] []] [("axis", Num "2")]) "squeeze") [Num "0"] []);
      Assign [Name "rescov"] (Call (Attr (Name "np") "cov") [Name "sampled_residuals"] []);
      Assign [Op "tuple" [Name "fig"; Name "ax"]] (Call (Attr (Name "plt") "subplots") [] []);
      Assign [Name "cax"] (Call (Attr (Name "fig") "add_axes") [Op "list" [Num "0.27"; Num "0.8"; Num "0.5"; Num "0.05"]] []);
      Assign [Name "im"] (Call (Attr (Name "ax") "imshow") [Name "rescov"] [("cmap", Str "viridis"); ("aspect", Str "equal"); ("interpolation", Str "none")]);
      Expr (Call (Attr (Name "fig") "colorbar") [Name "im"] [("cax", Name "cax"); ("orientation", Str "horizontal")])
    ]
  ] |}.

Definition event_arrays : notebook :=
  {| path := "EEGMEG1-preprocessing/1/4_20_event_arrays.ipynb";
     cells := [
    [];
    [
      Import "numpy" "np";
      Import "mne" "mne";
      Assign [Name "sample_data_folder"] (Call (Attr (Attr (Attr (Name "mne") "datasets") "sample") "data_path") [] []);
      Assign [Name "sample_data_raw_file"] (Op "/" [Op "/" [Op "/" [Name "sample_data_folder"; Str "MEG"]; Str "sample"]; Str "sample_audvis_raw.fif"]);
      Assign [Name "raw"] (Call (Attr (Attr (Name "mne") "io") "read_raw_fif") [Name "sample_data_raw_file"] []);
      Expr (Call (Attr (Call (Attr (Name "raw") "crop") [] [("tmax", Num "60")]) "load_data") [] [])
    ];
    [
      Expr (Call (Attr (Call (Attr (Call (Attr (Name "raw") "copy") [] []) "pick") [] [("picks", Str "stim")]) "plot") [] [("start", Num "3"); ("duration", Num "6")])
    ];
    [
      Assign [Name "events"] (Call (Attr (Name "mne") "find_events") [Name "raw"] [("stim_channel", Str "STI 014")]);
      Expr (Call (Name "print") [Op "subscript" [Name "events"; Op "slice" [Lit "None"; Num "5"; Lit "None"]]] [])
    ];
    [
      Assign [Name "testing_data_folder"] (Call (Attr (Attr (Attr (Name "mne") "datasets") "testing") "data_path") [] []);
      Assign [Name "eeglab_raw_file"] (Op "/" [Op "/" [Name "testing_data_folder"; Str "EEGLAB"]; Str "test_raw.set"]);
      Assign [Name "eeglab_raw"] (Call (Attr (Attr (Name "mne") "io") "read_raw_eeglab") [Name "eeglab_raw_file"] []);
      Expr (Call (Name "print") [Attr (Name "eeglab_raw") "annotations"] [])
    ];
    [
      Expr (Call (Name "print") [Call (Name "len") [Attr (Name "eeglab_raw") "annotations"] []] []);
      Expr (Call (Name "print") [Call (Name "set") [Attr (Attr (Name "eeglab_raw") "annotations") "duration"] []] []);
      Expr (Call (Name "print") [Call (Name "set") [Attr (Attr (Name "eeglab_raw") "annotations") "description"] []] []);
      Expr (Call (Name "print") [Op "subscript" [Attr (Attr (Name "eeglab_raw") "annotations") "onset"; Num "0"]] [])
    ];
    [
      Assign [Op "tuple" [Name "events_from_annot"; Name "event_dict"]] (Call (Attr (Name "mne") "events_from_annotations") [Name "eeglab_raw"] []);
      Expr (Call (Name "print") [Name "event_dict"] []);
      Expr (Call (Name "print") [Op "subscript" [Name "events_from_annot"; Op "slice" [Lit "None"; Num "5"; Lit "None"]]] [])
    ];
    [
      Assign [Name "custom_mapping"] (Op "dict" [Str "rt"; Num "77"; Str "square"; Num "42"]);
      Assign [Op "tuple" [Name "events_from_annot"; Name "event_dict"]] (Call (Attr (Name "mne") "events_from_annotations") [Name "eeglab_raw"] [("event_id", Name "custom_mapping")]);
      Expr (Call (Name "print") [Name "event_dict"] []);
      Expr (Call (Name "print") [Op "subscript" [Name "events_from_annot"; Op "slice" [Lit "None"; Num "5"; Lit "None"]]] [])
    ];
    [
      Assign [Name "mapping"] (Op "dict" [Num "1"; Str "auditory/left"; Num "2"; Str "auditory/right"; Num "3"; Str "visual/left"; Num "4"; Str "visual/right"; Num "5"; Str "smiley"; Num "32"; Str "buttonpress"]);
      Assign [Name "annot_from_events"] (Call (Attr (Name "mne") "annotations_from_events") [] [("events", Name "events"); ("event_desc", Name "mapping"); ("sfreq", Op "subscript" [Attr (Name "raw") "info"; Str "sfreq"]); ("orig_time", Op "subscript" [Attr (Name "raw") "info"; Str "meas_date"])]);
      Expr (Call (Attr (Name "raw") "set_annotations") [Name "annot_from_events"] [])
    ];
    [
      Expr (Call (Attr (Name "raw") "plot") [] [("start", Num "5"); ("duration", Num "5")])
    ];
    [
      Assign [Name "rem_annot"] (Call (Attr (Name "mne") "Annotations") [] [("onset", Op "list" [Num "5"; Num "41"]); ("duration", Op "list" [Num "16"; Num "11"]); ("description", Op "*" [Op "list" [Str "REM"]; Num "2"])]);
      Expr (Call (Attr (Name "raw") "set_annotations") [Name "rem_annot"] []);
      Assign [Op "tuple" [Name "rem_events"; Name "rem_event_dict"]] (Call (Attr (Name "mne") "events_from_annotations") [Name "raw"] [("chunk_duration", Num "1.5")])
    ];
    [
      Expr (Call (Name "print") [Call (Attr (Name "np") "round") [Op "/" [Op "-" [Op "subscript" [Name "rem_events"; Op "tuple" [Op "slice" [Lit "None"; Lit "None"; Lit "None"]; Num "0"]]; Attr (Name "raw") "first_samp"]; Op "subscript" [Attr (Name "raw") "info"; Str "sfreq"]]; Num "3"] []] [])
    ]
  ] |}.

Definition inverse_coherence_epochs : notebook :=
  {| path := "EEGMEG3-timefrequency/2/1_mne_inverse_coherence_epochs.ipynb";
     cells := [
    [
      Import "mne" "mne";
      Import "numpy" "np";
      ImportFrom "mne.datasets" "sample" "sample";
      ImportFrom "mne.minimum_norm" "apply_inverse" "apply_inverse";
      ImportFrom "mne.minimum_norm" "apply_inverse_epochs" "apply_inverse_epochs";
      ImportFrom "mne.minimum_norm" "read_inverse_operator" "read_inverse_operator";
      ImportFrom "mne_connectivity" "seed_target_indices" "seed_target_indices";
      ImportFrom "mne_connectivity" "spectral_connectivity_epochs" "spectral_connectivity_epochs";
      Expr (Call (Name "print") [Name "__doc__"] [])
    ];
    [
      Assign [Name "data_path"] (Call (Attr (Name "sample") "data_path") [] []);
      Assign [Name "subjects_dir"] (Op "/" [Name "data_path"; Str "subjects"]);
      Assign [Name "fname_inv"] (Op "/" [Name "data_path"; Str "MEG/sample/sample_audvis-meg-oct-6-meg-inv.fif"]);
      Assign [Name "fname_raw"] (Op "/" [Name "data_path"; Str "MEG/sample/sample_audvis_filt-0-40_raw.fif"]);
      Assign [Name "fname_event"] (Op "/" [Name "data_path"; Str "MEG/sample/sample_audvis_filt-0-40_raw-eve.fif"]);
      Assign [Name "label_name_lh"] (Str "Aud-lh");
      Assign [Name "fname_label_lh"] (Op "/" [Name "data_path"; Op "fstring" [Str "MEG/sample/labels/"; Name "label_name_lh"; Str ".label"]]);
      Assign [Op "tuple" [Name "event_id"; Name "tmin"; Name "tmax"]] (Op "tuple" [Num "1"; Op "unary -" [Num "0.2"]; Num "0.5"]);
      Assign [Name "method"] (Str "dSPM");
      Assign [Name "inverse_operator"] (Call (Name "read_inverse_operator") [Name "fname_inv"] []);
      Assign [Name "label_lh"] (Call (Attr (Name "mne") "read_label") [Name "fname_label_lh"] []);
      Assign [Name "raw"] (Call (Attr (Attr (Name "mne") "io") "read_raw_fif") [Name "fname_raw"] []);
      Assign [Name "events"] (Call (Attr (Name "mne") "read_events") [Name "fname_event"] []);
      AugAssign (Op "subscript" [Attr (Name "raw") "info"; Str "bads"]) "+" (Op "list" [Str "MEG 2443"]);
      Assign [Name "picks"] (Call (Attr (Name "mne") "pick_types") [Attr (Name "raw") "info"] [("meg", Lit "True"); ("eeg", Lit "False"); ("stim", Lit "False"); ("eog", Lit "True"); ("exclude", Str "bads")]);
      Assign [Name "epochs"] (Call (Attr (Name "mne") "Epochs") [Name "raw"; Name "events"; Name "event_id"; Name "tmin"; Name "tmax"] [("picks", Name "picks"); ("baseline", Op "tuple" [Lit "None"; Num "0"]); ("reject", Call (Name "dict") [] [("mag", Num "4e-12"); ("grad", Num "4000e-13"); ("eog", Num "150e-6")])])
    ];
    [
      Assign [Name "snr"] (Num "3.0");
      Assign [Name "lambda2"] (Op "/" [Num "1.0"; Op "**" [Name "snr"; Num "2"]]);
      Assign [Name "evoked"] (Call (Attr (Name "epochs") "average") [] []);
      Assign [Name "stc"] (Call (Name "apply_inverse") [Name "evoked"; Name "inverse_operator"; Name "lambda2"; Name "method"] [("pick_ori", Str "normal")]);
      Assign [Name "stc_label"] (Call (Attr (Name "stc") "in_label") [Name "label_lh"] []);
      Assign [Name "src_pow"] (Call (Attr (Name "np") "sum") [Op "**" [Attr (Name "stc_label") "data"; Num "2"]] [("axis", Num "1")]);
      Assign [Name "seed_vertno"] (Op "subscript" [Op "subscript" [Attr (Name "stc_label") "vertices"; Num "0"]; Call (Attr (Name "np") "argmax") [Name "src_pow"] []]);
      Assign [Name "seed_idx"] (Call (Attr (Name "np") "searchsorted") [Op "subscript" [Attr (Name "stc") "vertices"; Num "0"]; Name "seed_vertno"] []);
      Assign [Name "n_sources"] (Op "subscript" [Attr (Attr (Name "stc") "data") "shape"; Num "0"]);
      Assign [Name "indices"] (Call (Name "seed_target_indices") [Op "list" [Name "seed_idx"]; Call (Attr (Name "np") "arange") [Name "n_sources"] []] [])
    ];
    [
      Assign [Name "snr"] (Num "1.0");
      Assign [Name "lambda2"] (Op "/" [Num "1.0"; Op "**" [Name "snr"; Num "2"]]);
      Assign [Name "stcs"] (Call (Name "apply_inverse_epochs") [Name "epochs"; Name "inverse_operator"; Name "lambda2"; Name "method"] [("pick_ori", Str "normal"); ("return_generator", Lit "True")])
    ];
    [
      Assign [Name "fmin"] (Op "tuple" [Num "8.0"; Num "13.0"]);
      Assign [Name "fmax"] (Op "tuple" [Num "13.0"; Num "30.0"]);
      Assign [Name "sfreq"] (Op "subscript" [Attr (Name "raw") "info"; Str "sfreq"]);
      Assign [Name "coh"] (Call (Name "spectral_connectivity_epochs") [Name "stcs"] [("method", Str "coh"); ("mode", Str "fourier"); ("indices", Name "indices"); ("sfreq", Name "sfreq"); ("fmin", Name "fmin"); ("fmax", Name "fmax"); ("faverage", Lit "True"); ("n_jobs", Num "1")]);
      Assign [Name "freqs"] (Attr (Name "coh") "freqs");
      Expr (Call (Name "print") [Str "Frequencies in Hz over which coherence was averaged for alpha: "] []);
      Expr (Call (Name "print") [Op "subscript" [Name "freqs"; Num "0"]] []);
      Expr (Call (Name "print") [Str "Frequencies in Hz over which coherence was averaged for beta: "] []);
      Expr (Call (Name "print") [Op "subscript" [Name "freqs"; Num "1"]] [])
    ];
    [
      Assign [Name "tmin"] (Call (Attr (Name "np") "mean") [Op "subscript" [Name "freqs"; Num "0"]] []);
      Assign [Name "tstep"] (Op "-" [Call (Attr (Name "np") "mean") [Op "subscript" [Name "freqs"; Num "1"]] []; Name "tmin"]);
      Assign [Name "coh_stc"] (Call (Attr (Name "mne") "SourceEstimate") [Call (Attr (Name "coh") "get_data") [] []] [("vertices", Attr (Name "stc") "vertices"); ("tmin", Op "*" [Num "1e-3"; Name "tmin"]); ("tstep", Op "*" [Num "1e-3"; Name "tstep"]); ("subject", Str "sample")]);
      Assign [Name "brain"] (Call (Attr (Name "coh_stc") "plot") [Str "sample"; Str "inflated"; Str "both"] [("time_label", Str "Coherence %0.1f Hz"); ("subjects_dir", Name "subjects_dir"); ("clim", Call (Name "dict") [] [("kind", Str "value"); ("lims", Op "tuple" [Num "0.25"; Num "0.4"; Num "0.65"])])]);
      Expr (Call (Attr (Name "brain") "show_view") [Str "lateral"] [])
    ]
  ] |}.

Definition compare_over_time_over_trial : notebook :=
  {| path := "EEGMEG3-timefrequency/2/11_compare_connectivity_over_time_over_trial.ipynb";
     cells := [
    [
      Import "matplotlib.pyplot" "plt";
      Import "mne" "mne";
      Import "numpy" "np";
      ImportFrom "mne.datasets" "sample" "sample";
      ImportFrom "mne_connectivity" "spectral_connectivity_epochs" "spectral_connectivity_epochs";
      ImportFrom "mne_connectivity" "spectral_connectivity_time" "spectral_connectivity_time";
      ImportFrom "mne_connectivity.viz" "plot_sensors_connectivity" "plot_sensors_connectivity";
      Assign [Name "rng"] (Call (Attr (Attr (Name "np") "random") "default_rng") [Num "1234"] []);
      Expr (Call (Name "print") [Name "__doc__"] [])
    ];
    [
      Assign [Name "n_epochs"] (Num "5");
      Assign [Name "n_channels"] (Num "3");
      Assign [Name "n_times"] (Num "2000");
      Assign [Name "sfreq"] (Num "250");
      Assign [Name "data"] (Call (Attr (Name "rng") "random") [Op "tuple" [Name "n_epochs"; Name "n_channels"; Name "n_times"]] []);
      For (Name "i") (Call (Name "range") [Name "n_epochs"] []) [
        Assign [Op "subscript" [Name "data"; Name "i"]] (Op "subscript" [Name "data"; Num "0"])
      ];
      Assign [Name "ch_names"] (Op "list" [Str "C3"; Str "Cz"; Str "C4"]);
      Assign [Name "info"] (Call (Attr (Name "mne") "create_info") [Name "ch_names"; Name "sfreq"] [("ch_types", Str "eeg")]);
      Assign [Name "data_epoch"] (Call (Attr (Name "mne") "EpochsArray") [Name "data"; Name "info"] []);
      Expr (Call (Attr (Name "data_epoch") "plot") [] [("scalings", Num "0.75")])
    ];
    [
      Assign [Name "Freq_Bands"] (Op "dict" [Str "theta"; Op "list" [Num "4.0"; Num "8.0"]; Str "alpha"; Op "list" [Num "8.0"; Num "13.0"]; Str "beta"; Op "list" [Num "13.0"; Num "30.0"]]);
      Assign [Name "n_freq_bands"] (Call (Name "len") [Name "Freq_Bands"] []);
      Assign [Name "min_freq"] (Call (Attr (Name "np") "min") [Call (Name "list") [Call (Attr (Name "Freq_Bands") "values") [] []] []] []);
      Assign [Name "max_freq"] (Call (Attr (Name "np") "max") [Call (Name "list") [Call (Attr (Name "Freq_Bands") "values") [] []] []] []);
      Assign [Name "freqs"] (Call (Attr (Name "np") "linspace") [Name "min_freq"; Name "max_freq"; Call (Name "int") [Op "+" [Op "*" [Op "-" [Name "max_freq"; Name "min_freq"]; Num "4"]; Num "1"]] []] []);
      Assign [Name "fmin"] (Call (Name "tuple") [Op "listcomp" [Call (Name "range") [Call (Name "len") [Name "Freq_Bands"] []] []; Name "f"; Op "subscript" [Op "subscript" [Call (Name "list") [Call (Attr (Name "Freq_Bands") "values") [] []] []; Name "f"]; Num "0"]]] []);
      Assign [Name "fmax"] (Call (Name "tuple") [Op "listcomp" [Call (Name "range") [Call (Name "len") [Name "Freq_Bands"] []] []; Name "f"; Op "subscript" [Op "subscript" [Call (Name "list") [Call (Attr (Name "Freq_Bands") "values") [] []] []; Name "f"]; Num "1"]]] []);
      Assign [Name "connectivity_methods"] (Op "list" [Str "coh"; Str "plv"]);
      Assign [Name "n_con_methods"] (Call (Name "len") [Name "connectivity_methods"] []);
      Assign [Name "con_epochs_array"] (Call (Attr (Name "np") "zeros") [Op "tuple" [Name "n_con_methods"; Name "n_channels"; Name "n_channels"; Name "n_freq_bands"; Name "n_times"]] []);
      Assign [Op "subscript" [Name "con_epochs_array"; Op "==" [Name "con_epochs_array"; Num "0"]]] (Attr (Name "np") "nan");
      Assign [Name "con_epochs"] (Call (Name "spectral_connectivity_epochs") [Name "data_epoch"] [("method", Name "connectivity_methods"); ("sfreq", Name "sfreq"); ("mode", Str "cwt_morlet"); ("cwt_freqs", Name "freqs"); ("fmin", Name "fmin"); ("fmax", Name "fmax"); ("faverage", Lit "True")]);
      For (Name "c") (Call (Name "range") [Name "n_con_methods"] []) [
        Assign [Op "subscript" [Name "con_epochs_array"; Name "c"]] (Call (Attr (Op "subscript" [Name "con_epochs"; Name "c"]) "get_data") [] [("output", Str "dense")])
      ]
    ];
    [
      Assign [Name "con_epochs_array"] (Call (Attr (Name "np") "mean") [Name "con_epochs_array"] [("axis", Num "4")]);
      Assign [Name "foi"] (Call (Attr (Call (Name "list") [Call (Attr (Name "Freq_Bands") "keys") [] []] []) "index") [Str "alpha"] []);
      FunctionDef "plot_con_matrix" ["con_data"; "n_con_methods"] [
        Expr (Str "Visualize the connectivity matrix.");
        Assign [Op "tuple" [Name "fig"; Name "ax"]] (Call (Attr (Name "plt") "subplots") [Num "1"; Name "n_con_methods"] [("figsize", Op "tuple" [Op "*" [Num "6"; Name "n_con_methods"]; Num "6"])]);
        For (Name "c") (Call (Name "range") [Name "n_con_methods"] []) [
          Assign [Name "con_plot"] (Call (Attr (Op "subscript" [Name "ax"; Name "c"]) "imshow") [Op "subscript" [Name "con_data"; Op "tuple" [Name "c"; Op "slice" [Lit "None"; Lit "None"; Lit "None"]; Op "slice" [Lit "None"; Lit "None"; Lit "None"]; Name "foi"]]] [("cmap", Str "binary"); ("vmin", Num "0"); ("vmax", Num "1")]);
          Expr (Call (Attr (Op "subscript" [Name "ax"; Name "c"]) "set_title") [Op "subscript" [Name "connectivity_methods"; Name "c"]] []);
          Expr (Call (Attr (Name "fig") "colorbar") [Name "con_plot"] [("ax", Op "subscript" [Name "ax"; Name "c"]); ("shrink", Num "0.7"); ("label", Str "Connectivity")]);
          Expr (Call (Attr (Op "subscript" [Name "ax"; Name "c"]) "set_xticks") [Call (Name "range") [Call (Name "len") [Name "ch_names"] []] []] []);
          Expr (Call (Attr (Op "subscript" [Name "ax"; Name "c"]) "set_xticklabels") [Name "ch_names"] []);
          Expr (Call (Attr (Op "subscript" [Name "ax"; Name "c"]) "set_yticks") [Call (Name "range") [Call (Name "len") [Name "ch_names"] []] []] []);
          Expr (Call (Attr (Op "subscript" [Name "ax"; Name "c"]) "set_yticklabels") [Name "ch_names"] []);
          Expr (Call (Name "print") [Op "+" [Op "fstring" [Str "Connectivity method: "; Op "subscript" [Name "connectivity_methods"; Name "c"]; Str "\n"]; Op "fstring" [Op "subscript" [Name "con_data"; Op "tuple" [Name "c"; Op "slice" [Lit "None"; Lit "None"; Lit "None"]; Op "slice" [Lit "None"; Lit "None"; Lit "None"]; Name "foi"]]]]] [])
        ];
        Return (Name "fig")
      ];
      Expr (Call (Name "plot_con_matrix") [Name "con_epochs_array"; Name "n_con_methods"] [])
    ];
    [
      Assign [Name "con_time_array"] (Call (Attr (Name "np") "zeros") [Op "tuple" [Name "n_con_methods"; Name "n_epochs"; Name "n_channels"; Name "n_channels"; Name "n_freq_bands"]] []);
      Assign [Op "subscript" [Name "con_time_array"; Op "==" [Name "con_time_array"; Num "0"]]] (Attr (Name "np") "nan");
      Assign [Name "con_time"] (Call (Name "spectral_connectivity_time") [Name "data_epoch"; Name "freqs"] [("method", Name "connectivity_methods"); ("sfreq", Name "sfreq"); ("mode", Str "cwt_morlet"); ("fmin", Name "fmin"); ("fmax", Name "fmax"); ("faverage", Lit "True")]);
      For (Name "c") (Call (Name "range") [Name "n_con_methods"] []) [
        Assign [Op "subscript" [Name "con_time_array"; Name "c"]] (Call (Attr (Op "subscript" [Name "con_time"; Name "c"]) "get_data") [] [("output", Str "dense")])
      ]
    ];
    [
      Assign [Name "con_time_array"] (Call (Attr (Name "np") "mean") [Name "con_time_array"] [("axis", Num "1")]);
      Assign [Name "foi"] (Call (Attr (Call (Name "list") [Call (Attr (Name "Freq_Bands") "keys") [] []] []) "index") [Str "alpha"] []);
      Expr (Call (Name "plot_con_matrix") [Name "con_time_array"; Name "n_con_methods"] [])
    ];
    [
      For (Name "i") (Call (Name "range") [Name "n_epochs"] []) [
        For (Name "c") (Call (Name "range") [Name "n_channels"] []) [
          Assign [Name "wave_freq"] (Num "10");
          Assign [Name "epoch_len"] (Op "/" [Name "n_times"; Name "sfreq"]);
          Assign [Name "phase"] (Op "*" [Call (Attr (Name "rng") "random") [Num "1"] []; Num "10"]);
          Assign [Name "x"] (Call (Attr (Name "np") "linspace") [Op "+" [Op "*" [Op "*" [Op "unary -" [Name "wave_freq"]; Name "epoch_len"]; Attr (Name "np") "pi"]; Name "phase"]; Op "+" [Op "*" [Op "*" [Name "wave_freq"; Name "epoch_len"]; Attr (Name "np") "pi"]; Name "phase"]; Name "n_times"] []);
          Assign [Op "subscript" [Name "data"; Op "tuple" [Name "i"; Name "c"]]] (Call (Attr (Name "np") "squeeze") [Call (Attr (Name "np") "sin") [Name "x"] []] [])
        ]
      ];
      Assign [Name "data_epoch"] (Call (Attr (Name "mne") "EpochsArray") [Name "data"; Name "info"] []);
      Expr (Call (Attr (Name "data_epoch") "plot") [] [("scalings", Num "1"); ("n_epochs", Num "1")])
    ];
    [
      Assign [Name "con_epochs_array"] (Call (Attr (Name "np") "zeros") [Op "tuple" [Name "n_con_methods"; Name "n_channels"; Name "n_channels"; Name "n_freq_bands"; Name "n_times"]] []);
      Assign [Op "subscript" [Name "con_epochs_array"; Op "==" [Name "con_epochs_array"; Num "0"]]] (Attr (Name "np") "nan");
      Assign [Name "con_epochs"] (Call (Name "spectral_connectivity_epochs") [Name "data_epoch"] [("method", Name "connectivity_methods"); ("sfreq", Name "sfreq"); ("mode", Str "cwt_morlet"); ("cwt_freqs", Name "freqs"); ("fmin", Name "fmin"); ("fmax", Name "fmax"); ("faverage", Lit "True")]);
      For (Name "c") (Call (Name "range") [Name "n_con_methods"] []) [
        Assign [Op "subscript" [Name "con_epochs_array"; Name "c"]] (Call (Attr (Op "subscript" [Name "con_epochs"; Name "c"]) "get_data") [] [("output", Str "dense")])
      ];
      Assign [Name "con_epochs_array"] (Call (Attr (Name "np") "mean") [Name "con_epochs_array"] [("axis", Num "4")]);
      Assign [Name "foi"] (Call (Attr (Call (Name "list") [Call (Attr (Name "Freq_Bands") "keys") [] []] []) "index") [Str "alpha"] []);
      Expr (Call (Name "plot_con_matrix") [Name "con_epochs_array"; Name "n_con_methods"] [])
    ];
    [
      Assign [Name "con_time_array"] (Call (Attr (Name "np") "zeros") [Op "tuple" [Name "n_con_methods"; Name "n_epochs"; Name "n_channels"; Name "n_channels"; Name "n_freq_bands"]] []);
      Assign [Op "subscript" [Name "con_time_array"; Op "==" [Name "con_time_array"; Num "0"]]] (Attr (Name "np") "nan");
      Assign [Name "con_time"] (Call (Name "spectral_connectivity_time") [Name "data_epoch"; Name "freqs"] [("method", Name "connectivity_methods"); ("sfreq", Name "sfreq"); ("fmin", Name "fmin"); ("fmax", Name "fmax"); ("faverage", Lit "True")]);
      For (Name "c") (Call (Name "range") [Name "n_con_methods"] []) [
        Assign [Op "subscript" [Name "con_time_array"; Name "c"]] (Call (Attr (Op "subscript" [Name "con_time"; Name "c"]) "get_data") [] [("output", Str "dense")])
      ];
      Assign [Name "con_time_array"] (Call (Attr (Name "np") "mean") [Name "con_time_array"] [("axis", Num "1")]);
      Assign [Name "foi"] (Call (Attr (Call (Name "list") [Call (Attr (Name "Freq_Bands") "keys") [] []] []) "index") [Str "alpha"] []);
      Expr (Call (Name "plot_con_matrix") [Name "con_time_array"; Name "n_con_methods"] [])
    ];
    [
      Assign [Name "data_path"] (Call (Attr (Name "sample") "data_path") [] []);
      Assign [Name "raw_fname"] (Op "/" [Name "data_path"; Str "MEG/sample/sample_audvis_filt-0-40_raw.fif"]);
      Assign [Name "event_fname"] (Op "/" [Name "data_path"; Str "MEG/sample/sample_audvis_filt-0-40_raw-eve.fif"]);
      Assign [Name "raw"] (Call (Attr (Attr (Name "mne") "io") "read_raw_fif") [Name "raw_fname"] []);
      Assign [Name "events"] (Call (Attr (Name "mne") "read_events") [Name "event_fname"] []);
      Assign [Name "picks"] (Call (Attr (Name "mne") "pick_types") [Attr (Name "raw") "info"] [("meg", Lit "False"); ("eeg", Lit "True"); ("stim", Lit "False"); ("eog", Lit "False"); ("exclude", Str "bads")]);
      Assign [Op "tuple" [Name "event_id"; Name "tmin"; Name "tmax"]] (Op "tuple" [Num "3"; Op "unary -" [Num "0.3"]; Num "1.6"]);
      Assign [Name "epochs"] (Call (Attr (Name "mne") "Epochs") [Name "raw"; Name "events"; Name "event_id"; Name "tmin"; Name "tmax"] [("picks", Name "picks"); ("baseline", Op "tuple" [Lit "None"; Num "0"])]);
      Expr (Call (Attr (Name "epochs") "load_data") [] [])
    ];
    [
      Assign [Name "sfreq"] (Op "subscript" [Attr (Name "epochs") "info"; Str "sfreq"]);
      Assign [Name "tmin"] (Num "0.0");
      Assign [Name "Freq_Bands"] (Op "dict" [Str "theta"; Op "list" [Num "4.0"; Num "8.0"]]);
      Assign [Name "n_freq_bands"] (Call (Name "len") [Name "Freq_Bands"] []);
      Assign [Name "min_freq"] (Call (Attr (Name "np") "min") [Call (Name "list") [Call (Attr (Name "Freq_Bands") "values") [] []] []] []);
      Assign [Name "max_freq"] (Call (Attr (Name "np") "max") [Call (Name "list") [Call (Attr (Name "Freq_Bands") "values") [] []] []] []);
      Assign [Name "freqs"] (Call (Attr (Name "np") "linspace") [Name "min_freq"; Name "max_freq"; Call (Name "int") [Op "+" [Op "*" [Op "-" [Name "max_freq"; Name "min_freq"]; Num "4"]; Num "1"]] []] []);
      Assign [Name "fmin"] (Call (Name "tuple") [Op "listcomp" [Call (Name "range") [Call (Name "len") [Name "Freq_Bands"] []] []; Name "f"; Op "subscript" [Op "subscript" [Call (Name "list") [Call (Attr (Name "Freq_Bands") "values") [] []] []; Name "f"]; Num "0"]]] []);
      Assign [Name "fmax"] (Call (Name "tuple") [Op "listcomp" [Call (Name "range") [Call (Name "len") [Name "Freq_Bands"] []] []; Name "f"; Op "subscript" [Op "subscript" [Call (Name "list") [Call (Attr (Name "Freq_Bands") "values") [] []] []; Name "f"]; Num "1"]]] []);
      Assign [Name "connectivity_methods"] (Op "list" [Str "wpli"]);
      Assign [Name "n_con_methods"] (Call (Name "len") [Name "connectivity_methods"] []);
      Assign [Name "con_epochs"] (Call (Name "spectral_connectivity_epochs") [Name "epochs"] [("method", Name "connectivity_methods"); ("sfreq", Name "sfreq"); ("mode", Str "cwt_morlet"); ("cwt_freqs", Name "freqs"); ("fmin", Name "fmin"); ("fmax", Name "fmax"); ("faverage", Lit "True"); ("tmin", Name "tmin"); ("cwt_n_cycles", Num "4")])
    ];
    [
      Assign [Name "n_channels"] (Op "subscript" [Attr (Name "epochs") "info"; Str "nchan"]);
      Assign [Name "times"] (Op "subscript" [Attr (Name "epochs") "times"; Op ">=" [Attr (Name "epochs") "times"; Name "tmin"]]);
      Assign [Name "n_connections"] (Op "/" [Op "-" [Op "*" [Name "n_channels"; Name "n_channels"]; Name "n_channels"]; Num "2"]);
      Assign [Name "con_epochs_raveled_array"] (Call (Attr (Name "con_epochs") "get_data") [] [("output", Str "raveled")]);
      Assign [Name "global_con_epochs"] (Op "/" [Call (Attr (Name "np") "sum") [Name "con_epochs_raveled_array"] [("axis", Num "0")]; Name "n_connections"]);
      Assign [Name "global_con_epochs"] (Op "subscript" [Name "global_con_epochs"; Num "0"]);
      Assign [Name "fig"] (Call (Attr (Name "plt") "figure") [] []);
      Expr (Call (Attr (Name "plt") "plot") [Name "times"; Name "global_con_epochs"] []);
      Expr (Call (Attr (Name "plt") "xlabel") [Str "Time (s)"] []);
      Expr (Call (Attr (Name "plt") "ylabel") [Str "Global theta wPLI over trials"] []);
      Assign [Name "t_con_max"] (Call (Attr (Name "np") "argmax") [Op "subscript" [Name "global_con_epochs"; Op "<=" [Name "times"; Num "0.5"]]] []);
      Expr (Call (Name "print") [Op "fstring" [Str "Global theta wPLI peaks "; Op "subscript" [Name "times"; Name "t_con_max"]; Str "s after stimulus"]] [])
    ];
    [
      Assign [Name "con_epochs_matrix"] (Op "subscript" [Call (Attr (Name "con_epochs") "get_data") [] [("output", Str "dense")]; Op "tuple" [Op "slice" [Lit "None"; Lit "None"; Lit "None"]; Op "slice" [Lit "None"; Lit "None"; Lit "None"]; Num "0"; Name "t_con_max"]]);
      Assign [Name "fig"] (Call (Attr (Name "plt") "figure") [] []);
      Assign [Name "im"] (Call (Attr (Name "plt") "imshow") [Name "con_epochs_matrix"] []);
      Expr (Call (Attr (Name "fig") "colorbar") [Name "im"] [("label", Str "Connectivity")]);
      Expr (Call (Attr (Name "plt") "ylabel") [Str "Channels"] []);
      Expr (Call (Attr (Name "plt") "xlabel") [Str "Channels"] []);
      Expr (Call (Attr (Name "plt") "show") [] []);
      Expr (Call (Name "plot_sensors_connectivity") [Attr (Name "epochs") "info"; Name "con_epochs_matrix"] [])
    ]
  ] |}.

Definition inverse_connectivity_spectrum : notebook :=
  {| path := "EEGMEG3-timefrequency/2/2_mne_inverse_connectivity_spectrum.ipynb";
     cells := [
    [
      Import "matplotlib.pyplot" "plt";
      Import "mne" "mne";
      ImportFrom "mne.datasets" "sample" "sample";
      ImportFrom "mne.minimum_norm" "apply_inverse_epochs" "apply_inverse_epochs";
      ImportFrom "mne.minimum_norm" "read_inverse_operator" "read_inverse_operator";
      ImportFrom "mne_connectivity" "spectral_connectivity_epochs" "spectral_connectivity_epochs";
      Expr (Call (Name "print") [Name "__doc__"] []);
      Assign [Name "data_path"] (Call (Attr (Name "sample") "data_path") [] []);
      Assign [Name "subjects_dir"] (Op "/" [Name "data_path"; Str "subjects"]);
      Assign [Name "fname_inv"] (Op "/" [Name "data_path"; Str "MEG/sample/sample_audvis-meg-oct-6-meg-inv.fif"]);
      Assign [Name "fname_raw"] (Op "/" [Name "data_path"; Str "MEG/sample/sample_audvis_filt-0-40_raw.fif"]);
      Assign [Name "fname_event"] (Op "/" [Name "data_path"; Str "MEG/sample/sample_audvis_filt-0-40_raw-eve.fif"]);
      Assign [Name "inverse_operator"] (Call (Name "read_inverse_operator") [Name "fname_inv"] []);
      Assign [Name "raw"] (Call (Attr (Attr (Name "mne") "io") "read_raw_fif") [Name "fname_raw"] []);
      Assign [Name "events"] (Call (Attr (Name "mne") "read_events") [Name "fname_event"] []);
      AugAssign (Op "subscript" [Attr (Name "raw") "info"; Str "bads"]) "+" (Op "list" [Str "MEG 2443"]);
      Assign [Name "picks"] (Call (Attr (Name "mne") "pick_types") [Attr (Name "raw") "info"] [("meg", Lit "True"); ("eeg", Lit "False"); ("stim", Lit "False"); ("eog", Lit "True"); ("exclude", Str "bads")]);
      Assign [Op "tuple" [Name "event_id"; Name "tmin"; Name "tmax"]] (Op "tuple" [Num "1"; Op "unary -" [Num "0.2"]; Num "0.5"]);
      Assign [Name "epochs"] (Call (Attr (Name "mne") "Epochs") [Name "raw"; Name "events"; Name "event_id"; Name "tmin"; Name "tmax"] [("picks", Name "picks"); ("baseline", Op "tuple" [Lit "None"; Num "0"]); ("reject", Call (Name "dict") [] [("mag", Num "4e-12"); ("grad", Num "4000e-13"); ("eog", Num "150e-6")])]);
      Assign [Name "snr"] (Num "1.0");
      Assign [Name "lambda2"] (Op "/" [Num "1.0"; Op "**" [Name "snr"; Num "2"]]);
      Assign [Name "method"] (Str "dSPM");
      Assign [Name "stcs"] (Call (Name "apply_inverse_epochs") [Name "epochs"; Name "inverse_operator"; Name "lambda2"; Name "method"] [("pick_ori", Str "normal"); ("return_generator", Lit "True")]);
      Assign [Name "names"] (Op "list" [Str "Aud-lh"; Str "Aud-rh"; Str "Vis-lh"; Str "Vis-rh"]);
      Assign [Name "labels"] (Op "listcomp" [Name "names"; Name "name"; Call (Attr (Name "mne") "read_label") [Op "/" [Name "data_path"; Op "fstring" [Str "MEG/sample/labels/"; Name "name"; Str ".label"]]] []]);
      Assign [Name "src"] (Op "subscript" [Name "inverse_operator"; Str "src"]);
      Assign [Name "label_ts"] (Call (Attr (Name "mne") "extract_label_time_course") [Name "stcs"; Name "labels"; Name "src"] [("mode", Str "mean_flip"); ("return_generator", Lit "True")]);
      Assign [Op "tuple" [Name "fmin"; Name "fmax"]] (Op "tuple" [Num "7.5"; Num "40.0"]);
      Assign [Name "sfreq"] (Op "subscript" [Attr (Name "raw") "info"; Str "sfreq"]);
      Assign [Name "con"] (Call (Name "spectral_connectivity_epochs") [Name "label_ts"] [("method", Str "wpli2_debiased"); ("mode", Str "multitaper"); ("sfreq", Name "sfreq"); ("fmin", Name "fmin"); ("fmax", Name "fmax"); ("mt_adaptive", Lit "True"); ("n_jobs", Num "1")]);
      Assign [Name "freqs"] (Attr (Name "con") "freqs");
      Assign [Op "tuple" [Name "n_rows"; Name "n_cols"]] (Op "subscript" [Attr (Call (Attr (Name "con") "get_data") [] [("output", Str "dense")]) "shape"; Op "slice" [Lit "None"; Num "2"; Lit "None"]]);
      Assign [Op "tuple" [Name "fig"; Name "axes"]] (Call (Attr (Name "plt") "subplots") [Name "n_rows"; Name "n_cols"] [("sharex", Lit "True"); ("sharey", Lit "True")]);
      For (Name "i") (Call (Name "range") [Name "n_rows"] []) [
        For (Name "j") (Call (Name "range") [Op "+" [Name "i"; Num "1"]] []) [
          If (Op "==" [Name "i"; Name "j"]) [
            Expr (Call (Attr (Op "subscript" [Name "axes"; Op "tuple" [Name "i"; Name "j"]]) "set_axis_off") [] []);
            Continue
          ] [];
          Expr (Call (Attr (Op "subscript" [Name "axes"; Op "tuple" [Name "i"; Name "j"]]) "plot") [Name "freqs"; Op "subscript" [Call (Attr (Name "con") "get_data") [] [("output", Str "dense")]; Op "tuple" [Name "i"; Name "j"; Op "slice" [Lit "None"; Lit "None"; Lit "None"]]]] []);
          Expr (Call (Attr (Op "subscript" [Name "axes"; Op "tuple" [Name "j"; Name "i"]]) "plot") [Name "freqs"; Op "subscript" [Call (Attr (Name "con") "get_data") [] [("output", Str "dense")]; Op "tuple" [Name "i"; Name "j"; Op "slice" [Lit "None"; Lit "None"; Lit "None"]]]] []);
          If (Op "==" [Name "j"; Num "0"]) [
            Expr (Call (Attr (Op "subscript" [Name "axes"; Op "tuple" [Name "i"; Name "j"]]) "set_ylabel") [Op "subscript" [Name "names"; Name "i"]] []);
            Expr (Call (Attr (Op "subscript" [Name "axes"; Op "tuple" [Num "0"; Name "i"]]) "set_title") [Op "subscript" [Name "names"; Name "i"]] [])
          ] [];
          If (Op "==" [Name "i"; Op "-" [Name "n_rows"; Num "1"]]) [
            Expr (Call (Attr (Op "subscript" [Name "axes"; Op "tuple" [Name "i"; Name "j"]]) "set_xlabel") [Op "subscript" [Name "names"; Name "j"]] [])
          ] [];
          Expr (Call (Attr (Op "subscript" [Name "axes"; Op "tuple" [Name "i"; Name "j"]]) "set") [] [("xlim", Op "list" [Name "fmin"; Name "fmax"]); ("ylim", Op "list" [Op "unary -" [Num "0.2"]; Num "1"])]);
          Expr (Call (Attr (Op "subscript" [Name "axes"; Op "tuple" [Name "j"; Name "i"]]) "set") [] [("xlim", Op "list" [Name "fmin"; Name "fmax"]); ("ylim", Op "list" [Op "unary -" [Num "0.2"]; Num "1"])]);
          For (Name "f") (Op "list" [Num "8"; Num "12"; Num "18"; Num "35"]) [
            Expr (Call (Attr (Op "subscript" [Name "axes"; Op "tuple" [Name "i"; Name "j"]]) "axvline") [Name "f"] [("color", Str "k")]);
            Expr (Call (Attr (Op "subscript" [Name "axes"; Op "tuple" [Name "j"; Name "i"]]) "axvline") [Name "f"] [("color", Str "k")])
          ]
        ]
      ];
      Expr (Call (Attr (Name "plt") "tight_layout") [] []);
      Expr (Call (Attr (Name "plt") "show") [] [])
    ]
  ] |}.

Definition inverse_envelope_correlation : notebook :=
  {| path := "EEGMEG3-timefrequency/2/5_mne_inverse_envelope_correlation.ipynb";
     cells := [
    [
      Import "os.path" "op";
      Import "matplotlib.pyplot" "plt";
      Import "mne" "mne";
      Import "numpy" "np";
      ImportFrom "mne.minimum_norm" "apply_inverse_epochs" "apply_inverse_epochs";
      ImportFrom "mne.minimum_norm" "make_inverse_operator" "make_inverse_operator";
      ImportFrom "mne.preprocessing" "compute_proj_ecg" "compute_proj_ecg";
      ImportFrom "mne.preprocessing" "compute_proj_eog" "compute_proj_eog";
      Import "mne_connectivity" "mne_connectivity";
      ImportFrom "mne_connectivity" "envelope_correlation" "envelope_correlation";
      Assign [Name "data_path"] (Call (Attr (Attr (Attr (Attr (Name "mne") "datasets") "brainstorm") "bst_resting") "data_path") [] []);
      Assign [Name "subjects_dir"] (Call (Attr (Name "op") "join") [Name "data_path"; Str "subjects"] []);
      Assign [Name "subject"] (Str "bst_resting");
      Assign [Name "trans"] (Call (Attr (Name "op") "join") [Name "data_path"; Str "MEG"; Str "bst_resting"; Str "bst_resting-trans.fif"] []);
      Assign [Name "src"] (Call (Attr (Name "op") "join") [Name "subjects_dir"; Name "subject"; Str "bem"; Op "+" [Name "subject"; Str "-oct-6-src.fif"]] []);
      Assign [Name "bem"] (Call (Attr (Name "op") "join") [Name "subjects_dir"; Name "subject"; Str "bem"; Op "+" [Name "subject"; Str "-5120-bem-sol.fif"]] []);
      Assign [Name "raw_fname"] (Call (Attr (Name "op") "join") [Name "data_path"; Str "MEG"; Str "bst_resting"; Str "subj002_spontaneous_20111102_01_AUX.ds"] [])
    ];
    [
      Assign [Name "raw"] (Call (Attr (Attr (Name "mne") "io") "read_raw_ctf") [Name "raw_fname"] [("verbose", Str "error")]);
      Expr (Call (Attr (Call (Attr (Call (Attr (Call (Attr (Name "raw") "crop") [Num "0"; Num "60"] []) "pick_types") [] [("meg", Lit "True"); ("eeg", Lit "False")]) "load_data") [] []) "resample") [Num "80"] []);
      Expr (Call (Attr (Name "raw") "apply_gradient_compensation") [Num "3"] []);
      Assign [Op "tuple" [Name "projs_ecg"; Name "_"]] (Call (Name "compute_proj_ecg") [Name "raw"] [("n_grad", Num "1"); ("n_mag", Num "2")]);
      Assign [Op "tuple" [Name "projs_eog"; Name "_"]] (Call (Name "compute_proj_eog") [Name "raw"] [("n_grad", Num "1"); ("n_mag", Num "2"); ("ch_name", Str "MLT31-4407")]);
      Expr (Call (Attr (Name "raw") "add_proj") [Op "+" [Name "projs_ecg"; Name "projs_eog"]] []);
      Expr (Call (Attr (Name "raw") "apply_proj") [] []);
      Expr (Call (Attr (Name "raw") "filter") [Num "0.1"; Lit "None"] []);
      Assign [Name "cov"] (Call (Attr (Name "mne") "compute_raw_covariance") [Name "raw"] [])
    ];
    [
      Assign [Name "src"] (Call (Attr (Name "mne") "read_source_spaces") [Name "src"] []);
      Assign [Name "fwd"] (Call (Attr (Name "mne") "make_forward_solution") [Attr (Name "raw") "info"; Name "trans"; Name "src"; Name "bem"] [("verbose", Lit "True")]);
      Delete [Name "src"];
      Assign [Name "inv"] (Call (Name "make_inverse_operator") [Attr (Name "raw") "info"; Name "fwd"; Name "cov"] []);
      Delete [Name "fwd"]
    ];
    [
      Assign [Name "duration"] (Num "10.0");
      Assign [Name "events"] (Call (Attr (Name "mne") "make_fixed_length_events") [Name "raw"] [("duration", Name "duration")]);
      Assign [Name "tmax"] (Op "-" [Name "duration"; Op "/" [Num "1.0"; Op "subscript" [Attr (Name "raw") "info"; Str "sfreq"]]]);
      Assign [Name "epochs"] (Call (Attr (Name "mne") "Epochs") [Name "raw"] [("events", Name "events"); ("tmin", Num "0"); ("tmax", Name "tmax"); ("baseline", Lit "None"); ("reject", Call (Name "dict") [] [("mag", Num "20e-13")])]);
      Assign [Name "sfreq"] (Op "subscript" [Attr (Name "epochs") "info"; Str "sfreq"]);
      Delete [Name "raw"; Name "projs_ecg"; Name "projs_eog"]
    ];
    [
      Assign [Name "labels"] (Call (Attr (Name "mne") "read_labels_from_annot") [Name "subject"; Str "aparc_sub"] [("subjects_dir", Name "subjects_dir")]);
      Assign [Name "stcs"] (Call (Name "apply_inverse_epochs") [Name "epochs"; Name "inv"] [("lambda2", Op "/" [Num "1.0"; Num "9.0"]); ("pick_ori", Str "normal"); ("return_generator", Lit "True")]);
      Assign [Name "label_ts"] (Call (Attr (Name "mne") "extract_label_time_course") [Name "stcs"; Name "labels"; Op "subscript" [Name "inv"; Str "src"]] [("return_generator", Lit "False")]);
      Delete [Name "stcs"];
      FunctionDef "bp_gen" ["label_ts"] [
        Expr (Str "Make a generator that band-passes on the fly.");
        For (Name "ts") (Name "label_ts") [
          Expr (Op "yield" [Call (Attr (Attr (Name "mne") "filter") "filter_data") [Name "ts"; Name "sfreq"; Num "14"; Num "30"] []])
        ]
      ];
      Assign [Name "corr_obj"] (Call (Name "envelope_correlation") [Call (Name "bp_gen") [Name "label_ts"] []] [("orthogonalize", Str "pairwise")]);
      Assign [Name "corr"] (Call (Attr (Name "corr_obj") "combine") [] []);
      Assign [Name "corr"] (Op "subscript" [Call (Attr (Name "corr") "get_data") [] [("output", Str "dense")]; Op "tuple" [Op "slice" [Lit "None"; Lit "None"; Lit "None"]; Op "slice" [Lit "None"; Lit "None"; Lit "None"]; Num "0"]]);
      FunctionDef "plot_corr" ["corr"; "title"] [
        Assign [Op "tuple" [Name "fig"; Name "ax"]] (Call (Attr (Name "plt") "subplots") [] [("figsize", Op "tuple" [Num "4"; Num "4"]); ("constrained_layout", Lit "True")]);
        Expr (Call (Attr (Name "ax") "imshow") [Name "corr"] [("cmap", Str "viridis"); ("clim", Call (Attr (Name "np") "percentile") [Name "corr"; Op "list" [Num "5"; Num "95"]] [])]);
        Expr (Call (Attr (Name "fig") "suptitle") [Name "title"] [])
      ];
      Expr (Call (Name "plot_corr") [Name "corr"; Str "Pairwise"] []);
      FunctionDef "plot_degree" ["corr"; "title"] [
        Assign [Name "threshold_prop"] (Num "0.15");
        Assign [Name "degree"] (Call (Attr (Name "mne_connectivity") "degree") [Name "corr"] [("threshold_prop", Name "threshold_prop")]);
        Assign [Name "stc"] (Call (Attr (Name "mne") "labels_to_stc") [Name "labels"; Name "degree"] []);
        Assign [Name "stc"] (Call (Attr (Name "stc") "in_label") [Op "+" [Call (Attr (Name "mne") "Label") [Op "subscript" [Op "subscript" [Op "subscript" [Name "inv"; Str "src"]; Num "0"]; Str "vertno"]] [("hemi", Str "lh")]; Call (Attr (Name "mne") "Label") [Op "subscript" [Op "subscript" [Op "subscript" [Name "inv"; Str "src"]; Num "1"]; Str "vertno"]] [("hemi", Str "rh")]]] []);
        Return (Call (Attr (Name "stc") "plot") [] [("clim", Call (Name "dict") [] [("kind", Str "percent"); ("lims", Op "list" [Num "75"; Num "85"; Num "95"])]); ("colormap", Str "gnuplot"); ("subjects_dir", Name "subjects_dir"); ("views", Str "dorsal"); ("hemi", Str "both"); ("smoothing_steps", Num "25"); ("time_label", Name "title")])
      ];
      Assign [Name "brain"] (Call (Name "plot_degree") [Name "corr"; Str "Beta (pairwise, aparc_sub)"] [])
    ];
    [
      Assign [Name "labels"] (Call (Attr (Name "mne") "read_labels_from_annot") [Name "subject"; Str "aparc.a2009s"] [("subjects_dir", Name "subjects_dir")]);
      Assign [Name "stcs"] (Call (Name "apply_inverse_epochs") [Name "epochs"; Name "inv"] [("lambda2", Op "/" [Num "1.0"; Num "9.0"]); ("pick_ori", Str "normal"); ("return_generator", Lit "True")]);
      Assign [Name "label_ts"] (Call (Attr (Name "mne") "extract_label_time_course") [Name "stcs"; Name "labels"; Op "subscript" [Name "inv"; Str "src"]] [("return_generator", Lit "True")]);
      Delete [Name "stcs"; Name "epochs"];
      Assign [Name "label_ts_orth"] (Call (Attr (Attr (Name "mne_connectivity") "envelope") "symmetric_orth") [Name "label_ts"] []);
      Assign [Name "corr_obj"] (Call (Name "envelope_correlation") [Call (Name "bp_gen") [Name "label_ts_orth"] []] [("orthogonalize", Lit "False")]);
      Assign [Name "corr"] (Call (Attr (Name "corr_obj") "combine") [] []);
      Assign [Name "corr"] (Op "subscript" [Call (Attr (Name "corr") "get_data") [] [("output", Str "dense")]; Op "tuple" [Op "slice" [Lit "None"; Lit "None"; Lit "None"]; Op "slice" [Lit "None"; Lit "None"; Lit "None"]; Num "0"]]);
      Assign [Op "subscript" [Attr (Name "corr") "flat"; Op "slice" [Lit "None"; Lit "None"; Op "+" [Op "subscript" [Attr (Name "corr") "shape"; Num "0"]; Num "1"]]]] (Num "0");
      Assign [Name "corr"] (Call (Attr (Name "np") "abs") [Name "corr"] []);
      Expr (Call (Name "plot_corr") [Name "corr"; Str "Symmetric"] []);
      Expr (Call (Name "plot_degree") [Name "corr"; Str "Beta (symmetric, aparc.a2009s)"] [])
    ]
  ] |}.

Definition repository : list notebook :=
  [granger_causality;
   seed_tfr_connectivity;
   compare_coherency_methods;
   var_model;
   event_arrays;
   inverse_coherence_epochs;
   compare_over_time_over_trial;
   inverse_connectivity_spectrum;
   inverse_envelope_correlation].

End Repo.

(** ** Where the data of a notebook comes from

    A value is [fetched] when it is computed from the result of a
    dataset-download call ([mne.datasets.<name>.data_path]), [simulated]
    when it is computed from a generator of synthetic signals
    ([make_signals_in_freq_bands], [numpy.random]).  The origins are
    propagated along the statements of a notebook in program order. *)

Module Flow.
Import Ast.

Local Open Scope string_scope.
Local Open Scope list_scope.

Record origin := { fetched : bool; simulated : bool }.

Definition clean : origin := {| fetched := false; simulated := false |}.

Definition join (a b : origin) : origin :=
  {| fetched := fetched a || fetched b;
     simulated := simulated a || simulated b |}.

Definition join_all (os : list origin) : origin := fold_right join clean os.

Definition is_fetch (t : target) : bool :=
  match t with
  | Lib q => String.prefix "mne.datasets." q && suffix ".data_path" q
  | _ => false
  end.

Definition is_simulator (t : target) : bool :=
  match t with
  | Lib q => String.eqb q "mne_connectivity.make_signals_in_freq_bands"
             || String.prefix "numpy.random." q
  | _ => false
  end.

Definition source (t : target) : origin :=
  {| fetched := is_fetch t; simulated := is_simulator t |}.

Definition env := list (string * origin).

Fixpoint get (x : string) (rho : env) : origin :=
  match rho with
  | [] => clean
  | (k, o) :: rho' => if String.eqb k x then o else get x rho'
  end.

Definition set (x : string) (o : origin) (rho : env) : env :=
  (x, o) :: filter (fun kv => negb (String.eqb (fst kv) x)) rho.

Section Analysis.
Variable nb : notebook.

(** The origin of the value of an expression: what its names hold, what
    the receiver and the arguments of its calls hold, and what the called
    function is. *)
Fixpoint origin_of (rho : env) (e : expr) : origin :=
  match e with
  | Name x => get x rho
  | Attr e' _ => origin_of rho e'
  | Call f args kwargs =>
      join (source (resolve nb f))
        (join (origin_of rho f)
           (join (join_all (map (origin_of rho) args))
                 (join_all (map (fun kv => origin_of rho (snd kv)) kwargs))))
  | Op _ es => join_all (map (origin_of rho) es)
  | _ => clean
  end.

(** The variable an assignment target or a method receiver belongs to. *)
Fixpoint root (e : expr) : option string :=
  match e with
  | Name x => Some x
  | Attr e' _ => root e'
  | Op "subscript" (e' :: _) => root e'
  | Call f _ _ => root f
  | _ => None
  end.

(** Add an origin to what a variable already holds. *)
Definition taint (e : expr) (o : origin) (rho : env) : env :=
  match root e with
  | Some x => set x (join o (get x rho)) rho
  | None => rho
  end.

(** Assignment: a name is rebound; the elements of a tuple target are each
    bound; storing into an attribute or an item adds to the variable. *)
Fixpoint bind (o : origin) (t : expr) (rho : env) : env :=
  match t with
  | Name x => set x o rho
  | Op "tuple" es | Op "list" es => fold_left (fun r t' => bind o t' r) es rho
  | _ => taint t o rho
  end.

(** What is watched: for a call, the argument expressions of interest. *)
Variable watch : call -> list expr.

Definition observe (rho : env) (e : expr) : list (call * origin) :=
  flat_map (fun c => map (fun a => (c, origin_of rho a)) (watch c))
           (calls_expr e).

(** One statement: the observations it makes and the environment after
    it.  A loop body runs once; both branches of a conditional and both
    parts of a [try] run in sequence; a function body is examined where
    the function is defined, without effect on the environment. *)
Fixpoint run (s : stmt) (rho : env) : list (call * origin) * env :=
  let block :=
    fix block (ss : list stmt) (rho : env) : list (call * origin) * env :=
      match ss with
      | [] => ([], rho)
      | s' :: ss' =>
          let (o1, rho1) := run s' rho in
          let (o2, rho2) := block ss' rho1 in
          (o1 ++ o2, rho2)
      end in
  match s with
  | Assign targets value =>
      (observe rho value,
       fold_left (fun r t => bind (origin_of rho value) t r) targets rho)
  | AugAssign target _ value =>
      (observe rho value, taint target (origin_of rho value) rho)
  | Expr value => (observe rho value, taint value (origin_of rho value) rho)
  | Return value => (observe rho value, rho)
  | FunctionDef _ params body =>
      (fst (block body (fold_left (fun r p => set p clean r) params rho)), rho)
  | ClassDef _ body => (fst (block body rho), rho)
  | For target iter body =>
      let (o, rho') := block body (bind (origin_of rho iter) target rho) in
      (observe rho iter ++ o, rho')
  | If test body orelse =>
      let (o1, rho1) := block body rho in
      let (o2, rho2) := block orelse rho1 in
      (observe rho test ++ o1 ++ o2, rho2)
  | Try body _ _ handler =>
      let (o1, rho1) := block body rho in
      let (o2, rho2) := block handler rho1 in
      (o1 ++ o2, rho2)
  | Delete targets =>
      ([], fold_left (fun r t => bind clean t r) targets rho)
  | _ => ([], rho)
  end.

Fixpoint run_all (ss : list stmt) (rho : env) : list (call * origin) :=
  match ss with
  | [] => []
  | s :: ss' => let (o, rho') := run s rho in o ++ run_all ss' rho'
  end.

Definition observations : list (call * origin) := run_all (code nb) [].

End Analysis.

(** *** Connectivity estimators and their input *)

Definition estimators : list string :=
  ["mne_connectivity.spectral_connectivity_epochs";
   "mne_connectivity.spectral_connectivity_time";
   "mne_connectivity.vector_auto_regression";
   "mne_connectivity.envelope_correlation"].

(** The data an estimator is run on: its first positional argument, or the
    keyword argument [data]. *)
Definition estimator_input (nb : notebook) (c : call) : list expr :=
  match resolve nb (callee c) with
  | Lib q =>
      if mem q estimators then
        match args c, kwarg "data" c with
        | a :: _, _ => [a]
        | [], Some a => [a]
        | [], None => []
        end
      else []
  | _ => []
  end.

Definition estimator_origins (nb : notebook) : list origin :=
  map snd (observations nb (estimator_input nb)).

(** *** Calls into the MNE packages, in program order *)

Definition mne_packages : list string := ["mne"; "mne_connectivity"; "mne_bids"].

Definition is_mne (t : target) : bool :=
  match t with
  | Lib q => mem (package q) mne_packages
  | _ => false
  end.

Definition mne_calls (nb : notebook) : list target :=
  filter is_mne (targets nb).

(** The first call into the MNE packages is a dataset download. *)
Definition fetch_first (nb : notebook) : bool :=
  match mne_calls nb with
  | t :: _ => is_fetch t
  | [] => false
  end.

(** A notebook loads a sample dataset before any analysis: its first MNE
    call is a dataset download and what its estimators run on is fetched,
    not simulated. *)
Definition loads_dataset_before_analysis (nb : notebook) : bool :=
  fetch_first nb &&
  forallb (fun o => fetched o && negb (simulated o)) (estimator_origins nb).

(** *** File paths *)

Definition path_readers : list string :=
  ["read_raw_fif"; "read_raw_ctf"; "read_raw_eeglab"; "read_events";
   "read_inverse_operator"; "read_label"; "read_source_spaces"].

Definition path_keywords : list string :=
  ["bids_path"; "root"; "subjects_dir"; "fname"].

(** The arguments of a call that name a file or a directory. *)
Definition path_arguments (nb : notebook) (c : call) : list expr :=
  let n := target_name (resolve nb (callee c)) in
  (if mem n path_readers then firstn 1%nat (args c) else [])
  ++ (if String.eqb n "make_forward_solution" then skipn 1%nat (args c) else [])
  ++ flat_map (fun kv => if mem (fst kv) path_keywords then [snd kv] else [])
              (kwargs c).

Definition path_origins (nb : notebook) : list origin :=
  map snd (observations nb (path_arguments nb)).

(** Routines that open a file or a directory by name: the [read_*]
    family, [BIDSPath] and [make_forward_solution]. *)
Definition opens_by_name (n : string) : bool :=
  String.prefix "read_" n || mem n ["BIDSPath"; "make_forward_solution"].

(** Every call of such a routine has a path argument that is looked at. *)
Definition readers_have_paths (nb : notebook) : bool :=
  forallb (fun c =>
             negb (opens_by_name (target_name (resolve nb (callee c))))
             || match path_arguments nb c with [] => false | _ => true end)
          (calls nb).

(** Names under which the libraries in use write files. *)
Definition is_writer (n : string) : bool :=
  String.prefix "save" n || String.prefix "write" n
  || String.prefix "export" n || String.prefix "to_" n
  || mem n ["open"; "dump"; "mkdir"; "makedirs"; "remove"; "unlink";
            "rename"; "rmtree"; "tofile"].

End Flow.

(** ** What the notebooks import, call and define *)

Module Inventory.
Import Ast.

Local Open Scope string_scope.
Local Open Scope list_scope.

(** The top-level packages a notebook imports from. *)
Definition imported_packages (nb : notebook) : list string :=
  map (fun i => package (snd i)) (flat_map imports (code nb)).

(** Standard-library and third-party packages that start threads or
    processes. *)
Definition concurrency_packages : list string :=
  ["threading"; "multiprocessing"; "concurrent"; "asyncio"; "subprocess";
   "joblib"; "dask"; "ray"; "_thread"; "queue"; "sched"].

(** The packages the repository draws on. *)
Definition packages_in_use : list string :=
  ["mne"; "mne_connectivity"; "mne_bids"; "numpy"; "matplotlib"; "os"].

(** The calls that pass a keyword, with the value passed. *)
Definition keyword_uses (k : string) (nb : notebook) : list (target * expr) :=
  flat_map (fun c => match kwarg k c with
                     | Some v => [(resolve nb (callee c), v)]
                     | None => []
                     end)
           (calls nb).

(** The bare names called that are neither imported nor defined. *)
Definition builtins_called (nb : notebook) : list string :=
  flat_map (fun t => match t with Builtin b => [b] | _ => [] end) (targets nb).

Definition builtins_in_use : list string :=
  ["print"; "range"; "len"; "enumerate"; "list"; "tuple"; "int"; "dict";
   "set"; "repr"].

(** A call that draws: into Matplotlib, or the [plot] method of an
    object. *)
Definition is_plot (t : target) : bool :=
  match t with
  | Lib q => String.eqb (package q) "matplotlib"
  | Method m => String.eqb m "plot"
  | _ => false
  end.

(** Where the value of an assignment comes from when it is a call. *)
Definition assigned_calls (nb : notebook) : list target :=
  flat_map (fun a => match snd a with
                     | Call f _ _ => [resolve nb f]
                     | _ => []
                     end)
           (flat_map assignments (code nb)).

(** Keywords by which Python libraries are told how many workers to
    use. *)
Definition parallel_keywords : list string :=
  ["n_jobs"; "n_threads"; "num_workers"; "workers"; "max_workers";
   "n_workers"; "nproc"; "processes"; "threads"].

Definition parallel_settings (nb : notebook)
  : list (string * (target * expr)) :=
  flat_map (fun k => map (fun u => (k, u)) (keyword_uses k nb))
           parallel_keywords.

Definition is_local_among (names : list string) (t : target) : bool :=
  match t with
  | Local x => mem x names
  | _ => false
  end.

(** The calls into the [os] package (imported as [os.path]). *)
Definition os_calls (nb : notebook) : list string :=
  flat_map (fun t => match t with
                     | Lib q => if String.eqb (package q) "os" then [q] else []
                     | _ => []
                     end)
           (targets nb).

(** A call into a library, a method of an object or a builtin. *)
Definition is_external (t : target) : bool :=
  match t with
  | Lib q => mem (package q) packages_in_use
  | Method _ => true
  | Builtin b => mem b builtins_in_use
  | Local _ => false
  end.

End Inventory.

(** ** Literal arguments

    Reading the value of an argument that is written as a literal: a
    decimal integer, a string, a list display, or a list display repeated
    with [*]. *)

Module Literal.
Import Ast.








End Literal.

(** ** Data for the examples

    Concrete data to run the cells on: a recording whose automatic rank is
    too high for the rank-deficiency check and which gives, for each
    connection, a two-point spectrum made from the method and the seed
    indices; a few float64 numbers; a small dense connectivity. *)

Module Demo.

(** A recording to run the cells on: six singular values close to each
    other for every group of channels, an autocovariance sequence that is
    singular above rank five, and two scores per connection. *)
Definition recording : Library.recording :=
  {| Library.singular_values :=
       fun _ => map F64.of_Z [3; 2; 2; 1; 1; 1];
     Library.singular :=
       fun _ _ ranks _ => (5 <? fst ranks)%nat || (5 <? snd ranks)%nat;
     Library.estimate :=
       fun m seeds _ _ _ =>
         let k := Z.of_nat (String.length (String.concat "_" m)) in
         [F64.of_Z (k * Z.of_nat (length seeds + hd 0%nat seeds));
          F64.of_Z (k * Z.of_nat (list_sum seeds))];
     Library.frequencies := fun lo hi => [F64.of_Z lo; F64.of_Z hi] |}.

(** What Python's [repr] gives the error of the rank-deficiency check. *)
Definition repr (_ : Py.exception) : string :=
  "RuntimeError('the autocovariance matrix is singular; check if your data is rank deficient and specify an appropriate rank argument <= the rank of the seeds and targets')".

(** 0.1, 1.0, 3.0 and 2^-20 as float64. *)
Definition tenth : F64.t := S754_finite false 7205759403792794 (-56).
Definition one : F64.t := S754_finite false 4503599627370496 (-52).
Definition three : F64.t := S754_finite false 6755399441055744 (-51).
Definition tiny : F64.t := S754_finite false 4503599627370496 (-72).

(** A dense connectivity over three channels, one band and two time
    points: zeros on and above the diagonal, the values of the pairs
    (1, 0), (2, 0) and (2, 1) below it. *)
Definition dense : list (list (Np.array2 F64.t)) :=
  map (map (fun vs => [map F64.of_Z vs]))
      [[[0; 0]; [0; 0]; [0; 0]];
       [[1; 3]; [0; 0]; [0; 0]];
       [[2; 5]; [3; 4]; [0; 0]]].

End Demo.

(** ** Python sequences

    The list and NumPy operations the cells apply to one-dimensional
    data, with the errors Python raises. *)

Module Seq.

Local Open Scope nat_scope.

Definition index_error : Py.exception :=
  {| Py.exc_type := Py.IndexError; Py.exc_msg := "index out of range" |}.

Definition value_error : Py.exception :=
  {| Py.exc_type := Py.ValueError; Py.exc_msg := "value is not in list" |}.

Section Items.
Variable A : Type.

(** [xs[i]] for a non-negative [i]. *)
Definition get_item (xs : list A) (i : nat) : Py.outcome A :=
  match nth_error xs i with
  | Some x => Py.Returned x
  | None => Py.Raised index_error
  end.

Fixpoint update (xs : list A) (i : nat) (v : A) : list A :=
  match xs, i with
  | [], _ => []
  | _ :: xs', 0 => v :: xs'
  | x :: xs', S i' => x :: update xs' i' v
  end.

(** [xs[i] = v] for a non-negative [i]. *)
Definition set_item (xs : list A) (i : nat) (v : A) : Py.outcome (list A) :=
  if i <? length xs then Py.Returned (update xs i v)
  else Py.Raised index_error.

(** [xs[i:j]] for non-negative bounds. *)
Definition slice (xs : list A) (i j : nat) : list A :=
  firstn (j - i) (skipn i xs).

(** [xs.index(x)]: the first position whose item equals [x] under [==]. *)
Variable eqb : A -> A -> bool.

Fixpoint index_from (k : nat) (x : A) (xs : list A) : Py.outcome nat :=
  match xs with
  | [] => Py.Raised value_error
  | y :: ys => if eqb y x then Py.Returned k else index_from (S k) x ys
  end.

Definition index (x : A) (xs : list A) : Py.outcome nat := index_from 0 x xs.

(** [xs[mask]] for a boolean array [mask]: the items where the mask is
    true; a mask of another length is an [IndexError]. *)
Definition compress (mask : list bool) (xs : list A) : Py.outcome (list A) :=
  if length mask =? length xs
  then Py.Returned (map snd (filter fst (combine mask xs)))
  else Py.Raised index_error.

End Items.

Section Loops.
Variables A B S : Type.

(** A list comprehension [[f x for x in xs]] whose element expression can
    raise: the first failure ends it. *)
Fixpoint comprehension (f : A -> Py.outcome B) (xs : list A)
  : Py.outcome (list B) :=
  match xs with
  | [] => Py.Returned []
  | x :: xs' =>
      y <- f x ;;
      ys <- comprehension f xs' ;;
      Py.Returned (y :: ys)
  end.

(** [for x in xs: body], the body updating a state. *)
Fixpoint for_each (body : A -> S -> Py.outcome S) (xs : list A) (s : S)
  : Py.outcome S :=
  match xs with
  | [] => Py.Returned s
  | x :: xs' => s' <- body x s ;; for_each body xs' s'
  end.

End Loops.

(** [range(n)]. *)
Definition range (n : nat) : list nat := seq 0 n.

End Seq.

(** ** Granger-causality notebook: the two sensor groups *)

Module SensorGroups.

Local Open Scope nat_scope.

(** [[idx for idx, ch_info in enumerate(chs) if ch_info["ch_name"][2] ==
    letter]], on the channel names in order; [idx] counts from [k].  A
    name of fewer than three characters makes [ch_name[2]] an
    [IndexError]. *)
Fixpoint select (letter : ascii) (k : nat) (ch_names : list string)
  : Py.outcome (list nat) :=
  match ch_names with
  | [] => Py.Returned []
  | name :: rest =>
      match String.get 2 name with
      | None => Py.Raised {| Py.exc_type := Py.IndexError;
                             Py.exc_msg := "string index out of range" |}
      | Some c =>
          idxs <- select letter (S k) rest ;;
          Py.Returned (if Ascii.eqb c letter then k :: idxs else idxs)
      end
  end.

(** Parietal sensors, then occipital sensors. *)
Definition signals_a (ch_names : list string) : Py.outcome (list nat) :=
  select "P" 0 ch_names.

Definition signals_b (ch_names : list string) : Py.outcome (list nat) :=
  select "O" 0 ch_names.

Definition groups (ch_names : list string) : Py.outcome (list nat * list nat) :=
  a <- signals_a ch_names ;;
  b <- signals_b ch_names ;;
  Py.Returned (a, b).

End SensorGroups.

(** ** Seed-based connectivity notebook: the seed among the picks *)

Module SeedTFR.

Local Open Scope nat_scope.

(** [picks_ch_names = [raw.ch_names[i] for i in picks]],
    [seed = picks_ch_names.index(seed_ch)] and
    [targets = np.arange(len(picks))]. *)
Definition picks_ch_names (ch_names : list string) (picks : list nat)
  : Py.outcome (list string) :=
  Seq.comprehension nat string (Seq.get_item string ch_names) picks.

Definition seed_and_targets (ch_names : list string) (picks : list nat)
  (seed_ch : string) : Py.outcome (nat * list nat) :=
  names <- picks_ch_names ch_names picks ;;
  seed <- Seq.index string String.eqb seed_ch names ;;
  Py.Returned (seed, Seq.range (length picks)).

End SeedTFR.

(** ** Coherency notebook: the values of a frequency band *)

Module Coherency.

Local Open Scope nat_scope.

Section Band.
Variable F : Type.
Variable eqb : F -> F -> bool.

(** [row[freqs.index(lo) : freqs.index(hi) + 1]], the slice whose mean the
    notebook takes for the bands 10-12 Hz and 23-25 Hz. *)
Definition band (freqs row : list F) (lo hi : F) : Py.outcome (list F) :=
  i <- Seq.index F eqb lo freqs ;;
  j <- Seq.index F eqb hi freqs ;;
  Py.Returned (Seq.slice F row i (j + 1)).

End Band.

End Coherency.

(** ** Connectivity over time and over trials: simulated case 1 and the
    frequency bands *)

Module OverTrials.

Local Open Scope nat_scope.

Section Case1.
Variable A : Type.

(** [for i in range(n_epochs): data[i] = data[0]] on an array whose
    first axis holds the epochs. *)
Definition replicate_first (n_epochs : nat) (data : list A)
  : Py.outcome (list A) :=
  Seq.for_each nat (list A)
    (fun i d => first <- Seq.get_item A d 0 ;; Seq.set_item A d i first)
    (Seq.range n_epochs) data.

End Case1.

Section Bands.
Variable F : Type.

(** [Freq_Bands]: the bands in the order they were written, a name and
    the list of its bounds each. *)
Definition bands := list (string * list F).

Definition keys (d : bands) : list string := map fst d.
Definition values (d : bands) : list (list F) := map snd d.

(** [[list(Freq_Bands.values())[f][k] for f in range(len(Freq_Bands))]] *)
Definition bound (k : nat) (d : bands) : Py.outcome (list F) :=
  Seq.comprehension nat F
    (fun f => band <- Seq.get_item (list F) (values d) f ;;
              Seq.get_item F band k)
    (Seq.range (length d)).

Definition fmin : bands -> Py.outcome (list F) := bound 0.
Definition fmax : bands -> Py.outcome (list F) := bound 1.

(** [list(Freq_Bands.keys()).index(name)] *)
Definition foi (name : string) (d : bands) : Py.outcome nat :=
  Seq.index string String.eqb name (keys d).

End Bands.

End OverTrials.

(** ** Residuals of the VAR model, one row per channel *)

Module Sampled.

Local Open Scope nat_scope.

Section Residuals.
Variable F : Type.

(** [a[:, :, k:]] *)
Definition from_lag (k : nat) (a : Np.array3 F) : Np.array3 F :=
  map (map (skipn k)) a.

Fixpoint sections (size n : nat) (a : Np.array3 F) : list (Np.array3 F) :=
  match n with
  | 0 => []
  | S n' => firstn size a :: sections size n' (skipn size a)
  end.

(** [np.split(a, n, 0)]: [n] parts of equal size along the first axis;
    it fails for no part at all and when the axis does not divide. *)
Definition split (a : Np.array3 F) (n : nat) : option (list (Np.array3 F)) :=
  match n with
  | 0 => None
  | S _ =>
      if length a mod n =? 0 then Some (sections (length a / n) n a)
      else None
  end.

Definition same_rows (a b : Np.array3 F) : bool :=
  (length a =? length b) &&
  forallb (fun p => length (fst p) =? length (snd p)) (combine a b).

(** [np.concatenate(parts, axis=2)]: the rows of the parts put end to
    end; it fails for no part at all and when two parts differ along
    another axis. *)
Fixpoint concatenate (parts : list (Np.array3 F)) : option (Np.array3 F) :=
  match parts with
  | [] => None
  | [a] => Some a
  | a :: rest =>
      match concatenate rest with
      | Some b =>
          if same_rows a b then Some (Np.map2 (Np.map2 (@app F)) a b)
          else None
      | None => None
      end
  end.

(** [a.squeeze(0)]: it fails unless the first axis has length one. *)
Definition squeeze (a : Np.array3 F) : option (Np.array2 F) :=
  match a with
  | [m] => Some m
  | _ => None
  end.

(** [np.concatenate(np.split(residuals[:, :, model_order:], t, 0),
    axis=2).squeeze(0)] with [t = residuals.shape[0]]. *)
Definition sampled_residuals (residuals : Np.array3 F) (model_order : nat)
  : option (Np.array2 F) :=
  let t := length residuals in
  match split (from_lag model_order residuals) t with
  | Some parts =>
      match concatenate parts with
      | Some c => squeeze c
      | None => None
      end
  | None => None
  end.

End Residuals.

End Sampled.

(** ** Envelope correlation: the diagonal of the correlation matrix *)

Module Envelope.

Local Open Scope nat_scope.

Section Diagonal.
Variable F : Type.
Variable zero : F.

(** [flat[::step] = 0] on the items of a one-dimensional view (the step
    is positive here). *)
Fixpoint assign_stride (step k : nat) (flat : list F) : list F :=
  match flat with
  | [] => []
  | x :: rest =>
      (if k mod step =? 0 then zero else x) :: assign_stride step (S k) rest
  end.

(** The rows of a [rows x cols] array read off its items in row-major
    order. *)
Fixpoint rows_of (rows cols : nat) (flat : list F) : Np.array2 F :=
  match rows with
  | 0 => []
  | S r => firstn cols flat :: rows_of r cols (skipn cols flat)
  end.

Definition n_cols (corr : Np.array2 F) : nat :=
  match corr with
  | [] => 0
  | r :: _ => length r
  end.

(** [corr.flat[:: corr.shape[0] + 1] = 0]: [corr.flat] is the row-major
    view of the array itself. *)
Definition zero_diagonal (corr : Np.array2 F) : Np.array2 F :=
  rows_of (length corr) (n_cols corr)
    (assign_stride (length corr + 1) 0 (concat corr)).

End Diagonal.

End Envelope.

(** ** Connectivity over trials on the sample data: the peak of the global
    connectivity *)

Module Peak.

Local Open Scope nat_scope.

(** The float64 [0.5]. *)
Definition half : F64.t := S754_finite false 4503599627370496 (-53).

Definition empty_error : Py.exception :=
  {| Py.exc_type := Py.ValueError;
     Py.exc_msg := "attempt to get argmax of an empty sequence" |}.

(** [np.argmax] of a one-dimensional float array: the first position of
    the largest value, a NaN counting as the largest. *)
Fixpoint argmax_from (best : F64.t) (ibest i : nat) (xs : list F64.t) : nat :=
  match xs with
  | [] => ibest
  | x :: rest =>
      if F64.is_nan best then ibest
      else if F64.leb x best then argmax_from best ibest (S i) rest
      else argmax_from x i (S i) rest
  end.

Definition argmax (xs : list F64.t) : Py.outcome nat :=
  match xs with
  | [] => Py.Raised empty_error
  | x :: rest => Py.Returned (argmax_from x 0 1 rest)
  end.

(** [times <= 0.5] *)
Definition early (times : list F64.t) : list bool :=
  map (fun t => F64.leb t half) times.

(** [t_con_max = np.argmax(global_con_epochs[times <= 0.5])] and the
    [times[t_con_max]] that is printed. *)
Definition peak_time (times global_con_epochs : list F64.t)
  : Py.outcome (nat * F64.t) :=
  masked <- Seq.compress F64.t (early times) global_con_epochs ;;
  t_con_max <- argmax masked ;;
  t <- Seq.get_item F64.t times t_con_max ;;
  Py.Returned (t_con_max, t).

Definition ascending (times : list F64.t) : Prop :=
  StronglySorted (fun a b => F64.leb a b = true) times.

End Peak.

(** ** Connectivity spectrum between the labels: the grid of panels *)

Module Spectrum.

Local Open Scope nat_scope.

(** What [plt.subplots(n_rows, n_cols)] returns as [axes]: one [Axes], a
    one-dimensional array of them, or a two-dimensional one. *)
Inductive axes :=
| Single
| Line (n : nat)
| Grid (rows cols : nat).

Definition subplots (n_rows n_cols : nat) : Py.outcome axes :=
  if n_rows =? 0 then
    Py.Raised {| Py.exc_type := Py.ValueError;
                 Py.exc_msg := "Number of rows must be a positive integer, not 0" |}
  else if n_cols =? 0 then
    Py.Raised {| Py.exc_type := Py.ValueError;
                 Py.exc_msg := "Number of columns must be a positive integer, not 0" |}
  else if (n_rows =? 1) && (n_cols =? 1) then Py.Returned Single
  else if n_rows =? 1 then Py.Returned (Line n_cols)
  else if n_cols =? 1 then Py.Returned (Line n_rows)
  else Py.Returned (Grid n_rows n_cols).

(** [axes[i, j]] *)
Definition panel (a : axes) (i j : nat) : Py.outcome (nat * nat) :=
  match a with
  | Single =>
      Py.Raised {| Py.exc_type := Py.TypeError;
                   Py.exc_msg := "'Axes' object is not subscriptable" |}
  | Line _ =>
      Py.Raised {| Py.exc_type := Py.IndexError;
                   Py.exc_msg := "too many indices for array" |}
  | Grid rows cols =>
      if (i <? rows) && (j <? cols) then Py.Returned (i, j)
      else Py.Raised Seq.index_error
  end.

(** What the loop asks of the panels, in the order it does. *)
Inductive call :=
| set_axis_off (panel : nat * nat)
| plot (panel : nat * nat) (i j : nat)
| set_ylabel (panel : nat * nat) (name : string)
| set_title (panel : nat * nat) (name : string)
| set_xlabel (panel : nat * nat) (name : string)
| set_limits (panel : nat * nat)
| axvline (panel : nat * nat) (f : Z).

Definition log := list call.

Section Loop.
Variables n_rows n_cols : nat.
Variable names : list string.
Variable a : axes.

(** [con.get_data(output="dense")[i, j, :]] on data whose first two axes
    have lengths [n_rows] and [n_cols]. *)
Definition dense (i j : nat) : Py.outcome (nat * nat) :=
  if (i <? n_rows) && (j <? n_cols) then Py.Returned (i, j)
  else Py.Raised Seq.index_error.

Definition band_limits (i j : nat) (l : log) : Py.outcome log :=
  Seq.for_each Z log
    (fun f l =>
       p <- panel a i j ;;
       q <- panel a j i ;;
       Py.Returned (l ++ [axvline p f; axvline q f]))
    [8; 12; 18; 35]%Z l.

Definition entry (i j : nat) (l : log) : Py.outcome log :=
  if i =? j then
    p <- panel a i j ;;
    Py.Returned (l ++ [set_axis_off p])
  else
    p <- panel a i j ;;
    d <- dense i j ;;
    let l := l ++ [plot p (fst d) (snd d)] in
    q <- panel a j i ;;
    d <- dense i j ;;
    let l := l ++ [plot q (fst d) (snd d)] in
    l <- (if j =? 0 then
            p <- panel a i j ;;
            name <- Seq.get_item string names i ;;
            let l := l ++ [set_ylabel p name] in
            t <- panel a 0 i ;;
            name <- Seq.get_item string names i ;;
            Py.Returned (l ++ [set_title t name])
          else Py.Returned l) ;;
    l <- (if i =? n_rows - 1 then
            p <- panel a i j ;;
            name <- Seq.get_item string names j ;;
            Py.Returned (l ++ [set_xlabel p name])
          else Py.Returned l) ;;
    p <- panel a i j ;;
    let l := l ++ [set_limits p] in
    q <- panel a j i ;;
    let l := l ++ [set_limits q] in
    band_limits i j l.

Definition rows (l : log) : Py.outcome log :=
  Seq.for_each nat log
    (fun i l => Seq.for_each nat log (entry i) (Seq.range (i + 1)) l)
    (Seq.range n_rows) l.

End Loop.

(** What [entry] adds to the log when none of its steps fails. *)
Definition calls_of_entry (n_rows : nat) (names : list string) (i j : nat)
  : log :=
  if i =? j then [set_axis_off (i, j)]
  else
    [plot (i, j) i j; plot (j, i) i j] ++
    (if j =? 0
     then [set_ylabel (i, j) (nth i names EmptyString);
           set_title (0, i) (nth i names EmptyString)]
     else []) ++
    (if i =? n_rows - 1
     then [set_xlabel (i, j) (nth j names EmptyString)]
     else []) ++
    [set_limits (i, j); set_limits (j, i)] ++
    flat_map (fun f => [axvline (i, j) f; axvline (j, i) f]) [8; 12; 18; 35]%Z.

(** [fig, axes = plt.subplots(n_rows, n_cols, ...)] and the loop. *)
Definition grid (n_rows n_cols : nat) (names : list string) : Py.outcome log :=
  a <- subplots n_rows n_cols ;;
  rows n_rows n_cols names a [].

End Spectrum.

(** ** Coherence in source space: the seed vertex *)

Module SeedVertex.

Local Open Scope nat_scope.

(** The binary search of [np.searchsorted(a, v)] (side "left") between
    [lo] and [hi]; [fuel] bounds the number of halvings. *)
Fixpoint bisect (fuel : nat) (a : list Z) (v : Z) (lo hi : nat) : nat :=
  match fuel with
  | 0 => lo
  | S fuel' =>
      if lo <? hi then
        let mid := lo + (hi - lo) / 2 in
        if (nth mid a 0 <? v)%Z then bisect fuel' a v (mid + 1) hi
        else bisect fuel' a v lo mid
      else lo
  end.

Definition searchsorted (a : list Z) (v : Z) : nat :=
  bisect (length a) a v 0 (length a).

(** [seed_vertno = stc_label.vertices[0][np.argmax(src_pow)]] and
    [seed_idx = np.searchsorted(stc.vertices[0], seed_vertno)]. *)
Definition seed (label_vertices stc_vertices : list Z) (src_pow : list F64.t)
  : Py.outcome (Z * nat) :=
  strongest <- Peak.argmax src_pow ;;
  seed_vertno <- Seq.get_item Z label_vertices strongest ;;
  Py.Returned (seed_vertno, searchsorted stc_vertices seed_vertno).

Definition increasing (vertices : list Z) : Prop :=
  StronglySorted Z.lt vertices.

End SeedVertex.

(** ** Connectivity over time and over trials: simulated case 2 *)

Module Case2.

Local Open Scope nat_scope.

Definition shape_error : Py.exception :=
  {| Py.exc_type := Py.ValueError;
     Py.exc_msg := "could not broadcast input array" |}.

Section Waves.
Variables R F : Type.

(** [phase = rng.random(1) * 10]: the phase, and the generator after the
    draw. *)
Variable random : R -> F * R.

(** [np.squeeze(np.sin(np.linspace(..., n_times)))] for a phase. *)
Variable wave : F -> list F.

(** The value a row of length [n] takes when [w] is assigned to it. *)
Definition broadcast (n : nat) (w : list F) : Py.outcome (list F) :=
  if length w =? n then Py.Returned w
  else match w with
       | [x] => Py.Returned (repeat x n)
       | _ => Py.Raised shape_error
       end.

(** [data[i, c] = w] *)
Definition set_row (data : Np.array3 F) (i c : nat) (w : list F)
  : Py.outcome (Np.array3 F) :=
  epoch <- Seq.get_item (list (list F)) data i ;;
  old <- Seq.get_item (list F) epoch c ;;
  new <- broadcast (length old) w ;;
  epoch <- Seq.set_item (list F) epoch c new ;;
  Seq.set_item (list (list F)) data i epoch.

(** The two loops over the epochs and the channels; the state is the
    generator and the data. *)
Definition channel (i c : nat) (s : R * Np.array3 F)
  : Py.outcome (R * Np.array3 F) :=
  let (phase, rng) := random (fst s) in
  data <- set_row (snd s) i c (wave phase) ;;
  Py.Returned (rng, data).

Definition sine_waves (n_epochs n_channels : nat) (s : R * Np.array3 F)
  : Py.outcome (R * Np.array3 F) :=
  Seq.for_each nat (R * Np.array3 F)
    (fun i s =>
       Seq.for_each nat (R * Np.array3 F) (channel i) (Seq.range n_channels) s)
    (Seq.range n_epochs) s.

(** The generator after [k] draws, and the phase of the draw after
    them. *)
Definition after (k : nat) (rng : R) : R :=
  Nat.iter k (fun r => snd (random r)) rng.

Definition phase_at (k : nat) (rng : R) : F := fst (random (after k rng)).

End Waves.

End Case2.

(** ** Connectivity over time and over trials: the connectivity matrices *)

Module ConMatrix.

Local Open Scope nat_scope.

(** What [plt.subplots(1, n)] returns as [ax]: one [Axes], or a
    one-dimensional array of them. *)
Inductive axes :=
| One
| Many (n : nat).

Definition subplots (n : nat) : Py.outcome axes :=
  match n with
  | 0 =>
      Py.Raised {| Py.exc_type := Py.ValueError;
                   Py.exc_msg := "Number of columns must be a positive integer, not 0" |}
  | 1 => Py.Returned One
  | _ => Py.Returned (Many n)
  end.

(** [ax[c]] *)
Definition panel (ax : axes) (c : nat) : Py.outcome nat :=
  match ax with
  | One =>
      Py.Raised {| Py.exc_type := Py.TypeError;
                   Py.exc_msg := "'Axes' object is not subscriptable" |}
  | Many n => if c <? n then Py.Returned c else Py.Raised Seq.index_error
  end.

Inductive call :=
| imshow (panel : nat) (matrix : nat * nat)
| set_title (panel : nat) (name : string)
| colorbar (panel : nat)
| set_xticks (panel : nat) (ticks : list nat)
| set_xticklabels (panel : nat) (labels : list string)
| set_yticks (panel : nat) (ticks : list nat)
| set_yticklabels (panel : nat) (labels : list string)
| printed (name : string) (matrix : nat * nat).

Definition log := list call.

Section Plot.
(** The globals the function reads when it runs. *)
Variable foi : nat.
Variable connectivity_methods : list string.
Variable ch_names : list string.
(** The lengths of the first and the last axis of [con_data]. *)
Variables n_data n_bands : nat.

(** [con_data[c, :, :, foi]] *)
Definition matrix (c : nat) : Py.outcome (nat * nat) :=
  if (c <? n_data) && (foi <? n_bands) then Py.Returned (c, foi)
  else Py.Raised Seq.index_error.

Definition method (ax : axes) (c : nat) (l : log) : Py.outcome log :=
  p <- panel ax c ;;
  m <- matrix c ;;
  let l := l ++ [imshow p m] in
  p <- panel ax c ;;
  name <- Seq.get_item string connectivity_methods c ;;
  let l := l ++ [set_title p name] in
  p <- panel ax c ;;
  let l := l ++ [colorbar p] in
  p <- panel ax c ;;
  let l := l ++ [set_xticks p (Seq.range (length ch_names))] in
  p <- panel ax c ;;
  let l := l ++ [set_xticklabels p ch_names] in
  p <- panel ax c ;;
  let l := l ++ [set_yticks p (Seq.range (length ch_names))] in
  p <- panel ax c ;;
  let l := l ++ [set_yticklabels p ch_names] in
  name <- Seq.get_item string connectivity_methods c ;;
  m <- matrix c ;;
  Py.Returned (l ++ [printed name m]).

Definition plot_con_matrix (n_con_methods : nat) : Py.outcome log :=
  ax <- subplots n_con_methods ;;
  Seq.for_each nat log (method ax) (Seq.range n_con_methods) [].

(** What [method] adds to the log when none of its steps fails. *)
Definition calls_of_method (c : nat) : log :=
  let name := nth c connectivity_methods EmptyString in
  [imshow c (c, foi); set_title c name; colorbar c;
   set_xticks c (Seq.range (length ch_names)); set_xticklabels c ch_names;
   set_yticks c (Seq.range (length ch_names)); set_yticklabels c ch_names;
   printed name (c, foi)].

End Plot.

End ConMatrix.

(** * Properties *)

(** ** binary64: values up to the sign of zero, and subtraction *)

Lemma same_refl x : F64.same x x.
Proof. now left. Qed.

Lemma same_sym x y : F64.same x y -> F64.same y x.
Proof. intros [->|[Hx Hy]]; [now left | now right]. Qed.

Lemma same_trans x y z : F64.same x y -> F64.same y z -> F64.same x z.
Proof.
  intros [->|[Hx Hy]] [->|[Hy' Hz]];
    [left; reflexivity | right; auto | right; auto | right; auto].
Qed.

Lemma same_neg x y : F64.same x y -> F64.same (F64.neg x) (F64.neg y).
Proof.
  intros [->|[Hx Hy]]; [now left|].
  destruct x, y; try discriminate. right; now split.
Qed.

(** Floats that are [same] compare equal with [==], unless they are NaN. *)
Lemma same_eqb x y :
  F64.same x y -> F64.is_nan x = false -> F64.eqb x y = true.
Proof.
  intros [<-|[Hx Hy]] Hn.
  - destruct x as [s|s| |s m e]; try discriminate; try (now destruct s).
    unfold F64.eqb, SFeqb, SFcompare.
    destruct s; rewrite Z.compare_refl;
      rewrite ?Pos.compare_cont_refl; reflexivity.
  - destruct x, y; try discriminate. reflexivity.
Qed.

(** The sign of a rounded result is the sign handed to the rounding. *)
Lemma binary_round_aux_neg s m e l :
  binary_round_aux F64.prec F64.emax (negb s) m e l
  = SFopp (binary_round_aux F64.prec F64.emax s m e l).
Proof.
  unfold binary_round_aux.
  destruct (shr_fexp _ _ m e l) as [mrs e'].
  destruct (shr_fexp _ _ _ e' loc_Exact) as [mrs' e''].
  destruct (shr_m mrs'); try reflexivity.
  now destruct (Z.leb _ _).
Qed.

Lemma binary_round_neg s m e :
  binary_round F64.prec F64.emax (negb s) m e
  = SFopp (binary_round F64.prec F64.emax s m e).
Proof.
  unfold binary_round.
  destruct (shl_align _ _ _) as [mz ez].
  apply binary_round_aux_neg.
Qed.

Lemma binary_normalize_neg m e :
  F64.same (binary_normalize F64.prec F64.emax (- m) e false)
           (SFopp (binary_normalize F64.prec F64.emax m e false)).
Proof.
  destruct m as [|p|p]; simpl.
  - right; now split.
  - left. apply (binary_round_neg false).
  - left. apply (binary_round_neg true).
Qed.

(** Exchanging the operands of a float64 subtraction negates the result. *)
Lemma sub_swap x y : F64.same (F64.sub y x) (F64.neg (F64.sub x y)).
Proof.
  destruct x as [sx|sx| |sx mx ex], y as [sy|sy| |sy my ey];
    try (left; reflexivity);
    try (destruct sx, sy; (left; reflexivity) || (right; split; reflexivity)).
  unfold F64.sub, F64.neg, SFsub.
  rewrite (Z.min_comm ey ex).
  match goal with
  | |- F64.same (binary_normalize _ _ ?a _ _) (SFopp (binary_normalize _ _ ?b _ _)) =>
      replace a with (- b) by lia
  end.
  apply binary_normalize_neg.
Qed.

(** Subtraction respects [same]. *)
Lemma sub_same x x' y y' :
  F64.same x x' -> F64.same y y' -> F64.same (F64.sub x y) (F64.sub x' y').
Proof.
  intros [->|[Hx Hx']] [->|[Hy Hy']]; try apply same_refl.
  - destruct y, y'; try discriminate.
    destruct x' as [s'|s'| |s' m' e']; try (left; reflexivity).
    right; split; simpl; now destruct s', s, s0.
  - destruct x, x'; try discriminate.
    destruct y' as [s'|s'| |s' m' e']; try (left; reflexivity).
    right; split; simpl; now destruct s', s, s0.
  - destruct x, x', y, y'; try discriminate.
    right; split; simpl; now destruct s, s0, s1, s2.
Qed.

(** Negating both operands negates the difference. *)
Lemma sub_neg_neg x y :
  F64.same (F64.sub (F64.neg x) (F64.neg y)) (F64.neg (F64.sub x y)).
Proof.
  destruct x as [sx|sx| |sx mx ex], y as [sy|sy| |sy my ey];
    try (left; reflexivity);
    try (destruct sx, sy; (left; reflexivity) || (right; split; reflexivity)).
  change (F64.neg (S754_finite sx mx ex)) with (S754_finite (negb sx) mx ex).
  change (F64.neg (S754_finite sy my ey)) with (S754_finite (negb sy) my ey).
  unfold F64.sub, F64.neg, SFsub.
  match goal with
  | |- F64.same (binary_normalize _ _ ?a _ _) (SFopp (binary_normalize _ _ ?b _ _)) =>
      replace a with (- b) by (unfold cond_Zopp; destruct sx, sy; cbn [negb]; lia)
  end.
  apply binary_normalize_neg.
Qed.

(** *** Rounding a product: [x * 1e-4 <= x] for positive [x] *)

Lemma digits2_size p : digits2_pos p = Pos.size p.
Proof. induction p; simpl; congruence. Qed.

Lemma digits2_bounds p :
  2 ^ (Z.pos (digits2_pos p) - 1) <= Z.pos p < 2 ^ Z.pos (digits2_pos p).
Proof.
  rewrite digits2_size. split.
  - pose proof (Pos.size_le p) as H.
    apply Pos2Z.pos_le_pos in H. rewrite Pos2Z.inj_pow in H.
    change (Z.pos p~0) with (2 * Z.pos p) in H.
    remember (Z.pos (Pos.size p)) as d eqn:Ed.
    assert (Hd : 0 < d) by (subst d; apply Pos2Z.is_pos).
    replace d with (Z.succ (d - 1)) in H by lia.
    rewrite Z.pow_succ_r in H by lia. lia.
  - pose proof (Pos.size_gt p) as H.
    apply Pos2Z.pos_lt_pos in H. now rewrite Pos2Z.inj_pow in H.
Qed.

Lemma Zdigits2_le m k : 0 <= k -> 0 <= m < 2 ^ k -> Zdigits2 m <= k.
Proof.
  intros Hk [H0 Hm]. destruct m as [|p|p]; simpl; try lia.
  pose proof (digits2_bounds p) as [Hl _].
  destruct (Z_le_gt_dec (Z.pos (digits2_pos p)) k) as [|Hgt]; [assumption|].
  exfalso. assert (2 ^ k <= 2 ^ (Z.pos (digits2_pos p) - 1))
    by (apply Z.pow_le_mono_r; lia). lia.
Qed.

Lemma shr_1_m r : 0 <= shr_m r -> shr_m (shr_1 r) = shr_m r / 2.
Proof.
  destruct r as [m rr ss]; simpl. intros Hm.
  rewrite <- Z.div2_div.
  destruct m as [|[p|p|]|p]; try reflexivity; lia.
Qed.

Lemma iter_shr_m p : forall r, 0 <= shr_m r ->
  shr_m (SpecFloat.iter_pos shr_1 p r) = shr_m r / 2 ^ Z.pos p.
Proof.
  induction p as [p IH|p IH|]; intros r Hr; simpl SpecFloat.iter_pos.
  - assert (H1 : 0 <= shr_m (shr_1 r)) by (rewrite shr_1_m by lia; apply Z.div_pos; lia).
    assert (H2 : 0 <= shr_m (SpecFloat.iter_pos shr_1 p (shr_1 r)))
      by (rewrite IH by lia; apply Z.div_pos; [lia|apply Z.pow_pos_nonneg; lia]).
    rewrite IH by lia. rewrite IH by lia. rewrite shr_1_m by lia.
    rewrite !Z.div_div by (try apply Z.pow_pos_nonneg; lia).
    replace (Z.pos p~1) with (1 + (Z.pos p + Z.pos p)) by lia.
    rewrite !Z.pow_add_r by lia. rewrite Z.pow_1_r. reflexivity.
  - assert (H2 : 0 <= shr_m (SpecFloat.iter_pos shr_1 p r))
      by (rewrite IH by lia; apply Z.div_pos; [lia|apply Z.pow_pos_nonneg; lia]).
    rewrite IH by lia. rewrite IH by lia.
    rewrite !Z.div_div by (try apply Z.pow_pos_nonneg; lia).
    replace (Z.pos p~0) with (Z.pos p + Z.pos p) by lia.
    rewrite !Z.pow_add_r by lia. reflexivity.
  - rewrite shr_1_m by lia. reflexivity.
Qed.

Lemma round_nearest_even_bounds m l :
  m <= round_nearest_even m l <= m + 1.
Proof.
  destruct l as [|[]]; simpl; try lia. destruct (Z.even m); lia.
Qed.

Lemma div_pow_lt M d n k :
  0 <= M < 2 ^ d -> 0 <= n -> 0 <= k -> d <= n + k -> M / 2 ^ n < 2 ^ k.
Proof.
  intros [H0 HM] Hn Hk Hd.
  apply Z.div_lt_upper_bound; [apply Z.pow_pos_nonneg; lia|].
  rewrite <- Z.pow_add_r by lia.
  eapply Z.lt_le_trans; [exact HM|].
  apply Z.pow_le_mono_r; lia.
Qed.

(** Comparing a rounded product with a canonical positive float. *)
Lemma leb_finite_le m e mx ex :
  e < ex \/ (e = ex /\ (m <= mx)%positive) ->
  F64.leb (S754_finite false m e) (S754_finite false mx ex) = true.
Proof.
  unfold F64.leb, SFleb, SFcompare. intros [H|[-> H]].
  - apply Z.compare_lt_iff in H. now rewrite H.
  - rewrite Z.compare_refl.
    change (Pos.compare_cont Eq m mx) with (Pos.compare m mx).
    destruct (Pos.compare m mx) eqn:E; try reflexivity.
    exfalso. now apply H.
Qed.

(** Multiplying a positive finite float64 by [1e-4] and rounding never
    exceeds that float. *)
Lemma mul_tol_le mx ex :
  bounded F64.prec F64.emax mx ex = true ->
  F64.leb (F64.mul (S754_finite false mx ex) Granger.tol)
          (S754_finite false mx ex) = true.
Proof.
  intros Hb. apply andb_prop in Hb as [Hc He].
  apply Z.eqb_eq in Hc. apply Z.leb_le in He.
  unfold fexp, emin, F64.prec, F64.emax in Hc, He.
  unfold F64.mul, SFmul, Granger.tol.
  set (mt := 7378697629483821%positive).
  pose proof (digits2_bounds mx) as [Hx1 Hx2].
  pose proof (digits2_bounds (mx * mt)) as [HM1 HM2].
  rewrite Pos2Z.inj_mul in HM1, HM2.
  assert (Hmt : 2 ^ 52 <= Z.pos mt < 2 ^ 53) by (split; [discriminate|reflexivity]).
  set (dx := Z.pos (digits2_pos mx)) in *.
  assert (Hdx : 1 <= dx) by (unfold dx; lia).
  assert (Hd : dx + 52 <= Z.pos (digits2_pos (mx * mt)) <= dx + 53).
  { set (d := Z.pos (digits2_pos (mx * mt))) in *.
    assert (U : 2 ^ (d - 1) < 2 ^ (dx + 53)).
    { rewrite Z.pow_add_r by lia.
      eapply Z.le_lt_trans; [exact HM1|].
      apply Z.mul_lt_mono_nonneg; lia. }
    assert (L : 2 ^ (dx - 1 + 52) < 2 ^ d).
    { rewrite Z.pow_add_r by lia.
      eapply Z.le_lt_trans; [|exact HM2].
      apply Z.mul_le_mono_nonneg; lia. }
    apply Z.pow_lt_mono_r_iff in U; [|lia|lia].
    apply Z.pow_lt_mono_r_iff in L; [|lia|unfold d; lia]. lia. }
  unfold binary_round_aux, shr_fexp, fexp, emin, F64.prec, F64.emax.
  cbn [Zdigits2 shr_record_of_loc xorb].
  set (M := (mx * mt)%positive) in *.
  set (d := Z.pos (digits2_pos M)) in *.
  set (E := ex + -66).
  set (n1 := Z.max (d + E - 53) (3 - 1024 - 53) - E).
  assert (Hn1 : 0 < n1) by (unfold n1, E; lia).
  destruct n1 as [|p|p] eqn:En1; try lia. cbn [shr].
  set (r1 := SpecFloat.iter_pos shr_1 p {| shr_m := Z.pos M; shr_r := false; shr_s := false |}).
  assert (Hm1 : shr_m r1 = Z.pos M / 2 ^ Z.pos p)
    by (unfold r1; rewrite iter_shr_m; simpl; [reflexivity|lia]).
  pose proof (round_nearest_even_bounds (shr_m r1) (loc_of_shr_record r1)) as Hr.
  set (m1r := round_nearest_even (shr_m r1) (loc_of_shr_record r1)) in *.
  set (e1 := E + Z.pos p).
  assert (He1 : e1 = Z.max (d + E - 53) (3 - 1024 - 53)) by (unfold e1; lia).
  assert (Hm1pos : 0 <= shr_m r1)
    by (rewrite Hm1; apply Z.div_pos; [lia|apply Z.pow_pos_nonneg; lia]).
  (* bound on the rounded mantissa *)
  assert (HMd : 0 <= Z.pos M < 2 ^ d)
    by (split; [lia|unfold M; rewrite Pos2Z.inj_mul; exact HM2]).
  assert (Hm1r : (d + E - 53 >= -1074 /\ m1r < 2 ^ 54 /\ e1 <= ex - 13)
                 \/ (e1 = -1074 /\ m1r < 2 ^ 53 /\
                     (ex = -1074 -> m1r <= Z.pos mx))).
  { destruct (Z_le_gt_dec (-1074) (d + E - 53)) as [Hn|Hs].
    - left. split; [lia|]. split.
      + assert (shr_m r1 < 2 ^ 53)
          by (rewrite Hm1; apply (div_pow_lt _ d); lia).
        assert (2 ^ 53 < 2 ^ 54) by reflexivity. lia.
      + unfold E in *. lia.
    - right. split; [lia|]. split.
      + assert (shr_m r1 < 2 ^ 52)
          by (rewrite Hm1; apply (div_pow_lt _ d); lia).
        assert (2 ^ 52 < 2 ^ 53) by reflexivity. lia.
      + intros Hex. assert (Z.pos p = 66) by (unfold E in *; lia).
        assert (shr_m r1 < Z.pos mx).
        { rewrite Hm1. apply Z.div_lt_upper_bound; [apply Z.pow_pos_nonneg; lia|].
          unfold M. rewrite Pos2Z.inj_mul. rewrite Z.mul_comm.
          apply Z.mul_lt_mono_pos_r; [lia|].
          replace (Z.pos p) with 66 by lia.
          assert (2 ^ 53 < 2 ^ 66) by reflexivity. lia. }
        lia. }
  set (n2 := Z.max (Zdigits2 m1r + e1 - 53) (3 - 1024 - 53) - e1).
  assert (Hfin : (n2 <= 1 /\ e1 <= ex - 13)
                 \/ (n2 <= 0 /\ e1 = -1074 /\ (ex = -1074 -> m1r <= Z.pos mx))).
  { destruct Hm1r as [(Hn & Hlt & Hle)|(Hs & Hlt & Hle)]; [left|right].
    - assert (Zdigits2 m1r <= 54) by (apply Zdigits2_le; lia).
      unfold n2; lia.
    - assert (Zdigits2 m1r <= 53) by (apply Zdigits2_le; lia).
      unfold n2; lia. }
  assert (Hex : -1074 <= ex <= 971) by lia.
  destruct n2 as [|q|q] eqn:En2; cbn [shr shr_m].
  - destruct m1r as [|m|m] eqn:Em; try reflexivity; try lia.
    replace (e1 <=? 1024 - 53) with true by (symmetry; apply Z.leb_le; lia).
    apply leb_finite_le. destruct Hfin as [(_ & H)|(_ & H1 & H2)]; [lia|].
    destruct (Z.eq_dec ex (-1074)) as [Hex'|Hex']; [right|left; lia].
    split; [lia|]. specialize (H2 Hex'). lia.
  - rewrite iter_shr_m by (simpl; lia). cbn [shr_m].
    assert (Hm2 : 0 <= m1r / 2 ^ Z.pos q)
      by (apply Z.div_pos; [lia|apply Z.pow_pos_nonneg; lia]).
    destruct (m1r / 2 ^ Z.pos q) as [|m|m] eqn:Em; try reflexivity; try lia.
    destruct Hfin as [(Hq & H)|(Hq & _)]; [|lia].
    replace (e1 + Z.pos q <=? 1024 - 53) with true by (symmetry; apply Z.leb_le; lia).
    apply leb_finite_le. left; lia.
  - destruct m1r as [|m|m] eqn:Em; try reflexivity; try lia.
    replace (e1 <=? 1024 - 53) with true by (symmetry; apply Z.leb_le; lia).
    apply leb_finite_le. destruct Hfin as [(_ & H)|(_ & H1 & H2)]; [lia|].
    destruct (Z.eq_dec ex (-1074)) as [Hex'|Hex']; [right|left; lia].
    split; [lia|]. specialize (H2 Hex'). lia.
Qed.

(** ** Elementwise operations on equal shapes *)

Lemma map2_length {A B C : Type} (f : A -> B -> C) xs ys :
  length xs = length ys -> length (Np.map2 f xs ys) = length xs.
Proof.
  revert ys; induction xs as [|x xs IH]; intros [|y ys] H; simpl in *;
    try discriminate; auto.
Qed.

Lemma map2_swap_rel {A B : Type} (f : A -> A -> B) (R : B -> B -> Prop) :
  (forall x y, R (f y x) (f x y)) ->
  forall xs ys, Forall2 R (Np.map2 f ys xs) (Np.map2 f xs ys).
Proof.
  intros Hf xs; induction xs as [|x xs IH]; intros [|y ys]; simpl;
    constructor; auto.
Qed.

Lemma map2_rel {A B C : Type} (f : A -> B -> C)
  (RA : A -> A -> Prop) (RB : B -> B -> Prop) (RC : C -> C -> Prop) :
  (forall a a' b b', RA a' a -> RB b' b -> RC (f a' b') (f a b)) ->
  forall xs xs', Forall2 RA xs' xs ->
  forall ys ys', Forall2 RB ys' ys ->
  Forall2 RC (Np.map2 f xs' ys') (Np.map2 f xs ys).
Proof.
  intros Hf xs xs' Hx; induction Hx as [|a' a xs' xs Ha Hx IH];
    intros ys ys' Hy; simpl; [constructor|].
  destruct Hy as [|b' b ys' ys Hb Hy]; constructor; auto.
Qed.

Lemma ew2_shape {F : Type} (op : F -> F -> F) rows cols a b :
  Np.shape2 rows cols a -> Np.shape2 rows cols b ->
  Np.shape2 rows cols (Np.ew2 op a b).
Proof.
  intros [La Ha] [Lb Hb]; split.
  - unfold Np.ew2. rewrite map2_length; congruence.
  - clear La Lb. revert b Hb.
    induction Ha as [|r a Hr Ha IH]; intros b Hb; [constructor|].
    destruct Hb as [|r' b Hr' Hb]; simpl; constructor.
    + rewrite map2_length; congruence.
    + now apply IH.
Qed.

Lemma ew2_sub_swap a b :
  Granger.negated (Np.ew2 F64.sub b a) (Np.ew2 F64.sub a b).
Proof.
  apply map2_swap_rel; intros x y.
  apply map2_swap_rel; intros u v. apply sub_swap.
Qed.

Lemma ew2_sub_negated a a' b b' :
  Granger.negated a' a -> Granger.negated b' b ->
  Granger.negated (Np.ew2 F64.sub a' b') (Np.ew2 F64.sub a b).
Proof.
  intros Ha Hb. unfold Granger.negated, Np.ew2.
  eapply map2_rel; [|exact Ha|exact Hb].
  intros r r' q q' Hr Hq.
  eapply map2_rel; [|exact Hr|exact Hq].
  intros u u' v v' Hu Hv. cbv beta in Hu, Hv |- *.
  eapply same_trans; [apply sub_same; eassumption|apply sub_neg_neg].
Qed.

(** ** Entries of arrays *)

Lemma nth_error_map2 {A B C : Type} (f : A -> B -> C) xs ys i :
  nth_error (Np.map2 f xs ys) i =
  match nth_error xs i, nth_error ys i with
  | Some x, Some y => Some (f x y)
  | _, _ => None
  end.
Proof.
  revert ys i; induction xs as [|x xs IH]; intros [|y ys] [|i]; simpl;
    try reflexivity.
  - now destruct (nth_error xs i).
  - apply IH.
Qed.

Lemma item2_ew2 {F : Type} (op : F -> F -> F) a b i j x y :
  Np.item2 a i j = Some x -> Np.item2 b i j = Some y ->
  Np.item2 (Np.ew2 op a b) i j = Some (op x y).
Proof.
  unfold Np.item2, Np.ew2. rewrite nth_error_map2.
  destruct (nth_error a i) as [ra|]; [|discriminate].
  destruct (nth_error b i) as [rb|]; [|discriminate].
  rewrite nth_error_map2. intros -> ->. reflexivity.
Qed.

Lemma shape2_item {F : Type} rows cols (a : Np.array2 F) i j :
  Np.shape2 rows cols a -> (i < rows)%nat -> (j < cols)%nat ->
  exists v, Np.item2 a i j = Some v.
Proof.
  intros [La Ha] Hi Hj. unfold Np.item2.
  destruct (nth_error a i) as [r|] eqn:Er.
  - assert (Hr : length r = cols).
    { rewrite Forall_forall in Ha. apply Ha. eapply nth_error_In; eauto. }
    destruct (nth_error r j) as [v|] eqn:Ev; [eauto|].
    apply nth_error_None in Ev. lia.
  - apply nth_error_None in Er. lia.
Qed.

(** ** Granger-causality notebook *)

Section GrangerProperties.
Variable epochs_t : Type.
Variable spectral_connectivity_epochs :
  epochs_t -> Granger.sce_args -> Py.outcome Granger.connectivity.
Variable epochs : epochs_t.
Variable n_freqs : nat.

Local Abbreviation trgc_cells :=
  (Granger.trgc_cells epochs_t spectral_connectivity_epochs epochs).
Local Abbreviation library_call :=
  (fun m idx => spectral_connectivity_epochs epochs (Granger.gc_call m idx 20)).

(** C8.  When the cells computing net GC, time-reversed net GC and TRGC
    run to completion for groups (A, B), the four library calls have
    returned and, at every frequency, [net_gc] is the float64 difference
    of the scores of [gc_ab] and [gc_ba], [net_gc_tr] that of [gc_tr_ab]
    and [gc_tr_ba], and [trgc] that of [net_gc] and [net_gc_tr].  The cells
    then also complete for the exchanged groups (B, A), where each of the
    three is computed with the operands exchanged and is the negation of
    the original at every frequency (a zero may come with either sign).
    The library is assumed to return, for each of the four calls, one
    spectrum over [n_freqs] frequencies. *)
Theorem trgc_swap_negates (signals_a signals_b : list nat) (r : Granger.scores) :
  (forall m idx c,
      In idx [Granger.indices_ab signals_a signals_b;
              Granger.indices_ba signals_a signals_b] ->
      library_call m idx = Py.Returned c ->
      Np.shape2 1 n_freqs (Granger.get_data c)) ->
  trgc_cells signals_a signals_b = Py.Returned r ->
  exists gc_ab gc_ba gc_tr_ab gc_tr_ba r',
    library_call "gc"%string (Granger.indices_ab signals_a signals_b)
      = Py.Returned gc_ab /\
    library_call "gc"%string (Granger.indices_ba signals_a signals_b)
      = Py.Returned gc_ba /\
    library_call "gc_tr"%string (Granger.indices_ab signals_a signals_b)
      = Py.Returned gc_tr_ab /\
    library_call "gc_tr"%string (Granger.indices_ba signals_a signals_b)
      = Py.Returned gc_tr_ba /\
    trgc_cells signals_b signals_a = Py.Returned r' /\
    (forall f, (f < n_freqs)%nat ->
       exists ab ba tr_ab tr_ba,
         Np.item2 (Granger.get_data gc_ab) 0 f = Some ab /\
         Np.item2 (Granger.get_data gc_ba) 0 f = Some ba /\
         Np.item2 (Granger.get_data gc_tr_ab) 0 f = Some tr_ab /\
         Np.item2 (Granger.get_data gc_tr_ba) 0 f = Some tr_ba /\
         Np.item2 (Granger.net_gc r) 0 f = Some (F64.sub ab ba) /\
         Np.item2 (Granger.net_gc_tr r) 0 f = Some (F64.sub tr_ab tr_ba) /\
         Np.item2 (Granger.trgc r) 0 f
         = Some (F64.sub (F64.sub ab ba) (F64.sub tr_ab tr_ba)) /\
         Np.item2 (Granger.net_gc r') 0 f = Some (F64.sub ba ab) /\
         Np.item2 (Granger.net_gc_tr r') 0 f = Some (F64.sub tr_ba tr_ab) /\
         Np.item2 (Granger.trgc r') 0 f
         = Some (F64.sub (F64.sub ba ab) (F64.sub tr_ba tr_ab)) /\
         F64.same (F64.sub ba ab) (F64.neg (F64.sub ab ba)) /\
         F64.same (F64.sub tr_ba tr_ab) (F64.neg (F64.sub tr_ab tr_ba)) /\
         F64.same (F64.sub (F64.sub ba ab) (F64.sub tr_ba tr_ab))
                  (F64.neg (F64.sub (F64.sub ab ba) (F64.sub tr_ab tr_ba)))) /\
    Granger.negated (Granger.net_gc r') (Granger.net_gc r) /\
    Granger.negated (Granger.net_gc_tr r') (Granger.net_gc_tr r) /\
    Granger.negated (Granger.trgc r') (Granger.trgc r) /\
    Np.shape2 1 n_freqs (Granger.net_gc r) /\
    Np.shape2 1 n_freqs (Granger.net_gc_tr r) /\
    Np.shape2 1 n_freqs (Granger.trgc r) /\
    Np.shape2 1 n_freqs (Granger.net_gc r') /\
    Np.shape2 1 n_freqs (Granger.net_gc_tr r') /\
    Np.shape2 1 n_freqs (Granger.trgc r').
Proof.
  intros Hshape Hrun.
  unfold Granger.trgc_cells in *.
  change (Granger.indices_ab signals_b signals_a)
    with (Granger.indices_ba signals_a signals_b).
  change (Granger.indices_ba signals_b signals_a)
    with (Granger.indices_ab signals_a signals_b).
  destruct (spectral_connectivity_epochs epochs
              (Granger.gc_call "gc" (Granger.indices_ab signals_a signals_b) 20))
    as [gc_ab|] eqn:Eab; [|discriminate].
  destruct (spectral_connectivity_epochs epochs
              (Granger.gc_call "gc" (Granger.indices_ba signals_a signals_b) 20))
    as [gc_ba|] eqn:Eba; [|discriminate].
  destruct (spectral_connectivity_epochs epochs
              (Granger.gc_call "gc_tr" (Granger.indices_ab signals_a signals_b) 20))
    as [gc_tr_ab|] eqn:Etab; [|discriminate].
  destruct (spectral_connectivity_epochs epochs
              (Granger.gc_call "gc_tr" (Granger.indices_ba signals_a signals_b) 20))
    as [gc_tr_ba|] eqn:Etba; [|discriminate].
  simpl in Hrun. injection Hrun as <-. cbn [Py.bind].
  exists gc_ab, gc_ba, gc_tr_ab, gc_tr_ba.
  eexists. do 4 (split; [reflexivity|]). split; [reflexivity|].
  cbn [Granger.net_gc Granger.net_gc_tr Granger.trgc].
  apply Hshape in Eab; [|now left]. apply Hshape in Eba; [|right; now left].
  apply Hshape in Etab; [|now left]. apply Hshape in Etba; [|right; now left].
  pose proof (ew2_sub_swap (Granger.get_data gc_ab) (Granger.get_data gc_ba)) as Hn.
  pose proof (ew2_sub_swap (Granger.get_data gc_tr_ab) (Granger.get_data gc_tr_ba)) as Ht.
  assert (Sn : Np.shape2 1 n_freqs
                 (Np.ew2 F64.sub (Granger.get_data gc_ab) (Granger.get_data gc_ba)))
    by (apply ew2_shape; assumption).
  assert (St : Np.shape2 1 n_freqs
                 (Np.ew2 F64.sub (Granger.get_data gc_tr_ab) (Granger.get_data gc_tr_ba)))
    by (apply ew2_shape; assumption).
  assert (Sn' : Np.shape2 1 n_freqs
                 (Np.ew2 F64.sub (Granger.get_data gc_ba) (Granger.get_data gc_ab)))
    by (apply ew2_shape; assumption).
  assert (St' : Np.shape2 1 n_freqs
                 (Np.ew2 F64.sub (Granger.get_data gc_tr_ba) (Granger.get_data gc_tr_ab)))
    by (apply ew2_shape; assumption).
  split.
  - intros f Hf.
    destruct (shape2_item _ _ _ 0 f Eab Nat.lt_0_1 Hf) as [ab Hab].
    destruct (shape2_item _ _ _ 0 f Eba Nat.lt_0_1 Hf) as [ba Hba].
    destruct (shape2_item _ _ _ 0 f Etab Nat.lt_0_1 Hf) as [tab Htab].
    destruct (shape2_item _ _ _ 0 f Etba Nat.lt_0_1 Hf) as [tba Htba].
    exists ab, ba, tab, tba.
    pose proof (item2_ew2 F64.sub _ _ 0 f _ _ Hab Hba) as Nab.
    pose proof (item2_ew2 F64.sub _ _ 0 f _ _ Htab Htba) as Tab.
    pose proof (item2_ew2 F64.sub _ _ 0 f _ _ Hba Hab) as Nba.
    pose proof (item2_ew2 F64.sub _ _ 0 f _ _ Htba Htab) as Tba.
    do 4 (split; [assumption|]).
    split; [exact Nab|]. split; [exact Tab|].
    split; [exact (item2_ew2 F64.sub _ _ 0 f _ _ Nab Tab)|].
    split; [exact Nba|]. split; [exact Tba|].
    split; [exact (item2_ew2 F64.sub _ _ 0 f _ _ Nba Tba)|].
    split; [apply sub_swap|]. split; [apply sub_swap|].
    eapply same_trans; [apply sub_same; apply sub_swap|apply sub_neg_neg].
  - split; [exact Hn|]. split; [exact Ht|].
    split; [apply ew2_sub_negated; assumption|].
    split; [exact Sn|]. split; [exact St|].
    split; [apply ew2_shape; assumption|].
    split; [exact Sn'|]. split; [exact St'|].
    apply ew2_shape; assumption.
Qed.

End GrangerProperties.

(** ** The cell that leaves the rank to the library *)

Lemma success_is_not_the_caught_line (s : string) :
  "Success!"%string
  <> (Py.nl ++ "Caught the following error:" ++ Py.nl ++ s)%string.
Proof.
  intros H. apply (f_equal (fun s => String.get 0 s)) in H.
  simpl in H. discriminate.
Qed.

(** C1.  On a recording that is rank deficient for the connection from
    group A to group B with 20 lags, the library call with [rank=None]
    raises a [RuntimeError] out of its rank-deficiency check; the cell
    catches it, prints the caught error and nothing else, ends without an
    exception and does not print [Success!].  Whatever the library call
    does, the cell catches the instances of [RuntimeError] and no other
    exception: any other exception leaves the cell, with nothing printed,
    and a call that returns prints [Success!] alone.  [repr] stands for
    Python's [repr] of the exception object. *)
Theorem rank_none_cell_catches (r : Library.recording)
  (repr : Py.exception -> string) (signals_a signals_b : list nat) :
  Library.rank_deficient r signals_a signals_b 20 ->
  (exists error,
     Library.spectral_connectivity_epochs r
       (Granger.rank_none_call (Granger.indices_ab signals_a signals_b))
     = Py.Raised error /\
     Py.exc_type error = Py.RuntimeError /\
     let cell := Granger.rank_none_cell Library.recording
                   Library.spectral_connectivity_epochs r repr
                   signals_a signals_b in
     Py.ended cell = Py.Returned tt /\
     Py.stdout cell
     = [(Py.nl ++ "Caught the following error:" ++ Py.nl ++ repr error)%string] /\
     ~ In "Success!"%string (Py.stdout cell)) /\
  (forall (epochs_t : Type)
          (library : epochs_t -> Granger.sce_args -> Py.outcome Granger.connectivity)
          (epochs : epochs_t),
     let cell := Granger.rank_none_cell epochs_t library epochs repr
                   signals_a signals_b in
     match library epochs
             (Granger.rank_none_call (Granger.indices_ab signals_a signals_b)) with
     | Py.Returned _ =>
         Py.ended cell = Py.Returned tt /\
         Py.stdout cell = ["Success!"%string]
     | Py.Raised error =>
         if Py.isinstance error Py.RuntimeError
         then Py.ended cell = Py.Returned tt /\
              Py.stdout cell
              = [(Py.nl ++ "Caught the following error:" ++ Py.nl
                  ++ repr error)%string] /\
              ~ In "Success!"%string (Py.stdout cell)
         else Py.ended cell = Py.Raised error /\ Py.stdout cell = []
     end).
Proof.
  intros Hdef. split.
  - exists Library.singular_error.
    assert (E : Library.spectral_connectivity_epochs r
                  (Granger.rank_none_call (Granger.indices_ab signals_a signals_b))
                = Py.Raised Library.singular_error).
    { unfold Library.spectral_connectivity_epochs. simpl.
      unfold Library.rank_deficient in Hdef. rewrite Hdef. reflexivity. }
    split; [exact E|]. split; [reflexivity|].
    unfold Granger.rank_none_cell, Py.try_except, Py.cell_bind, Py.lift.
    rewrite E. simpl. repeat split.
    intros [H|[]]. symmetry in H. now apply success_is_not_the_caught_line in H.
  - intros epochs_t library epochs.
    unfold Granger.rank_none_cell, Py.try_except, Py.cell_bind, Py.lift.
    destruct (library epochs _) as [c|error]; simpl; [auto|].
    destruct (Py.isinstance error Py.RuntimeError); simpl; [|auto].
    repeat split.
    intros [H|[]]. symmetry in H. now apply success_is_not_the_caught_line in H.
Qed.

(** ** The conservative rank estimate *)

Lemma leb_not_ltb x y : F64.leb x y = true -> F64.ltb y x = false.
Proof.
  unfold F64.leb, F64.ltb, SFleb, SFltb.
  destruct x as [sx|sx| |sx mx ex], y as [sy|sy| |sy my ey];
    try (destruct sx); try (destruct sy); try reflexivity; try discriminate;
    unfold SFcompare;
    rewrite (Z.compare_antisym ex ey);
    change (Pos.compare_cont Eq mx my) with (Pos.compare mx my);
    change (Pos.compare_cont Eq my mx) with (Pos.compare my mx);
    rewrite (Pos.compare_antisym mx my);
    destruct (ex ?= ey); simpl; try reflexivity; try discriminate;
    destruct (Pos.compare mx my); simpl; try reflexivity; discriminate.
Qed.

Lemma largest_descending s0 rest :
  Granger.descending (s0 :: rest) -> Granger.largest (s0 :: rest) = Some s0.
Proof.
  intros H. apply StronglySorted_inv in H as [_ H]. simpl. f_equal.
  induction H as [|x rest Hx H IH]; simpl; [reflexivity|].
  unfold Granger.maximum at 2. unfold F64.geb in Hx.
  now rewrite (leb_not_ltb _ _ Hx).
Qed.

Lemma count_nonzero_le bs : (Np.count_nonzero bs <= length bs)%nat.
Proof. unfold Np.count_nonzero. apply filter_length_le. Qed.

(** A positive float64 is at least its product with [1e-4]. *)
Lemma positive_ge_scaled s0 :
  F64.valid s0 = true -> F64.ltb F64.zero s0 = true ->
  F64.geb s0 (F64.mul s0 Granger.tol) = true.
Proof.
  intros Hv Hp. destruct s0 as [s|s| |s m e]; try discriminate.
  - destruct s; [discriminate|reflexivity].
  - destruct s; [discriminate|]. now apply mul_tol_le.
Qed.

(** C9.  For singular values in descending order whose first entry is a
    positive float64, the notebook's [rank] is the number of singular
    values within a factor [1e-4] of the largest, and lies between 1 and
    the number of channels (the SVD of an [n_channels x n_times] array
    has [min n_channels n_times] singular values). *)
Theorem conservative_rank_bounds (s0 : F64.t) (rest : list F64.t)
  (n_channels n_times : nat) :
  length (s0 :: rest) = Nat.min n_channels n_times ->
  Granger.descending (s0 :: rest) ->
  F64.valid s0 = true ->
  F64.ltb F64.zero s0 = true ->
  exists r : nat,
    Granger.conservative_rank (s0 :: rest) = Py.Returned r /\
    Granger.rank_within_factor (s0 :: rest) = Some r /\
    (1 <= r <= n_channels)%nat.
Proof.
  intros Hlen Hsort Hv Hp.
  eexists; split; [reflexivity|]. split.
  - unfold Granger.rank_within_factor.
    now rewrite (largest_descending _ _ Hsort).
  - split.
    + cbn [map]. rewrite (positive_ge_scaled s0 Hv Hp).
      unfold Np.count_nonzero. simpl. lia.
    + etransitivity; [apply count_nonzero_le|].
      rewrite length_map, Hlen. apply Nat.le_min_l.
Qed.

(** The cells run on the demonstration recording for groups [0 .. 5] and
    [6 .. 11]: the scores are not zero and change sign with the groups. *)
Lemma trgc_swap_negates_witness :
  exists r gc_ab gc_ba gc_tr_ab gc_tr_ba r',
    Granger.trgc_cells Library.recording Library.spectral_connectivity_epochs
      Demo.recording [0; 1; 2; 3; 4; 5]%nat [6; 7; 8; 9; 10; 11]%nat
    = Py.Returned r /\
    Granger.trgc r = [[F64.of_Z 18; F64.of_Z 108]] /\
    Library.spectral_connectivity_epochs Demo.recording
      (Granger.gc_call "gc"
         (Granger.indices_ab [0; 1; 2; 3; 4; 5]%nat [6; 7; 8; 9; 10; 11]%nat) 20)
    = Py.Returned gc_ab /\
    Library.spectral_connectivity_epochs Demo.recording
      (Granger.gc_call "gc"
         (Granger.indices_ba [0; 1; 2; 3; 4; 5]%nat [6; 7; 8; 9; 10; 11]%nat) 20)
    = Py.Returned gc_ba /\
    Library.spectral_connectivity_epochs Demo.recording
      (Granger.gc_call "gc_tr"
         (Granger.indices_ab [0; 1; 2; 3; 4; 5]%nat [6; 7; 8; 9; 10; 11]%nat) 20)
    = Py.Returned gc_tr_ab /\
    Library.spectral_connectivity_epochs Demo.recording
      (Granger.gc_call "gc_tr"
         (Granger.indices_ba [0; 1; 2; 3; 4; 5]%nat [6; 7; 8; 9; 10; 11]%nat) 20)
    = Py.Returned gc_tr_ba /\
    Granger.trgc_cells Library.recording Library.spectral_connectivity_epochs
      Demo.recording [6; 7; 8; 9; 10; 11]%nat [0; 1; 2; 3; 4; 5]%nat
    = Py.Returned r' /\
    Granger.trgc r' = [[F64.of_Z (-18); F64.of_Z (-108)]] /\
    Granger.negated (Granger.trgc r') (Granger.trgc r).
Proof.
  assert (Hshape : forall m idx c,
             In idx [Granger.indices_ab [0; 1; 2; 3; 4; 5]%nat [6; 7; 8; 9; 10; 11]%nat;
                     Granger.indices_ba [0; 1; 2; 3; 4; 5]%nat [6; 7; 8; 9; 10; 11]%nat] ->
             Library.spectral_connectivity_epochs Demo.recording
               (Granger.gc_call m idx 20) = Py.Returned c ->
             Np.shape2 1 2 (Granger.get_data c)).
  { intros m idx c Hin H.
    assert (E : exists x y, Granger.get_data c = [[x; y]]).
    { destruct Hin as [<-|[<-|[]]];
        unfold Library.spectral_connectivity_epochs in H;
        cbn [Granger.gc_call Granger.indices Granger.indices_ab Granger.indices_ba
             Granger.rank Granger.method Granger.gc_n_lags fst snd combine
             Library.connections Library.singular Library.estimate
             Demo.recording Py.bind Nat.ltb Nat.leb orb] in H;
        injection H as <-; cbn [Granger.get_data]; eauto. }
    destruct E as (x & y & ->). split; [reflexivity|repeat constructor]. }
  destruct (Granger.trgc_cells Library.recording
              Library.spectral_connectivity_epochs Demo.recording
              [0; 1; 2; 3; 4; 5]%nat [6; 7; 8; 9; 10; 11]%nat) as [r|e] eqn:E;
    [|vm_compute in E; discriminate E].
  destruct (trgc_swap_negates Library.recording
              Library.spectral_connectivity_epochs Demo.recording 2
              [0; 1; 2; 3; 4; 5]%nat [6; 7; 8; 9; 10; 11]%nat r Hshape E)
    as (gc_ab & gc_ba & gc_tr_ab & gc_tr_ba & r' & H1 & H2 & H3 & H4 & H5 & _
        & _ & _ & H6 & _).
  exists r, gc_ab, gc_ba, gc_tr_ab, gc_tr_ba, r'.
  split; [reflexivity|].
  split; [vm_compute in E; injection E as <-; vm_compute; reflexivity|].
  do 5 (split; [assumption|]).
  split; [vm_compute in H5; injection H5 as <-; vm_compute; reflexivity|].
  exact H6.
Defined.

Lemma rank_none_cell_catches_witness :
  exists error,
    Library.spectral_connectivity_epochs Demo.recording
      (Granger.rank_none_call
         (Granger.indices_ab [0; 1; 2; 3; 4; 5]%nat [6; 7; 8; 9; 10; 11]%nat))
    = Py.Raised error /\
    Py.exc_type error = Py.RuntimeError /\
    let cell := Granger.rank_none_cell Library.recording
                  Library.spectral_connectivity_epochs Demo.recording Demo.repr
                  [0; 1; 2; 3; 4; 5]%nat [6; 7; 8; 9; 10; 11]%nat in
    Py.ended cell = Py.Returned tt /\
    Py.stdout cell
    = [(Py.nl ++ "Caught the following error:" ++ Py.nl ++ Demo.repr error)%string] /\
    ~ In "Success!"%string (Py.stdout cell).
Proof.
  exact (proj1 (rank_none_cell_catches Demo.recording Demo.repr
                  [0; 1; 2; 3; 4; 5]%nat [6; 7; 8; 9; 10; 11]%nat eq_refl)).
Defined.

Lemma conservative_rank_bounds_witness :
  exists r : nat,
    Granger.conservative_rank [Demo.three; Demo.one; Demo.tiny] = Py.Returned r /\
    Granger.rank_within_factor [Demo.three; Demo.one; Demo.tiny] = Some r /\
    (1 <= r <= 3)%nat.
Proof.
  apply (conservative_rank_bounds Demo.three [Demo.one; Demo.tiny] 3 5).
  - reflexivity.
  - repeat constructor.
  - reflexivity.
  - reflexivity.
Defined.

(** ** VAR-model notebook: data, prediction and residuals *)

Lemma item3_ew3 {F : Type} (op : F -> F -> F) a b i j k x y :
  Np.item3 a i j k = Some x -> Np.item3 b i j k = Some y ->
  Np.item3 (Np.ew3 op a b) i j k = Some (op x y).
Proof.
  unfold Np.item3, Np.ew3. rewrite nth_error_map2.
  destruct (nth_error a i) as [ma|]; [|discriminate].
  destruct (nth_error b i) as [mb|]; [|discriminate].
  rewrite nth_error_map2.
  destruct (nth_error ma j) as [ra|]; [|discriminate].
  destruct (nth_error mb j) as [rb|]; [|discriminate].
  rewrite nth_error_map2. intros -> ->. reflexivity.
Qed.

Lemma ew3_shape {F : Type} (op : F -> F -> F) n rows cols a b :
  Np.shape3 n rows cols a -> Np.shape3 n rows cols b ->
  Np.shape3 n rows cols (Np.ew3 op a b).
Proof.
  intros [La Ha] [Lb Hb]; split.
  - unfold Np.ew3. rewrite map2_length; congruence.
  - clear La Lb. revert b Hb.
    induction Ha as [|m a Hm Ha IH]; intros b Hb; [constructor|].
    destruct Hb as [|m' b Hm' Hb]; simpl; constructor.
    + now apply ew2_shape.
    + now apply IH.
Qed.

(** Adding back what was subtracted, position by position, where the
    arithmetic cancels exactly. *)
Lemma map2_cancel {X : Type} (P : X -> X -> Prop) (f g : X -> X -> X) :
  (forall x y, P x y -> g y (f x y) = x) ->
  forall xs ys, Forall2 P xs ys -> Np.map2 g ys (Np.map2 f xs ys) = xs.
Proof.
  intros H xs ys HP; induction HP as [|x y xs ys Hxy HP IH]; simpl;
    [reflexivity|]. now rewrite H, IH.
Qed.

Lemma same_length_Forall2 {X : Type} (xs ys : list X) :
  length xs = length ys -> Forall2 (fun _ _ => True) xs ys.
Proof.
  revert ys; induction xs as [|x xs IH]; intros [|y ys] H; simpl in H;
    try discriminate; constructor; auto.
Qed.

Lemma shape2_Forall2 {X : Type} rows cols (a b : Np.array2 X) :
  Np.shape2 rows cols a -> Np.shape2 rows cols b ->
  Forall2 (Forall2 (fun _ _ => True)) a b.
Proof.
  intros [La Ha] [Lb Hb]. assert (L : length a = length b) by congruence.
  clear La Lb. revert b Hb L.
  induction Ha as [|r a Hr Ha IH]; intros [|r' b] Hb L; simpl in L;
    try discriminate; constructor.
  - apply same_length_Forall2. inversion Hb; congruence.
  - apply IH; [now inversion Hb|congruence].
Qed.

Lemma shape3_Forall2 {X : Type} n rows cols (a b : Np.array3 X) :
  Np.shape3 n rows cols a -> Np.shape3 n rows cols b ->
  Forall2 (Forall2 (Forall2 (fun _ _ => True))) a b.
Proof.
  intros [La Ha] [Lb Hb]. assert (L : length a = length b) by congruence.
  clear La Lb. revert b Hb L.
  induction Ha as [|m a Hm Ha IH]; intros [|m' b] Hb L; simpl in L;
    try discriminate; constructor.
  - inversion Hb; subst. eapply shape2_Forall2; eassumption.
  - apply IH; [now inversion Hb|congruence].
Qed.

(** C3, as the code has it.  On float64 arrays of one shape the residuals
    are, entry by entry, the rounded difference of data and prediction, in
    the shape of the data; over the real numbers, prediction plus residuals
    gives the data back exactly. *)
Theorem residuals_decomposition :
  (forall (predict : Np.array3 F64.t -> Np.array3 F64.t) data n rows cols,
      Np.shape3 n rows cols data ->
      Np.shape3 n rows cols (predict data) ->
      Np.shape3 n rows cols (VAR.residuals F64.t F64.sub predict data) /\
      forall i j k d p,
        Np.item3 data i j k = Some d ->
        Np.item3 (predict data) i j k = Some p ->
        Np.item3 (VAR.residuals F64.t F64.sub predict data) i j k
        = Some (F64.sub d p)) /\
  (forall (predict : Np.array3 R -> Np.array3 R) data n rows cols,
      Np.shape3 n rows cols data ->
      Np.shape3 n rows cols (predict data) ->
      VAR.prediction_plus_residuals R Rplus Rminus predict data = data).
Proof.
  split.
  - intros predict data n rows cols Hd Hp. split.
    + now apply ew3_shape.
    + intros i j k d p Hi Hj. now apply item3_ew3.
  - intros predict data n rows cols Hd Hp.
    unfold VAR.prediction_plus_residuals, VAR.residuals, VAR.predicted_data,
      Np.ew3.
    apply map2_cancel with (P := Forall2 (Forall2 (fun _ _ => True)));
      [|eapply shape3_Forall2; eassumption].
    intros m m' Hm.
    apply map2_cancel with (P := Forall2 (fun _ _ => True)); [|exact Hm].
    intros r r' Hr.
    apply map2_cancel with (P := fun _ _ => True); [|exact Hr].
    intros x y _. apply Rplus_minus.
Qed.

Lemma residuals_decomposition_witness :
  VAR.prediction_plus_residuals R Rplus Rminus
    (fun _ => [[[IZR 2; IZR 3]]]) [[[IZR 1; IZR 5]]]
  = [[[IZR 1; IZR 5]]].
Proof.
  apply (proj2 residuals_decomposition (fun _ => [[[IZR 2; IZR 3]]])
           [[[IZR 1; IZR 5]]] 1%nat 1%nat 2%nat).
  - split; [reflexivity|]. repeat constructor.
  - split; [reflexivity|]. repeat constructor.
Defined.

(** C3, as stated, fails on float64: with data 0.1 and prediction 1.0 the
    residual is the rounded -0.9, and 1.0 plus that residual is
    0.09999999999999998, which is not the data. *)
Lemma residuals_sum_not_exact :
  let data := [[[Demo.tenth]]] in
  let predict := fun _ : Np.array3 F64.t => [[[Demo.one]]] in
  Np.shape3 1 1 1 data /\
  Np.shape3 1 1 1 (predict data) /\
  Np.item3 data 0 0 0 = Some Demo.tenth /\
  Np.item3 (VAR.prediction_plus_residuals F64.t F64.add F64.sub predict data)
           0 0 0
  = Some (S754_finite false 7205759403792792 (-56)) /\
  F64.eqb (S754_finite false 7205759403792792 (-56)) Demo.tenth = false.
Proof.
  repeat split; repeat constructor.
Qed.

(** ** Global connectivity over connections *)

Lemma channel_pairs_S n :
  Compare.channel_pairs (S n)
  = Compare.channel_pairs n ++ map (fun j => (n, j)) (seq 0 n).
Proof.
  unfold Compare.channel_pairs.
  rewrite seq_S, flat_map_app. simpl. now rewrite app_nil_r.
Qed.

Lemma channel_pairs_length n :
  Z.of_nat n * Z.of_nat n - Z.of_nat n
  = 2 * Z.of_nat (length (Compare.channel_pairs n)).
Proof.
  induction n as [|n IH]; [reflexivity|].
  rewrite channel_pairs_S, length_app, length_map, length_seq. lia.
Qed.

Lemma channel_pairs_In n i j :
  In (i, j) (Compare.channel_pairs n) <-> (j < i < n)%nat.
Proof.
  unfold Compare.channel_pairs. rewrite in_flat_map. split.
  - intros (x & Hx & Hin). apply in_seq in Hx.
    apply in_map_iff in Hin as (y & E & Hy). apply in_seq in Hy.
    injection E as <- <-. lia.
  - intros H. exists i. split; [apply in_seq; lia|].
    apply in_map_iff. exists j. split; [reflexivity|apply in_seq; lia].
Qed.

Lemma channel_pairs_NoDup n : NoDup (Compare.channel_pairs n).
Proof.
  induction n as [|n IH]; [constructor|].
  rewrite channel_pairs_S. apply NoDup_app.
  - exact IH.
  - apply NoDup_map_NoDup_ForallPairs; [|apply seq_NoDup].
    intros a b _ _ E. now injection E.
  - intros [i j] H1 H2. apply channel_pairs_In in H1.
    apply in_map_iff in H2 as (y & E & _). injection E as <- <-. lia.
Qed.

(** *** Halving an even integer is exact *)

Lemma digits2_iter_xO p s :
  Z.pos (digits2_pos (Pos.iter xO p s)) = Z.pos (digits2_pos p) + Z.pos s.
Proof.
  induction s as [|s IH] using Pos.peano_ind.
  - simpl. lia.
  - rewrite Pos.iter_succ. simpl digits2_pos. lia.
Qed.

Lemma round_canonical sx M E :
  Z.pos (digits2_pos M) = 53 -> -1074 <= E <= 971 ->
  binary_round_aux F64.prec F64.emax sx (Z.pos M) E loc_Exact
  = S754_finite sx M E.
Proof.
  intros HM HE. unfold binary_round_aux, shr_fexp.
  cbn [Zdigits2 shr_record_of_loc]. rewrite HM.
  replace (fexp F64.prec F64.emax (53 + E) - E) with 0
    by (unfold fexp, emin, F64.prec, F64.emax; lia).
  cbn [shr shr_m loc_of_shr_record shr_r shr_s round_nearest_even Zdigits2
       shr_record_of_loc].
  rewrite HM.
  replace (fexp F64.prec F64.emax (53 + E) - E) with 0
    by (unfold fexp, emin, F64.prec, F64.emax; lia).
  cbn [shr shr_m].
  replace (E <=? F64.emax - F64.prec) with true
    by (symmetry; apply Z.leb_le; unfold F64.prec, F64.emax; lia).
  reflexivity.
Qed.

Lemma of_Z_doubled p :
  Z.pos (digits2_pos p) <= 52 ->
  exists M, Z.pos (digits2_pos M) = 53 /\
    F64.of_Z (Z.pos p) = S754_finite false M (Z.pos (digits2_pos p) - 53) /\
    F64.of_Z (Z.pos p~0) = S754_finite false M (Z.pos (digits2_pos p) - 52).
Proof.
  intros Hd. remember (Z.pos (digits2_pos p)) as d eqn:Ed.
  assert (Hs : exists s, 53 - d = Z.pos s).
  { destruct (53 - d) as [|s|s] eqn:E; try lia. now exists s. }
  destruct Hs as [s Hs]. exists (Pos.iter xO p s).
  assert (HM : Z.pos (digits2_pos (Pos.iter xO p s)) = 53)
    by (rewrite digits2_iter_xO; lia).
  split; [exact HM|]. split.
  - unfold F64.of_Z, binary_normalize, binary_round. rewrite <- Ed.
    replace (fexp F64.prec F64.emax (d + 0)) with (d - 53)
      by (unfold fexp, emin, F64.prec, F64.emax; lia).
    unfold shl_align. replace (d - 53 - 0) with (Z.neg s) by lia.
    apply round_canonical; [exact HM|lia].
  - unfold F64.of_Z, binary_normalize, binary_round.
    assert (Ed' : Z.pos (digits2_pos p~0) = d + 1) by (simpl digits2_pos; lia).
    rewrite Ed'.
    replace (fexp F64.prec F64.emax (d + 1 + 0)) with (d - 52)
      by (unfold fexp, emin, F64.prec, F64.emax; lia).
    unfold shl_align.
    destruct (Pos.eq_dec s 1) as [->|Hn].
    + replace (d - 52 - 0) with 0 by lia. replace (d - 52) with 0 by lia.
      apply round_canonical; [exact HM|lia].
    + destruct (Pos.succ_pred_or s) as [|Hp]; [contradiction|].
      replace (d - 52 - 0) with (Z.neg (Pos.pred s)) by lia.
      rewrite <- Hp at 2. rewrite Pos.iter_succ_r.
      apply round_canonical; [|lia].
      rewrite <- Pos.iter_succ_r, Hp. exact HM.
Qed.

Lemma div_two_exact M E :
  Z.pos (digits2_pos M) = 53 -> -1073 <= E <= 970 ->
  F64.div (S754_finite false M (E + 1)) (F64.of_Z 2) = S754_finite false M E.
Proof.
  intros HM HE.
  change (F64.of_Z 2) with (S754_finite false 4503599627370496 (-51)).
  unfold F64.div, SFdiv, SFdiv_core_binary.
  cbn [Zdigits2]. rewrite HM.
  change (Z.pos (digits2_pos 4503599627370496)) with 53.
  replace (Z.min (fexp F64.prec F64.emax (53 + (E + 1) - (53 + -51)))
             (E + 1 - -51)) with (E - 1)
    by (unfold fexp, emin, F64.prec, F64.emax; lia).
  replace (E + 1 - -51 - (E - 1)) with 53 by lia.
  assert (Hq : Z.div_eucl (Z.shiftl (Z.pos M) 53) (Z.pos 4503599627370496)
               = (Z.pos M~0, 0)).
  { rewrite Z.shiftl_mul_pow2 by lia.
    pose proof (Z.div_eucl_eq (Z.pos M * 2 ^ 53) 4503599627370496 ltac:(lia)) as H.
    pose proof (Z.mod_pos_bound (Z.pos M * 2 ^ 53) 4503599627370496 ltac:(lia)) as B.
    unfold Z.modulo, Z.div in *.
    destruct (Z.div_eucl (Z.pos M * 2 ^ 53) 4503599627370496) as [q r].
    change (2 ^ 53) with 9007199254740992 in *.
    assert (q = 2 * Z.pos M) by lia. assert (r = 0) by lia. subst. reflexivity. }
  change IntDef.Z.div_eucl with Z.div_eucl. change IntDef.Z.shiftl with Z.shiftl.
  rewrite Hq. change (new_location 4503599627370496 0) with loc_Exact.
  unfold binary_round_aux, shr_fexp. cbn [xorb Zdigits2 shr_record_of_loc].
  assert (HM2 : Z.pos (digits2_pos M~0) = 54) by (simpl digits2_pos; lia).
  rewrite HM2.
  replace (fexp F64.prec F64.emax (54 + (E - 1)) - (E - 1)) with 1
    by (unfold fexp, emin, F64.prec, F64.emax; lia).
  cbn [shr].
  change (SpecFloat.iter_pos shr_1 1
            {| shr_m := Z.pos M~0; shr_r := false; shr_s := false |})
    with {| shr_m := Z.pos M; shr_r := false; shr_s := false |}.
  cbn [shr_m shr_r shr_s loc_of_shr_record round_nearest_even Zdigits2
       shr_record_of_loc].
  rewrite HM.
  replace (fexp F64.prec F64.emax (53 + (E - 1 + 1)) - (E - 1 + 1)) with 0
    by (unfold fexp, emin, F64.prec, F64.emax; lia).
  cbn [shr shr_m].
  replace (E - 1 + 1 <=? F64.emax - F64.prec) with true
    by (symmetry; apply Z.leb_le; unfold F64.prec, F64.emax; lia).
  f_equal. lia.
Qed.

Lemma div_two_of_Z k :
  0 <= k < 2 ^ 52 -> F64.div (F64.of_Z (2 * k)) (F64.of_Z 2) = F64.of_Z k.
Proof.
  intros [H0 Hk]. destruct k as [|p|p]; [reflexivity| |lia].
  assert (Hd : Z.pos (digits2_pos p) <= 52)
    by (apply (Zdigits2_le (Z.pos p) 52); lia).
  destruct (of_Z_doubled p Hd) as (M & HM & E1 & E2).
  change (2 * Z.pos p) with (Z.pos p~0). rewrite E1, E2.
  replace (Z.pos (digits2_pos p) - 52) with (Z.pos (digits2_pos p) - 53 + 1)
    by lia.
  apply div_two_exact; [exact HM|]. pose proof (Pos2Z.is_pos (digits2_pos p)). lia.
Qed.

(** [n_connections] is the number of unordered pairs of distinct channels,
    as a float. *)
Lemma n_connections_counts_pairs n :
  Z.of_nat n < 2 ^ 26 ->
  Compare.n_connections (Z.of_nat n)
  = F64.of_Z (Z.of_nat (length (Compare.channel_pairs n))).
Proof.
  intros Hn. unfold Compare.n_connections.
  rewrite channel_pairs_length. apply div_two_of_Z.
  pose proof (channel_pairs_length n) as H.
  change (2 ^ 26) with 67108864 in Hn. change (2 ^ 52) with 4503599627370496.
  nia.
Qed.

(** *** Sums that skip zeros *)

Lemma add_same_l a a' b :
  F64.same a a' -> F64.same (F64.add a b) (F64.add a' b).
Proof.
  intros [->|[Ha Ha']]; [apply same_refl|].
  destruct a as [sa| | |], a' as [sa'| | |]; try discriminate.
  destruct b as [sb|sb| |sb mb eb]; try (left; reflexivity).
  right. destruct sa, sa', sb; split; reflexivity.
Qed.

Lemma add_zero_r a z : F64.is_zero z = true -> F64.same (F64.add a z) a.
Proof.
  destruct z as [sz| | |]; try discriminate. intros _.
  destruct a as [sa|sa| |sa ma ea]; try (left; reflexivity).
  right. destruct sa, sz; split; reflexivity.
Qed.

Lemma div_same_l a a' d :
  F64.same a a' -> F64.same (F64.div a d) (F64.div a' d).
Proof.
  intros [->|[Ha Ha']]; [apply same_refl|].
  destruct a as [sa| | |], a' as [sa'| | |]; try discriminate.
  destruct d as [sd|sd| |sd md ed]; try (left; reflexivity);
    right; split; reflexivity.
Qed.

Lemma fold_add_same xs :
  forall a a', F64.same a a' ->
  F64.same (fold_left F64.add xs a) (fold_left F64.add xs a').
Proof.
  induction xs as [|x xs IH]; intros a a' H; simpl; [exact H|].
  apply IH. now apply add_same_l.
Qed.

Lemma fold_add_zeros zs :
  Forall (fun z => F64.is_zero z = true) zs ->
  forall a, F64.same (fold_left F64.add zs a) a.
Proof.
  induction 1 as [|z zs Hz _ IH]; intros a; simpl; [apply same_refl|].
  eapply same_trans; [apply IH|]. now apply add_zero_r.
Qed.

(** A grid of numbers whose entries on and above the diagonal are zeros:
    adding up all its entries row after row, or only the entries below the
    diagonal, gives the same number. *)
Lemma firstn_as_map {A : Type} (d : A) r k :
  (k <= length r)%nat -> map (fun j => nth j r d) (seq 0 k) = firstn k r.
Proof.
  revert r; induction k as [|k IH]; intros r Hk; [reflexivity|].
  destruct r as [|x r]; [simpl in Hk; lia|].
  simpl. f_equal. rewrite <- seq_shift, map_map.
  apply IH. simpl in Hk. lia.
Qed.

Lemma below_diagonal_sum grid :
  (forall i r, nth_error grid i = Some r ->
     (i <= length r)%nat /\
     Forall (fun z => F64.is_zero z = true) (skipn i r)) ->
  forall a,
  F64.same
    (fold_left F64.add (concat grid) a)
    (fold_left F64.add
       (map (fun p => nth (snd p) (nth (fst p) grid []) F64.zero)
            (Compare.channel_pairs (length grid))) a).
Proof.
  induction grid as [|r grid IH] using rev_ind; intros H a;
    [apply same_refl|].
  rewrite length_app, Nat.add_comm. cbn [length Nat.add].
  rewrite channel_pairs_S, concat_app, map_app, !fold_left_app.
  cbn [concat]. rewrite app_nil_r.
  destruct (H (length grid) r) as [Hl Hz];
    [now rewrite nth_error_app2, Nat.sub_diag by lia|].
  rewrite map_map. cbn [fst snd].
  rewrite (map_ext _ (fun j => nth j r F64.zero))
    by (intros j; now rewrite app_nth2, Nat.sub_diag by lia).
  rewrite firstn_as_map by exact Hl.
  rewrite <- (firstn_skipn (length grid) r) at 1. rewrite fold_left_app.
  eapply same_trans; [apply fold_add_zeros; exact Hz|].
  apply fold_add_same.
  rewrite (map_ext_in _ (fun p => nth (snd p) (nth (fst p) grid []) F64.zero)).
  - apply IH. intros i r' Hi. apply (H i r').
    rewrite nth_error_app1; [exact Hi|].
    apply nth_error_Some. now rewrite Hi.
  - intros [i j] Hin. apply channel_pairs_In in Hin. cbn [fst snd].
    now rewrite app_nth1 by lia.
Qed.

(** *** Summing along the first axis *)

Lemma item2_map {F : Type} (h : F -> F) a i j :
  Np.item2 (map (map h) a) i j = option_map h (Np.item2 a i j).
Proof.
  unfold Np.item2. rewrite nth_error_map.
  destruct (nth_error a i) as [r|]; simpl; [|reflexivity].
  apply nth_error_map.
Qed.

(** Summing along the first axis adds, at each position, the entries of
    the slices in order. *)
Lemma fold_ew2_item {F : Type} (add : F -> F -> F) ms :
  forall m f t v vs,
    Np.item2 m f t = Some v ->
    Compare.column ms f t = Some vs ->
    Np.item2 (fold_left (Np.ew2 add) ms m) f t = Some (fold_left add vs v).
Proof.
  induction ms as [|m' ms IH]; intros m f t v vs Hv Hc; simpl in *.
  - injection Hc as <-. exact Hv.
  - destruct (Np.item2 m' f t) as [v'|] eqn:Ev'; [|discriminate].
    destruct (Compare.column ms f t) as [vs'|] eqn:Ec; [|discriminate].
    injection Hc as <-. simpl. apply IH; [|exact Ec].
    now apply item2_ew2.
Qed.

Lemma fold_ew2_shape {F : Type} (add : F -> F -> F) rows cols ms :
  forall m, Np.shape2 rows cols m -> Forall (Np.shape2 rows cols) ms ->
  Np.shape2 rows cols (fold_left (Np.ew2 add) ms m).
Proof.
  induction ms as [|m' ms IH]; intros m Hm Hms; simpl; [exact Hm|].
  inversion Hms; subst. apply IH; [now apply ew2_shape|assumption].
Qed.

Lemma zeros_shape rows cols : Np.shape2 rows cols (Compare.zeros rows cols).
Proof.
  unfold Compare.zeros. split; [apply repeat_length|].
  apply Forall_forall. intros r Hr. apply repeat_spec in Hr. subst r.
  apply repeat_length.
Qed.

Lemma zeros_item rows cols f t :
  (f < rows)%nat -> (t < cols)%nat ->
  Np.item2 (Compare.zeros rows cols) f t = Some F64.zero.
Proof.
  intros Hf Ht. unfold Np.item2, Compare.zeros.
  rewrite (nth_error_repeat _ Hf). now apply nth_error_repeat.
Qed.

(** The entry of a block at band [f] and time [t], zero out of range. *)
Lemma column_map {F : Type} (d : F) rows cols (ms : list (Np.array2 F)) f t :
  Forall (Np.shape2 rows cols) ms -> (f < rows)%nat -> (t < cols)%nat ->
  Compare.column ms f t
  = Some (map (fun m => match Np.item2 m f t with Some v => v | None => d end)
              ms).
Proof.
  intros H Hf Ht; induction H as [|m ms Hm H IH]; simpl; [reflexivity|].
  destruct (shape2_item _ _ m f t Hm Hf Ht) as [v ->]. now rewrite IH.
Qed.

Lemma length_concat_rows {A : Type} (k : nat) (rows : list (list A)) :
  Forall (fun row => length row = k) rows ->
  length (concat rows) = (length rows * k)%nat.
Proof.
  induction 1 as [|row rows Hl _ IH]; [reflexivity|].
  cbn [concat length]. rewrite length_app, IH, Hl. lia.
Qed.

(** C10.  The dense connectivity over [n] channels holds one block of
    shape (bands, times) per ordered pair of channels, with numbers other
    than zero only where the first channel comes after the second; the
    raveled array lists the blocks row after row.  For fewer than 2^26
    channels and two or more time points:
    [n_channels * n_channels - n_channels] is twice the number of
    unordered pairs of distinct channels, and [n_connections], its half
    as a float, is exactly that number;
    [global_con_epochs] has one entry per time point, which is the sum of
    the values of all rows of the raveled array at the first band and
    that time, added in order from 0.0, divided by [n_connections]; and
    this entry is the arithmetic mean of the per-connection values: the
    sum of the values of the unordered pairs, divided by their number.
    (With a single time point and a single band NumPy adds the rows in
    another order, pairwise; the statement is for a time course.) *)
Theorem global_connectivity_mean
    (n n_freq_bands n_times : nat) (dense : list (list (Np.array2 F64.t))) :
  Z.of_nat n < 2 ^ 26 -> (2 <= n_times)%nat ->
  length dense = n ->
  Forall (fun row => length row = n /\
                     Forall (Np.shape2 (S n_freq_bands) n_times) row) dense ->
  (forall i j f t v, (i <= j)%nat ->
     Compare.dense_item dense i j f t = Some v -> F64.is_zero v = true) ->
  (Z.of_nat n * Z.of_nat n - Z.of_nat n
   = 2 * Z.of_nat (length (Compare.channel_pairs n)) /\
   NoDup (Compare.channel_pairs n) /\
   forall i j, In (i, j) (Compare.channel_pairs n) <-> (j < i < n)%nat) /\
  Compare.n_connections (Z.of_nat n)
  = F64.of_Z (Z.of_nat (length (Compare.channel_pairs n))) /\
  exists g,
    Compare.global_con_epochs (Z.of_nat n) (S n_freq_bands) n_times
      (concat dense) = Py.Returned g /\
    length g = n_times /\
    forall t, (t < n_times)%nat ->
      exists raveled_values values g_t,
        Compare.column (concat dense) 0 t = Some raveled_values /\
        length raveled_values = (n * n)%nat /\
        nth_error g t = Some g_t /\
        g_t = F64.div (fold_left F64.add raveled_values F64.zero)
                      (Compare.n_connections (Z.of_nat n)) /\
        Forall2 (fun p v =>
                   Compare.dense_item dense (fst p) (snd p) 0 t = Some v)
                (Compare.channel_pairs n) values /\
        F64.same g_t
          (F64.div (fold_left F64.add values F64.zero)
                   (F64.of_Z (Z.of_nat (length (Compare.channel_pairs n))))).
Proof.
  intros Hn Ht2 Ld Hd Hz.
  split; [split; [apply channel_pairs_length|];
          split; [apply channel_pairs_NoDup|apply channel_pairs_In]|].
  split; [now apply n_connections_counts_pairs|].
  assert (Hr : Forall (Np.shape2 (S n_freq_bands) n_times) (concat dense)).
  { apply Forall_concat. eapply Forall_impl; [|exact Hd].
    intros row [_ H]. exact H. }
  assert (Lr : length (concat dense) = (n * n)%nat).
  { rewrite <- Ld at 1. apply length_concat_rows.
    eapply Forall_impl; [|exact Hd]. intros row [H _]. exact H. }
  unfold Compare.global_con_epochs, Compare.sum_axis0.
  replace (S n_freq_bands * n_times =? 1)%nat with false
    by (symmetry; apply Nat.eqb_neq; nia).
  pose proof (fold_ew2_shape F64.add _ _ (concat dense) _
                (zeros_shape (S n_freq_bands) n_times) Hr) as Hs.
  set (total := fold_left (Np.ew2 F64.add) (concat dense)
                  (Compare.zeros (S n_freq_bands) n_times)) in *.
  destruct total as [|band bands] eqn:Et;
    [destruct Hs as [Hs _]; discriminate|].
  cbn [map]. eexists; split; [reflexivity|]. split.
  - rewrite length_map. destruct Hs as [_ Hs]. now inversion Hs.
  - intros t Ht.
    set (val := fun m : Np.array2 F64.t =>
                  match Np.item2 m 0 t with Some v => v | None => F64.zero end).
    pose proof (column_map F64.zero _ _ (concat dense) 0 t Hr
                  (Nat.lt_0_succ _) Ht) as Hc. fold val in Hc.
    pose proof (fold_ew2_item F64.add (concat dense) _ 0 t _ _
                  (zeros_item (S n_freq_bands) n_times 0 t
                     (Nat.lt_0_succ _) Ht) Hc) as Hi.
    fold total in Hi. rewrite Et in Hi. unfold Np.item2 in Hi.
    cbn [nth_error] in Hi.
    set (grid := map (map val) dense).
    exists (map val (concat dense)),
           (map (fun p => nth (snd p) (nth (fst p) grid []) F64.zero)
                (Compare.channel_pairs n)),
           (F64.div (fold_left F64.add (map val (concat dense)) F64.zero)
                    (Compare.n_connections (Z.of_nat n))).
    split; [exact Hc|]. split; [now rewrite length_map|].
    split; [now rewrite nth_error_map, Hi|]. split; [reflexivity|].
    assert (Hitem : forall i j, (i < n)%nat -> (j < n)%nat ->
              Compare.dense_item dense i j 0 t
              = Some (nth j (nth i grid []) F64.zero)).
    { intros i j Hi' Hj. unfold Compare.dense_item, grid.
      destruct (nth_error dense i) as [row|] eqn:Er;
        [|apply nth_error_None in Er; lia].
      rewrite Forall_forall in Hd.
      destruct (Hd row (nth_error_In _ _ Er)) as [Lrow Hrow].
      destruct (nth_error row j) as [m|] eqn:Em;
        [|apply nth_error_None in Em; lia].
      rewrite Forall_forall in Hrow.
      destruct (shape2_item _ _ m 0 t (Hrow m (nth_error_In _ _ Em))
                  (Nat.lt_0_succ _) Ht) as [v Hv].
      rewrite Hv. f_equal.
      assert (E : nth i (map (map val) dense) [] = map val row)
        by (apply nth_error_nth; now rewrite nth_error_map, Er).
      rewrite E. symmetry. apply nth_error_nth.
      rewrite nth_error_map, Em. cbn [option_map]. unfold val.
      now rewrite Hv. }
    split.
    + clear -Hitem. 
      assert (H : forall p, In p (Compare.channel_pairs n) ->
                   Compare.dense_item dense (fst p) (snd p) 0 t
                   = Some (nth (snd p) (nth (fst p) grid []) F64.zero)).
      { intros [i j] Hin. apply channel_pairs_In in Hin. cbn [fst snd].
        apply Hitem; lia. }
      induction (Compare.channel_pairs n) as [|p ps IH]; cbn [map];
        constructor; [apply H; now left|apply IH; intros q Hq; apply H; now right].
    + rewrite <- n_connections_counts_pairs by exact Hn.
      apply div_same_l. rewrite concat_map. fold grid.
      replace n with (length grid) at 1 by (unfold grid; now rewrite length_map).
      apply below_diagonal_sum. intros i r Hr'.
      unfold grid in Hr'. rewrite nth_error_map in Hr'.
      destruct (nth_error dense i) as [row|] eqn:Er; [|discriminate].
      injection Hr' as <-.
      rewrite Forall_forall in Hd.
      destruct (Hd row (nth_error_In _ _ Er)) as [Lrow Hrow].
      assert (Hi' : (i < n)%nat)
        by (rewrite <- Ld; apply nth_error_Some; now rewrite Er).
      split; [rewrite length_map; lia|].
      apply Forall_forall. intros z Hin.
      apply In_nth_error in Hin as [k Hk].
      rewrite nth_error_skipn, nth_error_map in Hk.
      destruct (nth_error row (i + k)) as [m|] eqn:Em; [|discriminate].
      injection Hk as <-. unfold val.
      destruct (Np.item2 m 0 t) as [v|] eqn:Ev; [|reflexivity].
      apply (Hz i (i + k)%nat 0%nat t v); [lia|].
      unfold Compare.dense_item. now rewrite Er, Em.
Qed.

(** Three channels, one band, two time points: the pairs (1, 0), (2, 0)
    and (2, 1) have the values 1, 2, 3 at the first time point and 3, 5,
    4 at the second; the global connectivity is 2 and 4. *)
Lemma global_connectivity_mean_witness :
  Compare.n_connections 3 = F64.of_Z 3 /\
  Compare.global_con_epochs 3 1 2 (concat Demo.dense)
  = Py.Returned [F64.of_Z 2; F64.of_Z 4] /\
  Compare.column (concat Demo.dense) 0 0
  = Some (map F64.of_Z [0; 0; 0; 1; 0; 0; 2; 3; 0]) /\
  Forall2 (fun p v =>
             Compare.dense_item Demo.dense (fst p) (snd p) 0 1 = Some v)
          [(1, 0); (2, 0); (2, 1)]%nat (map F64.of_Z [3; 5; 4]) /\
  F64.same (F64.of_Z 4)
    (F64.div (fold_left F64.add (map F64.of_Z [3; 5; 4]) F64.zero)
             (F64.of_Z 3)).
Proof.
  assert (Hz : forall i j f t v, (i <= j)%nat ->
            Compare.dense_item Demo.dense i j f t = Some v ->
            F64.is_zero v = true).
  { intros i j f t v Hij H. unfold Compare.dense_item, Np.item2 in H.
    destruct i as [|[|[|[|i]]]]; cbn in H; try discriminate H;
      destruct j as [|[|[|[|j]]]]; try lia; cbn in H; try discriminate H;
      destruct f as [|[|f]]; cbn in H; try discriminate H;
      destruct t as [|[|[|t]]]; cbn in H; try discriminate H;
      injection H as <-; reflexivity. }
  destruct (global_connectivity_mean 3 0 2 Demo.dense eq_refl (le_n 2) eq_refl
              ltac:(repeat constructor) Hz)
    as (_ & Hn & g & Hg & _ & Ht).
  split; [exact Hn|].
  assert (Eg : g = [F64.of_Z 2; F64.of_Z 4])
    by (vm_compute in Hg; now injection Hg as <-).
  subst g. split; [exact Hg|].
  split; [reflexivity|].
  destruct (Ht 1%nat (le_n 2)) as (rv & values & g_t & _ & _ & Eg & _ & Hv & Hs).
  injection Eg as <-.
  assert (Ev : values = map F64.of_Z [3; 5; 4]).
  { change (Compare.channel_pairs 3) with [(1, 0); (2, 0); (2, 1)]%nat in Hv.
    inversion Hv as [|p1 v1 ps1 vs1 H1 Hv1]; subst.
    inversion Hv1 as [|p2 v2 ps2 vs2 H2 Hv2]; subst.
    inversion Hv2 as [|p3 v3 ps3 vs3 H3 Hv3]; subst.
    inversion Hv3; subst.
    vm_compute in H1, H2, H3.
    injection H1 as <-. injection H2 as <-. injection H3 as <-. reflexivity. }
  subst values. split; [exact Hv|exact Hs].
Defined.

(** ** Event-parsing notebook: annotations *)














(** ** Where the notebooks take their data from *)

(** C2, as stated, fails: the notebook comparing coherency-based methods
    never downloads a dataset; each of its four connectivity estimates runs
    on signals made by [make_signals_in_freq_bands]. *)
Lemma coherency_notebook_runs_on_simulated_data :
  In Repo.compare_coherency_methods Repo.repository /\
  filter Flow.is_fetch (Ast.targets Repo.compare_coherency_methods) = [] /\
  Flow.estimator_origins Repo.compare_coherency_methods
  = repeat {| Flow.fetched := false; Flow.simulated := true |} 4 /\
  Flow.loads_dataset_before_analysis Repo.compare_coherency_methods = false.
Proof.
  split; [simpl; auto|]. repeat split; vm_compute; reflexivity.
Qed.

(** C2, as the code has it.  Seven of the nine notebooks call a dataset
    download before any other MNE routine and run every connectivity
    estimate on fetched data.  The notebook comparing coherency-based
    methods fetches nothing and estimates on simulated signals only; the
    notebook comparing connectivity over time and over trials runs four
    estimates on random and sinusoidal signals before it fetches the sample
    dataset for its fifth. *)
Theorem datasets_loaded_before_analysis :
  Forall (fun nb => Flow.loads_dataset_before_analysis nb = true)
         [Repo.granger_causality; Repo.seed_tfr_connectivity; Repo.var_model;
          Repo.event_arrays; Repo.inverse_coherence_epochs;
          Repo.inverse_connectivity_spectrum;
          Repo.inverse_envelope_correlation] /\
  (filter Flow.is_fetch (Ast.targets Repo.compare_coherency_methods) = [] /\
   Flow.estimator_origins Repo.compare_coherency_methods
   = repeat {| Flow.fetched := false; Flow.simulated := true |} 4) /\
  (Flow.fetch_first Repo.compare_over_time_over_trial = false /\
   Flow.estimator_origins Repo.compare_over_time_over_trial
   = repeat {| Flow.fetched := false; Flow.simulated := true |} 4
     ++ [{| Flow.fetched := true; Flow.simulated := false |}]) /\
  Repo.repository
  = [Repo.granger_causality; Repo.seed_tfr_connectivity;
     Repo.compare_coherency_methods; Repo.var_model; Repo.event_arrays;
     Repo.inverse_coherence_epochs; Repo.compare_over_time_over_trial;
     Repo.inverse_connectivity_spectrum; Repo.inverse_envelope_correlation].
Proof.
  split; [repeat constructor; vm_compute; reflexivity|].
  repeat split; vm_compute; reflexivity.
Qed.

(** ** Files, processes and definitions *)

(** C5.  In every notebook: the imports come from MNE, MNE-Connectivity,
    MNE-BIDS, NumPy, Matplotlib and [os.path]; the only [os] routine called
    is [os.path.join]; the builtins called are among [print], [range],
    [len] and the like, never [open]; no routine called goes by a
    file-writing name; every call of a routine that opens a file by name
    ([read_*], [BIDSPath], [make_forward_solution]) has its path argument
    looked at; and every path handed to a reader is computed from the
    result of a dataset download.  The repository hands 26 such paths to
    readers. *)
Theorem notebooks_leave_files_alone :
  Forall (fun nb =>
            forallb (fun p => Ast.mem p Inventory.packages_in_use)
                    (Inventory.imported_packages nb) = true /\
            forallb (String.eqb "os.path.join") (Inventory.os_calls nb) = true /\
            forallb (fun b => Ast.mem b Inventory.builtins_in_use)
                    (Inventory.builtins_called nb) = true /\
            existsb Flow.is_writer (map Ast.target_name (Ast.targets nb)) = false /\
            Flow.readers_have_paths nb = true /\
            forallb Flow.fetched (Flow.path_origins nb) = true)
         Repo.repository /\
  length (flat_map Flow.path_origins Repo.repository) = 26%nat.
Proof.
  split; [|vm_compute; reflexivity].
  repeat constructor; vm_compute; reflexivity.
Qed.

(** C6.  No notebook imports a package that starts threads or processes;
    the only worker-count keyword passed anywhere is [n_jobs], in three
    calls of [spectral_connectivity_epochs], each time with the value 1. *)
Theorem notebooks_are_sequential :
  Forall (fun nb =>
            existsb (fun p => Ast.mem p Inventory.concurrency_packages)
                    (Inventory.imported_packages nb) = false /\
            forallb (fun p => Ast.mem p Inventory.packages_in_use)
                    (Inventory.imported_packages nb) = true)
         Repo.repository /\
  flat_map (fun nb => map (fun u => (Ast.path nb, u))
                          (Inventory.parallel_settings nb))
           Repo.repository
  = map (fun p =>
           (p, ("n_jobs"%string,
                (Ast.Lib "mne_connectivity.spectral_connectivity_epochs",
                 Ast.Num "1"))))
        [Ast.path Repo.seed_tfr_connectivity;
         Ast.path Repo.inverse_coherence_epochs;
         Ast.path Repo.inverse_connectivity_spectrum].
Proof.
  split; [|vm_compute; reflexivity].
  repeat constructor; vm_compute; reflexivity.
Qed.

(** C7, as stated, fails: the envelope-correlation notebook defines
    [bp_gen], which is none of the three functions named and does not plot:
    the only call in its body is the library's [filter_data]. *)
Lemma bp_gen_is_not_a_plotting_helper :
  In "bp_gen"%string
     (flat_map Ast.function_defs (Ast.code Repo.inverse_envelope_correlation)) /\
  ~ In "bp_gen"%string
       ["plot_connectivity_circle"%string; "plot_con_matrix"%string;
        "plot_degree"%string] /\
  Ast.body_targets Repo.inverse_envelope_correlation "bp_gen"
  = [Ast.Lib "mne.filter.filter_data"] /\
  existsb Inventory.is_plot
          (Ast.body_targets Repo.inverse_envelope_correlation "bp_gen") = false.
Proof.
  split; [vm_compute; auto|]. split.
  - intros [H|[H|[H|[]]]]; discriminate H.
  - split; vm_compute; reflexivity.
Qed.

(** C7, as the code has it.  No notebook defines a class.  The notebooks
    define five functions: [plot_connectivity_circle], [plot_con_matrix],
    [plot_corr] and [plot_degree], each of which draws, and the generator
    [bp_gen], which only calls the library's [filter_data].  Every value
    assigned from a call comes from a library routine, a method of an
    object or a builtin, except the figure handles returned by
    [plot_connectivity_circle] and [plot_degree]. *)
Theorem notebooks_define_no_data_structures :
  flat_map (fun nb => flat_map Ast.class_defs (Ast.code nb)) Repo.repository = [] /\
  flat_map (fun nb => flat_map Ast.function_defs (Ast.code nb)) Repo.repository
  = ["plot_connectivity_circle"%string; "plot_con_matrix"%string;
     "bp_gen"%string; "plot_corr"%string; "plot_degree"%string] /\
  Forall (fun nf => existsb Inventory.is_plot (Ast.body_targets (fst nf) (snd nf)) = true)
         [(Repo.compare_coherency_methods, "plot_connectivity_circle"%string);
          (Repo.compare_over_time_over_trial, "plot_con_matrix"%string);
          (Repo.inverse_envelope_correlation, "plot_corr"%string);
          (Repo.inverse_envelope_correlation, "plot_degree"%string)] /\
  Ast.body_targets Repo.inverse_envelope_correlation "bp_gen"
  = [Ast.Lib "mne.filter.filter_data"] /\
  Forall (fun nb =>
            forallb (fun t => Inventory.is_external t
                              || Inventory.is_local_among
                                   ["plot_connectivity_circle"%string;
                                    "plot_degree"%string] t)
                    (Inventory.assigned_calls nb) = true)
         Repo.repository.
Proof.
  split; [vm_compute; reflexivity|].
  split; [vm_compute; reflexivity|].
  split; [repeat constructor; vm_compute; reflexivity|].
  split; [vm_compute; reflexivity|].
  repeat constructor; vm_compute; reflexivity.
Qed.

(** * Further properties of the notebook code *)

(** ** Granger-causality notebook: the sensor groups *)

Lemma select_spec letter : forall ch_names k l,
  SensorGroups.select letter k ch_names = Py.Returned l ->
  Forall (fun i => k <= i)%nat l /\
  StronglySorted lt l /\
  forall i, In i l <->
    (k <= i)%nat /\
    exists name, nth_error ch_names (i - k) = Some name /\
                 String.get 2 name = Some letter.
Proof.
  induction ch_names as [|name rest IH]; intros k l H; simpl in H.
  - injection H as <-. split; [constructor|]. split; [constructor|].
    intros i. split; [intros []|].
    intros (_ & name & Hn & _). now destruct (i - k)%nat.
  - destruct (String.get 2 name) as [c|] eqn:Ec; [|discriminate].
    destruct (SensorGroups.select letter (S k) rest) as [idxs|] eqn:Er;
      [|discriminate].
    simpl in H. injection H as <-.
    destruct (IH (S k) idxs Er) as (Hge & Hs & Hin).
    assert (Hmem : forall i, In i idxs <->
                     (S k <= i)%nat /\
                     exists n, nth_error (name :: rest) (i - k) = Some n /\
                               String.get 2 n = Some letter).
    { intros i. rewrite Hin. split; intros (Hi & n & Hn & Hg);
        (split; [exact Hi|]); exists n; (split; [|exact Hg]).
      - replace (i - k)%nat with (S (i - S k)) by lia. exact Hn.
      - replace (i - k)%nat with (S (i - S k)) in Hn by lia. exact Hn. }
    destruct (Ascii.eqb c letter) eqn:Ecl.
    + apply Ascii.eqb_eq in Ecl. subst c. split; [|split].
      * constructor; [lia|]. eapply Forall_impl; [|exact Hge]. simpl; lia.
      * constructor; [exact Hs|]. eapply Forall_impl; [|exact Hge]. simpl; lia.
      * intros i. simpl. rewrite Hmem. split.
        -- intros [<-|(Hi & n & Hn & Hg)].
           ++ split; [lia|]. exists name. rewrite Nat.sub_diag. now split.
           ++ split; [lia|]. now exists n.
        -- intros (Hi & n & Hn & Hg).
           destruct (Nat.eq_dec k i) as [->|Hne]; [now left|right].
           split; [lia|]. now exists n.
    + apply Ascii.eqb_neq in Ecl. split; [|split].
      * eapply Forall_impl; [|exact Hge]. simpl; lia.
      * exact Hs.
      * intros i. rewrite Hmem. split.
        -- intros (Hi & n & Hn & Hg). split; [lia|]. now exists n.
        -- intros (Hi & n & Hn & Hg). split; [|now exists n].
           destruct (Nat.eq_dec k i) as [->|Hne]; [|lia].
           rewrite Nat.sub_diag in Hn. simpl in Hn. injection Hn as <-.
           congruence.
Qed.

(** X1.  When the comprehension for group A completes, group A lists, in
    increasing order and without repetition, exactly the positions of the
    channels whose name has [P] as third character. *)
Theorem signals_a_are_the_parietal_channels (ch_names : list string) (a : list nat) :
  SensorGroups.signals_a ch_names = Py.Returned a ->
  StronglySorted lt a /\
  forall i, In i a <->
    exists name, nth_error ch_names i = Some name /\
                 String.get 2 name = Some "P"%char.
Proof.
  intros H. destruct (select_spec _ _ _ _ H) as (_ & Hs & Hin).
  split; [exact Hs|]. intros i. rewrite Hin, Nat.sub_0_r.
  split; [intros [_ E]; exact E|intros E; split; [lia|exact E]].
Qed.

Lemma signals_a_are_the_parietal_channels_witness :
  StronglySorted lt [1%nat; 2%nat] /\
  forall i, In i [1%nat; 2%nat] <->
    exists name, nth_error ["MLO11"; "MLP11"; "MRP21"; "MZC01"]%string i = Some name /\
                 String.get 2 name = Some "P"%char.
Proof.
  apply (signals_a_are_the_parietal_channels
           ["MLO11"; "MLP11"; "MRP21"; "MZC01"]%string [1%nat; 2%nat]).
  reflexivity.
Defined.

(** X2.  The two groups never share a channel, and each channel belongs
    to at most one of them, so together they are no larger than the
    recording. *)
Theorem groups_are_disjoint (ch_names : list string) (a b : list nat) :
  SensorGroups.groups ch_names = Py.Returned (a, b) ->
  (forall i, In i a -> ~ In i b) /\
  (length a + length b <= length ch_names)%nat.
Proof.
  unfold SensorGroups.groups, SensorGroups.signals_a, SensorGroups.signals_b.
  destruct (SensorGroups.select "P" 0 ch_names) as [a'|] eqn:Ea; [|discriminate].
  destruct (SensorGroups.select "O" 0 ch_names) as [b'|] eqn:Eb; [|discriminate].
  simpl. intros H; injection H as <- <-.
  destruct (select_spec _ _ _ _ Ea) as (_ & Sa & Ia).
  destruct (select_spec _ _ _ _ Eb) as (_ & Sb & Ib).
  assert (D : forall i, In i a' -> ~ In i b').
  { intros i Ha Hb. apply Ia in Ha as (_ & n & Hn & Hg).
    apply Ib in Hb as (_ & n' & Hn' & Hg'). congruence. }
  split; [exact D|].
  assert (N : NoDup (a' ++ b')).
  { apply NoDup_app.
    - apply StronglySorted_Sorted in Sa. clear - Sa.
      induction a' as [|x a' IH]; constructor.
      + intros Hin. apply Sorted_StronglySorted in Sa;
          [|intros p q r; apply Nat.lt_trans].
        apply StronglySorted_inv in Sa as [_ Hall].
        rewrite Forall_forall in Hall. specialize (Hall x Hin). lia.
      + apply IH. now inversion Sa.
    - apply StronglySorted_Sorted in Sb. clear - Sb.
      induction b' as [|x b' IH]; constructor.
      + intros Hin. apply Sorted_StronglySorted in Sb;
          [|intros p q r; apply Nat.lt_trans].
        apply StronglySorted_inv in Sb as [_ Hall].
        rewrite Forall_forall in Hall. specialize (Hall x Hin). lia.
      + apply IH. now inversion Sb.
    - exact D. }
  rewrite <- length_app, <- (length_seq (length ch_names) 0).
  apply NoDup_incl_length; [exact N|].
  intros i Hi. apply in_seq. split; [lia|]. simpl.
  apply in_app_or in Hi as [Hi|Hi];
    [apply Ia in Hi|apply Ib in Hi];
    destruct Hi as (_ & n & Hn & _); rewrite Nat.sub_0_r in Hn;
    apply nth_error_Some; congruence.
Qed.

Lemma groups_are_disjoint_witness :
  (forall i, In i [1%nat; 2%nat] -> ~ In i [0%nat]) /\
  (length [1%nat; 2%nat] + length [0%nat] <= 4)%nat.
Proof.
  apply (groups_are_disjoint ["MLO11"; "MLP11"; "MRP21"; "MZC01"]%string).
  reflexivity.
Defined.

Lemma select_succeeds letter : forall ch_names k,
  Forall (fun name => 3 <= String.length name)%nat ch_names ->
  exists l, SensorGroups.select letter k ch_names = Py.Returned l.
Proof.
  induction ch_names as [|name rest IH]; intros k H; simpl; [eauto|].
  inversion H as [|? ? Hn Hr]; subst.
  destruct name as [|c0 [|c1 [|c2 name]]]; simpl in Hn; try lia.
  simpl. destruct (IH (S k) Hr) as [l ->]. simpl. eauto.
Qed.

Lemma select_fails letter : forall ch_names k e,
  SensorGroups.select letter k ch_names = Py.Raised e ->
  Py.exc_type e = Py.IndexError /\
  Exists (fun name => String.length name < 3)%nat ch_names.
Proof.
  induction ch_names as [|name rest IH]; intros k e H; simpl in H;
    [discriminate|].
  destruct (String.get 2 name) as [c|] eqn:Ec.
  - destruct (SensorGroups.select letter (S k) rest) as [l|e'] eqn:Er;
      simpl in H; [discriminate|]. injection H as <-.
    destruct (IH _ _ Er) as [Ht Hex]. split; [exact Ht|now right].
  - injection H as <-. split; [reflexivity|]. left.
    destruct name as [|c0 [|c1 [|c2 name]]]; simpl in *; try lia.
    discriminate.
Qed.

(** X3.  The two comprehensions complete exactly when every channel name
    has at least three characters; otherwise the cell ends with an
    [IndexError]. *)
Theorem groups_need_three_character_names (ch_names : list string) :
  ((exists g, SensorGroups.groups ch_names = Py.Returned g) <->
   Forall (fun name => 3 <= String.length name)%nat ch_names) /\
  (forall e, SensorGroups.groups ch_names = Py.Raised e ->
             Py.exc_type e = Py.IndexError).
Proof.
  unfold SensorGroups.groups, SensorGroups.signals_a, SensorGroups.signals_b.
  split; [split|].
  - intros [g H].
    destruct (SensorGroups.select "P" 0 ch_names) as [a|e] eqn:Ea;
      [|discriminate].
    apply Forall_forall. intros name Hin.
    destruct (Nat.le_gt_cases 3 (String.length name)) as [|Hlt]; [assumption|].
    exfalso. clear H g.
    revert a Ea. generalize 0%nat.
    induction ch_names as [|n rest IH]; intros k a Ea; [destruct Hin|].
    simpl in Ea. destruct (String.get 2 n) as [c|] eqn:Ec; [|discriminate].
    destruct (SensorGroups.select "P" (S k) rest) as [l|] eqn:Er;
      [|discriminate].
    destruct Hin as [->|Hin]; [|eapply IH; eauto].
    destruct name as [|c0 [|c1 [|c2 name]]]; simpl in *; try lia; discriminate.
  - intros H.
    destruct (select_succeeds "P" ch_names 0%nat H) as [a ->].
    destruct (select_succeeds "O" ch_names 0%nat H) as [b ->].
    simpl. eauto.
  - intros e H.
    destruct (SensorGroups.select "P" 0 ch_names) as [a|ea] eqn:Ea.
    + destruct (SensorGroups.select "O" 0 ch_names) as [b|eb] eqn:Eb;
        simpl in H; [discriminate|]. injection H as <-.
      now apply select_fails in Eb.
    + simpl in H. injection H as <-. now apply select_fails in Ea.
Qed.


(** ** Looking an item up by value *)

Lemma index_from_spec {A : Type} (eqb : A -> A -> bool) (x : A) :
  forall xs k i,
    Seq.index_from A eqb k x xs = Py.Returned i ->
    (k <= i)%nat /\
    (exists y, nth_error xs (i - k) = Some y /\ eqb y x = true) /\
    forall j y, (j < i - k)%nat -> nth_error xs j = Some y -> eqb y x = false.
Proof.
  induction xs as [|y ys IH]; intros k i H; simpl in H; [discriminate|].
  destruct (eqb y x) eqn:E.
  - injection H as <-. rewrite Nat.sub_diag. split; [lia|]. split.
    + exists y. now split.
    + intros j z Hj. lia.
  - destruct (IH _ _ H) as (Hk & (z & Hz & Ez) & Hfirst).
    split; [lia|]. split.
    + exists z. split; [|exact Ez].
      replace (i - k)%nat with (S (i - S k)) by lia. exact Hz.
    + intros [|j] w Hj Hw; simpl in Hw.
      * injection Hw as <-. exact E.
      * apply (Hfirst j w); [lia|exact Hw].
Qed.

Lemma index_from_missing {A : Type} (eqb : A -> A -> bool) (x : A) :
  forall xs k,
    Forall (fun y => eqb y x = false) xs ->
    Seq.index_from A eqb k x xs = Py.Raised Seq.value_error.
Proof.
  induction xs as [|y ys IH]; intros k H; simpl; [reflexivity|].
  inversion H as [|? ? Hy Hys]; subst. rewrite Hy. now apply IH.
Qed.

Lemma comprehension_get_item {A : Type} (xs : list A) :
  forall (idxs : list nat) (ys : list A),
    Seq.comprehension nat A (Seq.get_item A xs) idxs = Py.Returned ys ->
    length ys = length idxs /\
    forall k i, nth_error idxs k = Some i -> nth_error ys k = nth_error xs i.
Proof.
  induction idxs as [|i idxs IH]; intros ys H; simpl in H.
  - injection H as <-. split; [reflexivity|]. intros [|k] i; discriminate.
  - unfold Seq.get_item in H at 1.
    destruct (nth_error xs i) as [x|] eqn:Ex; [|discriminate].
    simpl in H.
    destruct (Seq.comprehension nat A (Seq.get_item A xs) idxs) as [ys'|] eqn:E;
      [|discriminate].
    simpl in H. injection H as <-. destruct (IH _ eq_refl) as [L Hn].
    split; [simpl; congruence|].
    intros [|k] j Hj; simpl in *.
    + injection Hj as <-. now rewrite Ex.
    + now apply Hn.
Qed.

Lemma comprehension_get_item_total {A : Type} (xs : list A) :
  forall idxs : list nat,
    Forall (fun i => i < length xs)%nat idxs ->
    exists ys, Seq.comprehension nat A (Seq.get_item A xs) idxs = Py.Returned ys.
Proof.
  induction idxs as [|i idxs IH]; intros H; simpl; [eauto|].
  inversion H as [|? ? Hi Hr]; subst.
  unfold Seq.get_item at 1.
  destruct (nth_error xs i) as [x|] eqn:Ex;
    [|apply nth_error_None in Ex; lia].
  destruct (IH Hr) as [ys ->]. simpl. eauto.
Qed.

(** ** Seed-based connectivity notebook *)

(** X4.  When the cell finds the seed, [seed] is a position among the
    picks, it is one of the targets, the channel picked at that position
    is the seed channel, and no earlier pick is. *)
Theorem seed_is_the_first_pick_named_seed_ch
  (ch_names : list string) (picks : list nat) (seed_ch : string)
  (seed : nat) (targets : list nat) :
  SeedTFR.seed_and_targets ch_names picks seed_ch = Py.Returned (seed, targets) ->
  (seed < length picks)%nat /\
  targets = seq 0 (length picks) /\
  In seed targets /\
  (exists p, nth_error picks seed = Some p /\
             nth_error ch_names p = Some seed_ch) /\
  forall k p, (k < seed)%nat -> nth_error picks k = Some p ->
              nth_error ch_names p <> Some seed_ch.
Proof.
  unfold SeedTFR.seed_and_targets, SeedTFR.picks_ch_names.
  destruct (Seq.comprehension nat string (Seq.get_item string ch_names) picks)
    as [names|] eqn:En; [|discriminate].
  simpl. destruct (Seq.index string String.eqb seed_ch names) as [s|] eqn:Ei;
    [|discriminate].
  simpl. intros H; injection H as <- <-.
  destruct (comprehension_get_item _ _ _ En) as [L Hn].
  destruct (index_from_spec _ _ _ _ _ Ei) as (_ & (y & Hy & Ey) & Hfirst).
  rewrite Nat.sub_0_r in Hy, Hfirst. apply String.eqb_eq in Ey. subst y.
  assert (Hs : (s < length picks)%nat)
    by (rewrite <- L; apply nth_error_Some; congruence).
  split; [exact Hs|]. split; [reflexivity|].
  split; [apply in_seq; lia|]. split.
  - destruct (nth_error picks s) as [p|] eqn:Ep;
      [|apply nth_error_None in Ep; lia].
    exists p. split; [reflexivity|]. rewrite <- (Hn _ _ Ep). exact Hy.
  - intros k p Hk Hp Hc. rewrite <- (Hn _ _ Hp) in Hc.
    specialize (Hfirst k seed_ch Hk Hc). now rewrite String.eqb_refl in Hfirst.
Qed.

Lemma seed_is_the_first_pick_named_seed_ch_witness :
  (1 < length [2%nat; 0%nat])%nat /\
  [0%nat; 1%nat] = seq 0 (length [2%nat; 0%nat]) /\
  In 1%nat [0%nat; 1%nat] /\
  (exists p, nth_error [2%nat; 0%nat] 1 = Some p /\
             nth_error ["MEG 2343"; "EOG 061"; "MEG 2342"]%string p
             = Some "MEG 2343"%string) /\
  forall k p, (k < 1)%nat -> nth_error [2%nat; 0%nat] k = Some p ->
              nth_error ["MEG 2343"; "EOG 061"; "MEG 2342"]%string p
              <> Some "MEG 2343"%string.
Proof.
  apply (seed_is_the_first_pick_named_seed_ch
           ["MEG 2343"; "EOG 061"; "MEG 2342"]%string [2%nat; 0%nat]
           "MEG 2343" 1%nat [0%nat; 1%nat]).
  reflexivity.
Defined.

(** X5.  When every pick is a valid channel position and none of the
    picked channels is the seed channel (it was excluded as bad, say), the
    cell ends with a [ValueError]. *)
Theorem seed_not_picked_is_a_value_error
  (ch_names : list string) (picks : list nat) (seed_ch : string) :
  Forall (fun p => p < length ch_names)%nat picks ->
  Forall (fun p => nth_error ch_names p <> Some seed_ch) picks ->
  exists e,
    SeedTFR.seed_and_targets ch_names picks seed_ch = Py.Raised e /\
    Py.exc_type e = Py.ValueError.
Proof.
  intros Hv Hn. unfold SeedTFR.seed_and_targets, SeedTFR.picks_ch_names.
  destruct (comprehension_get_item_total ch_names picks Hv) as [names En].
  rewrite En. simpl.
  destruct (comprehension_get_item _ _ _ En) as [L Hk].
  unfold Seq.index. rewrite index_from_missing; [simpl; eauto|].
  apply Forall_forall. intros y Hy.
  apply In_nth_error in Hy as [k Hy].
  destruct (nth_error picks k) as [p|] eqn:Ep.
  - rewrite (Hk _ _ Ep) in Hy. rewrite Forall_forall in Hn.
    apply String.eqb_neq. intros ->.
    apply (Hn p); [eapply nth_error_In; eauto|exact Hy].
  - apply nth_error_None in Ep.
    assert (k < length names)%nat by (apply nth_error_Some; congruence). lia.
Qed.

Lemma seed_not_picked_is_a_value_error_witness :
  exists e,
    SeedTFR.seed_and_targets ["MEG 2343"; "EOG 061"; "MEG 2342"]%string
      [2%nat; 1%nat] "MEG 2343" = Py.Raised e /\
    Py.exc_type e = Py.ValueError.
Proof.
  apply seed_not_picked_is_a_value_error.
  - repeat constructor.
  - repeat constructor; discriminate.
Defined.

(** ** Coherency notebook: frequency bands *)

(** X6.  When both band edges are found among the frequencies, at
    positions [i <= j], the band holds the [j - i + 1] values of the row
    from position [i] to position [j]: it starts with the value at the
    lower edge and ends with the value at the upper edge.  When the upper
    edge comes first, the band is empty. *)
Theorem band_includes_both_edges {F : Type} (eqb : F -> F -> bool)
  (freqs row : list F) (lo hi : F) (vs : list F) :
  length row = length freqs ->
  Coherency.band F eqb freqs row lo hi = Py.Returned vs ->
  exists i j,
    Seq.index F eqb lo freqs = Py.Returned i /\
    Seq.index F eqb hi freqs = Py.Returned j /\
    ((i <= j)%nat ->
       length vs = (j - i + 1)%nat /\
       (forall k, (k <= j - i)%nat -> nth_error vs k = nth_error row (i + k)) /\
       (forall k, nth_error vs k <> None -> (k <= j - i)%nat)) /\
    ((j < i)%nat -> vs = []).
Proof.
  intros L. unfold Coherency.band.
  destruct (Seq.index F eqb lo freqs) as [i|] eqn:Ei; [|discriminate].
  destruct (Seq.index F eqb hi freqs) as [j|] eqn:Ej; [|discriminate].
  simpl. intros H; injection H as <-. exists i, j.
  split; [reflexivity|]. split; [reflexivity|].
  destruct (index_from_spec _ _ _ _ _ Ej) as (_ & (y & Hy & _) & _).
  rewrite Nat.sub_0_r in Hy.
  assert (Hj : (j < length row)%nat)
    by (rewrite L; apply nth_error_Some; congruence).
  unfold Seq.slice. split.
  - intros Hij.
    assert (Hlen : length (firstn (j + 1 - i) (skipn i row)) = (j - i + 1)%nat)
      by (rewrite length_firstn, length_skipn; lia).
    split; [exact Hlen|]. split.
    + intros k Hk. rewrite nth_error_firstn.
      destruct (Nat.ltb_spec k (j + 1 - i)); [|lia].
      apply nth_error_skipn.
    + intros k Hk. apply nth_error_Some in Hk. lia.
  - intros Hji. replace (j + 1 - i)%nat with 0%nat by lia. reflexivity.
Qed.

Lemma band_includes_both_edges_witness :
  exists i j,
    Seq.index Z Z.eqb 10 [9; 10; 11; 12; 13] = Py.Returned i /\
    Seq.index Z Z.eqb 12 [9; 10; 11; 12; 13] = Py.Returned j /\
    ((i <= j)%nat ->
       length [2; 3; 4] = (j - i + 1)%nat /\
       (forall k, (k <= j - i)%nat ->
                  nth_error [2; 3; 4] k = nth_error [1; 2; 3; 4; 5] (i + k)) /\
       (forall k, nth_error [2; 3; 4] k <> None -> (k <= j - i)%nat)) /\
    ((j < i)%nat -> [2; 3; 4] = []).
Proof.
  apply (band_includes_both_edges Z.eqb [9; 10; 11; 12; 13] [1; 2; 3; 4; 5] 10 12).
  - reflexivity.
  - reflexivity.
Defined.


(** ** Loops and comprehensions *)

Lemma length_update {A : Type} (xs : list A) : forall i v,
  length (Seq.update A xs i v) = length xs.
Proof.
  induction xs as [|x xs IH]; intros [|i] v; simpl; auto.
Qed.

Lemma nth_error_update {A : Type} (xs : list A) : forall i v k,
  (i < length xs)%nat ->
  nth_error (Seq.update A xs i v) k =
  if (k =? i)%nat then Some v else nth_error xs k.
Proof.
  induction xs as [|x xs IH]; intros [|i] v [|k] H; simpl in *;
    try lia; try reflexivity.
  apply IH. lia.
Qed.

Lemma comprehension_Forall2 {A B : Type} (f : A -> Py.outcome B) :
  forall xs ys,
    Seq.comprehension A B f xs = Py.Returned ys <->
    Forall2 (fun x y => f x = Py.Returned y) xs ys.
Proof.
  induction xs as [|x xs IH]; intros ys; simpl.
  - split.
    + intros H; injection H as <-. constructor.
    + intros H; inversion H. reflexivity.
  - split.
    + destruct (f x) as [y|] eqn:Ey; simpl; [|discriminate].
      destruct (Seq.comprehension A B f xs) as [ys'|] eqn:E; simpl;
        [|discriminate].
      intros H; injection H as <-. constructor; [exact Ey|].
      now apply IH.
    + intros H. inversion H as [|? y ? ys' Hy Hys]; subst.
      rewrite Hy. simpl. apply IH in Hys. rewrite Hys. reflexivity.
Qed.

Lemma comprehension_total {A B : Type} (f : A -> Py.outcome B) :
  forall xs,
    (forall x, In x xs -> exists y, f x = Py.Returned y) ->
    exists ys, Seq.comprehension A B f xs = Py.Returned ys.
Proof.
  induction xs as [|x xs IH]; intros H; simpl; [eauto|].
  destruct (H x (or_introl eq_refl)) as [y ->]. simpl.
  destruct IH as [ys ->]; [intros z Hz; apply H; now right|].
  simpl. eauto.
Qed.

Lemma Forall2_nth_error_both {A B : Type} (R : A -> B -> Prop) :
  forall xs ys, Forall2 R xs ys ->
    length xs = length ys /\
    forall i x y, nth_error xs i = Some x -> nth_error ys i = Some y -> R x y.
Proof.
  induction 1 as [|x y xs ys Hxy H [L IH]]; simpl.
  - split; [reflexivity|]. intros [|i]; discriminate.
  - split; [congruence|]. intros [|i] a b Ha Hb; simpl in *.
    + now injection Ha as <-; injection Hb as <-.
    + eauto.
Qed.

Lemma index_from_found {A : Type} (eqb : A -> A -> bool) (x : A) :
  (forall y, y = x -> eqb y x = true) ->
  forall xs k, In x xs -> exists i, Seq.index_from A eqb k x xs = Py.Returned i.
Proof.
  intros Heq. induction xs as [|y ys IH]; intros k H; simpl; [destruct H|].
  destruct (eqb y x) eqn:E; [eauto|].
  destruct H as [->|H]; [rewrite Heq in E; [discriminate|reflexivity]|].
  now apply IH.
Qed.

(** ** Simulated case 1: every epoch a copy of the first *)

Lemma replicate_loop {A : Type} : forall m k (d : list A),
  (k + m <= length d)%nat ->
  exists out,
    Seq.for_each nat (list A)
      (fun i d => first <- Seq.get_item A d 0 ;; Seq.set_item A d i first)
      (seq k m) d = Py.Returned out /\
    length out = length d /\
    nth_error out 0 = nth_error d 0 /\
    (forall i, (k <= i < k + m)%nat -> nth_error out i = nth_error d 0) /\
    (forall i, (i < k \/ k + m <= i)%nat -> nth_error out i = nth_error d i).
Proof.
  induction m as [|m IH]; intros k d H; cbn [seq Seq.for_each Py.bind].
  - exists d. repeat split; auto. intros i Hi. lia.
  - unfold Seq.get_item at 1.
    destruct (nth_error d 0) as [x|] eqn:E0;
      [|apply nth_error_None in E0; lia].
    cbn [Py.bind]. unfold Seq.set_item at 1.
    destruct (Nat.ltb_spec k (length d)); [|lia]. cbn [Py.bind].
    destruct (IH (S k) (Seq.update A d k x)) as (out & Hr & L & Hz & Hin & Hout);
      [rewrite length_update; lia|].
    assert (U0 : nth_error (Seq.update A d k x) 0 = Some x).
    { rewrite nth_error_update by lia.
      destruct (Nat.eqb_spec 0 k); [reflexivity|exact E0]. }
    exists out. split; [exact Hr|]. split; [now rewrite L, length_update|].
    split; [now rewrite Hz|]. split.
    + intros i Hi. destruct (Nat.eq_dec i k) as [->|Hne].
      * rewrite Hout by lia. rewrite nth_error_update by lia.
        now rewrite Nat.eqb_refl.
      * rewrite Hin by lia. exact U0.
    + intros i Hi. rewrite Hout by lia. rewrite nth_error_update by lia.
      destruct (Nat.eqb_spec i k); [lia|reflexivity].
Qed.

Lemma replicate_loop_fails {A : Type} : forall m k (d : list A),
  (k <= length d < k + m)%nat ->
  Seq.for_each nat (list A)
    (fun i d => first <- Seq.get_item A d 0 ;; Seq.set_item A d i first)
    (seq k m) d = Py.Raised Seq.index_error.
Proof.
  induction m as [|m IH]; intros k d H; cbn [seq Seq.for_each Py.bind]; [lia|].
  unfold Seq.get_item at 1.
  destruct (nth_error d 0) as [x|] eqn:E0; [|reflexivity].
  simpl. unfold Seq.set_item at 1.
  destruct (Nat.ltb_spec k (length d)); [|reflexivity]. cbn [Py.bind].
  apply IH. rewrite length_update. lia.
Qed.

(** X7.  The loop of case 1 run over the first [n_epochs] epochs of the
    data leaves every one of them equal to the first epoch and the epochs
    after them as they were; asked for more epochs than the data has, it
    ends with an [IndexError]. *)
Theorem case1_epochs_repeat_the_first {A : Type} (n_epochs : nat) (data : list A) :
  ((n_epochs <= length data)%nat ->
   exists out,
     OverTrials.replicate_first A n_epochs data = Py.Returned out /\
     length out = length data /\
     (forall i, (i < n_epochs)%nat -> nth_error out i = nth_error data 0) /\
     (forall i, (n_epochs <= i)%nat -> nth_error out i = nth_error data i)) /\
  ((length data < n_epochs)%nat ->
   exists e,
     OverTrials.replicate_first A n_epochs data = Py.Raised e /\
     Py.exc_type e = Py.IndexError).
Proof.
  unfold OverTrials.replicate_first, Seq.range. split.
  - intros H. destruct (replicate_loop n_epochs 0 data H)
      as (out & Hr & L & _ & Hin & Hout).
    exists out. split; [exact Hr|]. split; [exact L|]. split.
    + intros i Hi. apply Hin. lia.
    + intros i Hi. apply Hout. lia.
  - intros H. rewrite replicate_loop_fails by lia.
    exists Seq.index_error. split; reflexivity.
Qed.

(** ** Frequency bands *)

Lemma bound_spec {F : Type} (k : nat) (d : OverTrials.bands F) (out : list F) :
  OverTrials.bound F k d = Py.Returned out ->
  length out = length d /\
  forall i b, nth_error d i = Some b -> nth_error out i = nth_error (snd b) k.
Proof.
  unfold OverTrials.bound, Seq.range. intros H.
  apply comprehension_Forall2 in H.
  apply Forall2_nth_error_both in H as [L H].
  rewrite length_seq in L. split; [congruence|].
  intros i b Hb.
  assert (Hi : (i < length d)%nat) by (apply nth_error_Some; congruence).
  destruct (nth_error out i) as [v|] eqn:Ev;
    [|apply nth_error_None in Ev; lia].
  assert (Hs : nth_error (seq 0 (length d)) i = Some i).
  { rewrite nth_error_nth' with (d := 0%nat) by (rewrite length_seq; lia).
    rewrite seq_nth by lia. reflexivity. }
  specialize (H _ _ _ Hs Ev). cbv beta in H.
  unfold Seq.get_item at 1 in H. unfold OverTrials.values in H.
  rewrite nth_error_map, Hb in H. simpl in H.
  unfold Seq.get_item in H.
  destruct (nth_error (snd b) k); [injection H as <-; reflexivity|discriminate].
Qed.

Lemma bound_total {F : Type} (k : nat) (d : OverTrials.bands F) :
  Forall (fun b => k < length (snd b))%nat d ->
  exists out, OverTrials.bound F k d = Py.Returned out.
Proof.
  intros H. apply comprehension_total. intros f Hf.
  apply in_seq in Hf. unfold Seq.get_item at 1. unfold OverTrials.values.
  rewrite nth_error_map.
  destruct (nth_error d f) as [b|] eqn:Eb;
    [|apply nth_error_None in Eb; lia].
  simpl. rewrite Forall_forall in H.
  specialize (H b (nth_error_In _ _ Eb)).
  unfold Seq.get_item.
  destruct (nth_error (snd b) k) as [v|] eqn:Ev; [eauto|].
  apply nth_error_None in Ev. lia.
Qed.

(** X8.  When every band has a lower and an upper bound and [name] is one
    of the bands, [fmin], [fmax] and the index of the band of interest are
    all found, [fmin] and [fmax] have one entry per band, and the entries
    at the index of interest are the bounds of the band called [name]: the
    index picks, among the results computed per band, those of that
    band. *)
Theorem band_of_interest_lines_up {F : Type}
  (d : OverTrials.bands F) (name : string) :
  Forall (fun b => 2 <= length (snd b))%nat d ->
  In name (OverTrials.keys F d) ->
  exists lo hi k band,
    OverTrials.fmin F d = Py.Returned lo /\
    OverTrials.fmax F d = Py.Returned hi /\
    OverTrials.foi F name d = Py.Returned k /\
    length lo = length d /\ length hi = length d /\
    nth_error d k = Some (name, band) /\
    nth_error lo k = nth_error band 0 /\
    nth_error hi k = nth_error band 1 /\
    forall i b, (i < k)%nat -> nth_error d i = Some b -> fst b <> name.
Proof.
  intros Hb Hn. unfold OverTrials.fmin, OverTrials.fmax.
  destruct (bound_total 0 d) as [lo Elo];
    [eapply Forall_impl; [|exact Hb]; simpl; intros; lia|].
  destruct (bound_total 1 d) as [hi Ehi];
    [eapply Forall_impl; [|exact Hb]; simpl; intros; lia|].
  destruct (index_from_found String.eqb name
              (fun y Hy => proj2 (String.eqb_eq y name) Hy)
              (OverTrials.keys F d) 0%nat Hn) as [k Ek].
  destruct (bound_spec _ _ _ Elo) as [Llo Hlo].
  destruct (bound_spec _ _ _ Ehi) as [Lhi Hhi].
  destruct (index_from_spec _ _ _ _ _ Ek) as (_ & (y & Hy & Ey) & Hfirst).
  rewrite Nat.sub_0_r in Hy, Hfirst. apply String.eqb_eq in Ey. subst y.
  unfold OverTrials.keys in Hy, Hfirst. rewrite nth_error_map in Hy.
  destruct (nth_error d k) as [[nm band]|] eqn:Ed; [|discriminate].
  simpl in Hy. injection Hy as ->.
  exists lo, hi, k, band. unfold OverTrials.foi.
  repeat (split; [solve [eauto]|]).
  split; [apply (Hlo _ _ Ed)|]. split; [apply (Hhi _ _ Ed)|].
  intros i b Hi Hbi Hc.
  specialize (Hfirst i (fst b) Hi). rewrite nth_error_map, Hbi in Hfirst.
  specialize (Hfirst eq_refl). rewrite Hc, String.eqb_refl in Hfirst.
  discriminate.
Qed.

Lemma band_of_interest_lines_up_witness :
  exists lo hi k band,
    OverTrials.fmin Z [("theta", [4; 8]); ("alpha", [8; 13]); ("beta", [13; 30])]%string
      = Py.Returned lo /\
    OverTrials.fmax Z [("theta", [4; 8]); ("alpha", [8; 13]); ("beta", [13; 30])]%string
      = Py.Returned hi /\
    OverTrials.foi Z "alpha" [("theta", [4; 8]); ("alpha", [8; 13]); ("beta", [13; 30])]%string
      = Py.Returned k /\
    length lo = 3%nat /\ length hi = 3%nat /\
    nth_error [("theta", [4; 8]); ("alpha", [8; 13]); ("beta", [13; 30])]%string k
      = Some ("alpha"%string, band) /\
    nth_error lo k = nth_error band 0 /\
    nth_error hi k = nth_error band 1 /\
    forall i b, (i < k)%nat ->
      nth_error [("theta", [4; 8]); ("alpha", [8; 13]); ("beta", [13; 30])]%string i
        = Some b -> fst b <> "alpha"%string.
Proof.
  apply (band_of_interest_lines_up
           [("theta", [4; 8]); ("alpha", [8; 13]); ("beta", [13; 30])]%string
           "alpha").
  - repeat constructor.
  - simpl. auto.
Defined.


(** ** Residuals put end to end *)

Lemma sections_singletons {F : Type} : forall (a : Np.array3 F) n,
  length a = n -> Sampled.sections F 1 n a = map (fun m => [m]) a.
Proof.
  induction a as [|m a IH]; intros n <-; simpl; [reflexivity|].
  f_equal. now apply IH.
Qed.

Lemma concatenate_singletons {F : Type} (C : nat) :
  forall (a : Np.array3 F),
    a <> [] -> Forall (fun m => length m = C) a ->
    exists m,
      Sampled.concatenate F (map (fun m => [m]) a) = Some [m] /\
      length m = C /\
      forall c, (c < C)%nat ->
        nth_error m c = Some (flat_map (fun ep => nth c ep []) a).
Proof.
  induction a as [|x a IH]; intros Hne Hall; [congruence|].
  inversion Hall as [|? ? Hx Ha]; subst.
  destruct a as [|y a].
  - exists x. split; [reflexivity|]. split; [reflexivity|].
    intros c Hc. simpl. rewrite app_nil_r.
    apply nth_error_nth'. exact Hc.
  - destruct (IH ltac:(discriminate) Ha) as (m & Em & Lm & Hm).
    change (Sampled.concatenate F (map (fun m => [m]) (x :: y :: a)))
      with (match Sampled.concatenate F (map (fun m => [m]) (y :: a)) with
            | Some b =>
                if Sampled.same_rows F [x] b
                then Some (Np.map2 (Np.map2 (@app F)) [x] b)
                else None
            | None => None
            end).
    rewrite Em. unfold Sampled.same_rows. simpl.
    rewrite Lm, Nat.eqb_refl. simpl.
    exists (Np.map2 (@app F) x m). split; [reflexivity|].
    split; [apply map2_length; now rewrite Lm|].
    intros c Hc. rewrite nth_error_map2, (Hm c Hc).
    rewrite (nth_error_nth' x []) by lia. reflexivity.
Qed.

Lemma length_flat_map_const {A B : Type} (f : A -> list B) (n : nat) :
  forall xs, Forall (fun x => length (f x) = n) xs ->
    length (flat_map f xs) = (length xs * n)%nat.
Proof.
  induction 1 as [|x xs Hx _ IH]; simpl; [reflexivity|].
  rewrite length_app, Hx, IH. reflexivity.
Qed.

(** X9.  For residuals of shape [n x C x T], the array whose covariance is
    taken has one row per channel, and the row of a channel holds, epoch
    after epoch, the residuals of that channel from sample [model_order]
    on: [n * (T - model_order)] values.  Without any epoch the expression
    fails. *)
Theorem sampled_residuals_are_channel_rows {F : Type}
  (n C T : nat) (residuals : Np.array3 F) (model_order : nat) :
  Np.shape3 n C T residuals ->
  match n with
  | O => Sampled.sampled_residuals F residuals model_order = None
  | S _ =>
      exists m,
        Sampled.sampled_residuals F residuals model_order = Some m /\
        Np.shape2 C (n * (T - model_order)) m /\
        forall c, (c < C)%nat ->
          nth_error m c =
          Some (flat_map (fun ep => skipn model_order (nth c ep [])) residuals)
  end.
Proof.
  intros [Ln Hs]. unfold Sampled.sampled_residuals.
  destruct n as [|e].
  - destruct residuals; [reflexivity|discriminate].
  - assert (La : length (Sampled.from_lag F model_order residuals) = S e)
      by (unfold Sampled.from_lag; rewrite length_map; exact Ln).
    rewrite Ln. unfold Sampled.split.
    rewrite La, Nat.Div0.mod_same, Nat.div_same by lia.
    cbn [Nat.eqb]. rewrite (sections_singletons _ _ La).
    destruct (concatenate_singletons C (Sampled.from_lag F model_order residuals))
      as (m & Em & Lm & Hm).
    + intros E. rewrite E in La. discriminate.
    + unfold Sampled.from_lag. apply Forall_map.
      eapply Forall_impl; [|exact Hs]. intros ep [Le _].
      rewrite length_map. exact Le.
    + rewrite Em. exists m. split; [reflexivity|].
      assert (Hrow : forall c, (c < C)%nat ->
                nth_error m c =
                Some (flat_map (fun ep => skipn model_order (nth c ep []))
                        residuals)).
      { intros c Hc. rewrite (Hm c Hc). f_equal.
        unfold Sampled.from_lag. rewrite flat_map_concat_map, map_map.
        rewrite flat_map_concat_map. f_equal.
        apply map_ext_in. intros ep Hep.
        rewrite Forall_forall in Hs. destruct (Hs ep Hep) as [Le _].
        rewrite (nth_indep _ [] (skipn model_order [])) by (rewrite length_map; lia).
        apply map_nth. }
      split; [|exact Hrow]. split; [exact Lm|].
      apply Forall_forall. intros r Hr.
      apply In_nth_error in Hr as [c Hc].
      assert (Hlt : (c < C)%nat)
        by (rewrite <- Lm; apply nth_error_Some; congruence).
      rewrite (Hrow c Hlt) in Hc. injection Hc as <-.
      rewrite <- Ln. apply length_flat_map_const.
      eapply Forall_impl; [|exact Hs]. intros ep [Le Hr].
      rewrite length_skipn.
      assert (Hin : In (nth c ep []) ep) by (apply nth_In; lia).
      rewrite Forall_forall in Hr. now rewrite (Hr _ Hin).
Qed.

Lemma sampled_residuals_are_channel_rows_witness :
  exists m,
    Sampled.sampled_residuals Z
      [[[1; 2; 3]; [4; 5; 6]]; [[7; 8; 9]; [10; 11; 12]]] 1 = Some m /\
    Np.shape2 2 (2 * (3 - 1)) m /\
    forall c, (c < 2)%nat ->
      nth_error m c =
      Some (flat_map (fun ep => skipn 1 (nth c ep []))
              [[[1; 2; 3]; [4; 5; 6]]; [[7; 8; 9]; [10; 11; 12]]]).
Proof.
  apply (sampled_residuals_are_channel_rows 2 2 3
           [[[1; 2; 3]; [4; 5; 6]]; [[7; 8; 9]; [10; 11; 12]]] 1).
  split; [reflexivity|]. repeat constructor.
Defined.

(** ** The diagonal of the correlation matrix *)

Lemma nth_error_assign_stride {F : Type} (zero : F) (step : nat) :
  forall flat k p,
    nth_error (Envelope.assign_stride F zero step k flat) p =
    option_map (fun x => if ((k + p) mod step =? 0)%nat then zero else x)
      (nth_error flat p).
Proof.
  induction flat as [|x flat IH]; intros k [|p]; simpl; try reflexivity.
  - now rewrite Nat.add_0_r.
  - rewrite IH. now replace (S k + p)%nat with (k + S p)%nat by lia.
Qed.

Lemma length_assign_stride {F : Type} (zero : F) (step : nat) :
  forall flat k,
    length (Envelope.assign_stride F zero step k flat) = length flat.
Proof.
  induction flat as [|x flat IH]; intros k; simpl; auto.
Qed.

Lemma nth_error_rows_of {F : Type} (cols : nat) :
  forall rows (flat : list F) i,
    (i < rows)%nat ->
    nth_error (Envelope.rows_of F rows cols flat) i =
    Some (firstn cols (skipn (i * cols) flat)).
Proof.
  induction rows as [|r IH]; intros flat [|i] H; simpl; try lia.
  - reflexivity.
  - rewrite IH by lia. now rewrite skipn_skipn, Nat.add_comm.
Qed.

Lemma length_rows_of {F : Type} (cols : nat) :
  forall rows (flat : list F), length (Envelope.rows_of F rows cols flat) = rows.
Proof.
  induction rows as [|r IH]; intros flat; simpl; auto.
Qed.

Lemma nth_error_concat {F : Type} (cols : nat) :
  forall (a : Np.array2 F) i j,
    Forall (fun r => length r = cols) a -> (j < cols)%nat ->
    nth_error (concat a) (i * cols + j) = Np.item2 a i j.
Proof.
  induction a as [|r a IH]; intros i j Ha Hj.
  - unfold Np.item2. simpl. now rewrite !nth_error_nil.
  - inversion Ha as [|? ? Hr Ha']; subst. simpl. destruct i as [|i].
    + simpl. unfold Np.item2. simpl. apply nth_error_app1. lia.
    + rewrite nth_error_app2 by (simpl; lia).
      replace (S i * length r + j - length r)%nat with (i * length r + j)%nat
        by (simpl; lia).
      rewrite IH by assumption. reflexivity.
Qed.

Lemma length_concat_shape {F : Type} (cols : nat) :
  forall a : Np.array2 F,
    Forall (fun r => length r = cols) a ->
    length (concat a) = (length a * cols)%nat.
Proof.
  induction 1 as [|r a Hr _ IH]; simpl; [reflexivity|].
  rewrite length_app, Hr, IH. reflexivity.
Qed.

Lemma stride_hits_diagonal (n i j : nat) :
  (i < n)%nat -> (j < n)%nat ->
  ((i * n + j) mod (n + 1) =? 0)%nat = (i =? j)%nat.
Proof.
  intros Hi Hj. destruct (Nat.eqb_spec i j) as [->|Hne].
  - replace (j * n + j)%nat with (0 + j * (n + 1))%nat by lia.
    rewrite Nat.Div0.mod_add. rewrite Nat.mod_small by lia. reflexivity.
  - apply Nat.eqb_neq. destruct (Nat.lt_ge_cases i j).
    + replace (i * n + j)%nat with ((j - i) + i * (n + 1))%nat by lia.
      rewrite Nat.Div0.mod_add. rewrite Nat.mod_small by lia. lia.
    + replace (i * n + j)%nat with ((n + 1 + j - i) + (i - 1) * (n + 1))%nat
        by nia.
      rewrite Nat.Div0.mod_add. rewrite Nat.mod_small by lia. lia.
Qed.

(** X10.  On a square matrix, the strided assignment through the flat
    view sets exactly the diagonal to zero: the result has the shape of
    the matrix, zero at every [(i, i)] and the old value everywhere
    else. *)
Theorem flat_stride_zeroes_the_diagonal {F : Type} (zero : F)
  (n : nat) (corr : Np.array2 F) :
  Np.shape2 n n corr ->
  Np.shape2 n n (Envelope.zero_diagonal F zero corr) /\
  forall i j, (i < n)%nat -> (j < n)%nat ->
    Np.item2 (Envelope.zero_diagonal F zero corr) i j =
    if (i =? j)%nat then Some zero else Np.item2 corr i j.
Proof.
  intros [Ln Hs]. unfold Envelope.zero_diagonal.
  assert (Hc : (0 < n)%nat -> Envelope.n_cols F corr = n).
  { intros Hn. destruct corr as [|r a]; simpl in *; [lia|].
    now inversion Hs. }
  assert (Lf : length (Envelope.assign_stride F zero (length corr + 1) 0
                         (concat corr)) = (n * n)%nat).
  { now rewrite length_assign_stride, (length_concat_shape n corr Hs), Ln. }
  rewrite Ln. split.
  - split; [apply length_rows_of|].
    apply Forall_forall. intros r Hr. apply In_nth_error in Hr as [i Hi].
    assert (Hlt : (i < n)%nat).
    { rewrite <- (length_rows_of (Envelope.n_cols F corr) n
                    (Envelope.assign_stride F zero (n + 1) 0 (concat corr))).
      apply nth_error_Some. congruence. }
    rewrite nth_error_rows_of in Hi by exact Hlt. injection Hi as <-.
    rewrite Hc by lia. rewrite length_firstn, length_skipn.
    rewrite Ln in Lf. rewrite Lf. nia.
  - intros i j Hi Hj. unfold Np.item2 at 1.
    rewrite nth_error_rows_of by exact Hi. rewrite Hc by lia.
    rewrite nth_error_firstn. destruct (Nat.ltb_spec j n); [|lia].
    rewrite nth_error_skipn, nth_error_assign_stride.
    rewrite (nth_error_concat n corr i j Hs Hj). simpl.
    rewrite stride_hits_diagonal by assumption.
    destruct (shape2_item n n corr i j (conj Ln Hs) Hi Hj) as [v ->].
    simpl. destruct (i =? j)%nat; reflexivity.
Qed.

Lemma flat_stride_zeroes_the_diagonal_witness :
  Np.shape2 3 3 (Envelope.zero_diagonal Z 0 [[1; 2; 3]; [4; 5; 6]; [7; 8; 9]]) /\
  forall i j, (i < 3)%nat -> (j < 3)%nat ->
    Np.item2 (Envelope.zero_diagonal Z 0 [[1; 2; 3]; [4; 5; 6]; [7; 8; 9]]) i j =
    if (i =? j)%nat then Some 0
    else Np.item2 [[1; 2; 3]; [4; 5; 6]; [7; 8; 9]] i j.
Proof.
  apply (flat_stride_zeroes_the_diagonal 0 3 [[1; 2; 3]; [4; 5; 6]; [7; 8; 9]]).
  split; [reflexivity|]. repeat constructor.
Defined.


(** ** The order of float64 values *)

Lemma leb_reflexive x : F64.is_nan x = false -> F64.leb x x = true.
Proof.
  unfold F64.leb, SFleb, SFcompare.
  destruct x as [s|s| |s m e]; try destruct s; simpl; try reflexivity;
    try discriminate; intros _; rewrite Z.compare_refl;
    change (Pos.compare_cont Eq m m) with (Pos.compare m m);
    now rewrite Pos.compare_refl.
Qed.

Lemma leb_total x y :
  F64.is_nan x = false -> F64.is_nan y = false ->
  F64.leb x y = false -> F64.leb y x = true.
Proof.
  unfold F64.leb, SFleb, SFcompare.
  destruct x as [sx|sx| |sx mx ex], y as [sy|sy| |sy my ey];
    try destruct sx; try destruct sy; simpl; try reflexivity;
    try discriminate; intros _ _;
    rewrite (Z.compare_antisym ex ey);
    change (Pos.compare_cont Eq mx my) with (Pos.compare mx my);
    change (Pos.compare_cont Eq my mx) with (Pos.compare my mx);
    rewrite (Pos.compare_antisym mx my);
    destruct (ex ?= ey); simpl; try reflexivity; try discriminate;
    destruct (Pos.compare mx my); simpl; try reflexivity; discriminate.
Qed.

Lemma leb_transitive x y z :
  F64.leb x y = true -> F64.leb y z = true -> F64.leb x z = true.
Proof.
  unfold F64.leb, SFleb, SFcompare.
  destruct x as [sx|sx| |sx mx ex], y as [sy|sy| |sy my ey],
           z as [sz|sz| |sz mz ez];
    try destruct sx; try destruct sy; try destruct sz; simpl;
    try reflexivity; try discriminate; try (intros; discriminate);
    change (Pos.compare_cont Eq mx my) with (Pos.compare mx my);
    change (Pos.compare_cont Eq my mz) with (Pos.compare my mz);
    change (Pos.compare_cont Eq mx mz) with (Pos.compare mx mz);
    destruct (Z.compare_spec ex ey); destruct (Z.compare_spec ey ez);
    destruct (Z.compare_spec ex ez); try lia; simpl;
    try reflexivity; try discriminate; try (intros; discriminate);
    subst;
    destruct (Pos.compare_spec mx my); destruct (Pos.compare_spec my mz);
    destruct (Pos.compare_spec mx mz); try lia; simpl;
    try reflexivity; try discriminate; try (intros; discriminate).
Qed.

Lemma leb_not_nan x y : F64.leb x y = true ->
  F64.is_nan x = false /\ F64.is_nan y = false.
Proof.
  unfold F64.leb, SFleb, SFcompare.
  destruct x as [sx|sx| |sx mx ex], y as [sy|sy| |sy my ey];
    simpl; try discriminate; auto.
Qed.

(** ** The peak of the global connectivity *)

Lemma early_is_a_prefix times :
  Peak.ascending times ->
  exists k,
    (k <= length times)%nat /\
    Peak.early times = repeat true k ++ repeat false (length times - k).
Proof.
  induction 1 as [|t times Hs [k [Hk IH]] Ht].
  - exists 0%nat. split; [simpl; lia|reflexivity].
  - simpl. destruct (F64.leb t Peak.half) eqn:E.
    + exists (S k). split; [lia|]. simpl. now rewrite IH.
    + exists 0%nat. split; [lia|]. simpl. f_equal.
      unfold Peak.early.
      clear IH Hk k Hs. induction Ht as [|u times Hu Ht IH]; [reflexivity|].
      simpl. rewrite IH. f_equal.
      destruct (F64.leb u Peak.half) eqn:Eu; [|reflexivity].
      now rewrite (leb_transitive _ _ _ Hu Eu) in E.
Qed.

Lemma compress_none {A : Type} : forall n (xs : list A),
  filter fst (combine (repeat false n) xs) = [].
Proof.
  induction n as [|n IH]; intros [|x xs]; simpl; auto.
Qed.

Lemma compress_prefix {A : Type} (k : nat) : forall (xs : list A),
  (k <= length xs)%nat ->
  map snd (filter fst (combine (repeat true k ++ repeat false (length xs - k)) xs))
  = firstn k xs.
Proof.
  induction k as [|k IH]; intros xs H.
  - cbn [repeat app firstn]. now rewrite compress_none.
  - destruct xs as [|x xs]; simpl in *; [lia|].
    f_equal. apply IH. lia.
Qed.

Lemma argmax_from_spec : forall xs pre best ibest,
  nth_error pre ibest = Some best ->
  Forall (fun v => F64.leb v best = true) pre ->
  Forall (fun v => F64.is_nan v = false) xs ->
  exists v,
    nth_error (pre ++ xs) (Peak.argmax_from best ibest (length pre) xs) = Some v /\
    Forall (fun w => F64.leb w v = true) (pre ++ xs).
Proof.
  induction xs as [|x xs IH]; intros pre best ibest Hb Hpre Hxs; simpl.
  - exists best. rewrite app_nil_r. now split.
  - inversion Hxs as [|? ? Hx Hxs']; subst.
    assert (Hnb : F64.is_nan best = false).
    { rewrite Forall_forall in Hpre.
      apply (leb_not_nan best best), Hpre. eapply nth_error_In; eauto. }
    rewrite Hnb.
    replace (pre ++ x :: xs) with ((pre ++ [x]) ++ xs)
      by (rewrite <- app_assoc; reflexivity).
    replace (S (length pre)) with (length (pre ++ [x]))
      by (rewrite length_app; simpl; lia).
    destruct (F64.leb x best) eqn:E.
    + apply IH; [| |exact Hxs'].
      * rewrite nth_error_app1; [exact Hb|]. apply nth_error_Some. congruence.
      * apply Forall_app. split; [exact Hpre|]. now constructor.
    + apply IH; [| |exact Hxs'].
      * rewrite nth_error_app2 by lia. now rewrite Nat.sub_diag.
      * assert (Hbx : F64.leb best x = true) by now apply leb_total.
        apply Forall_app. split.
        -- eapply Forall_impl; [|exact Hpre]. intros v Hv.
           exact (leb_transitive _ _ _ Hv Hbx).
        -- constructor; [now apply leb_reflexive|constructor].
Qed.

(** X11.  With ascending times and no NaN in the global connectivity,
    the index found in the samples up to 0.5 s is also the index of that
    sample among all of them: the time printed is at most 0.5 s, and the
    global connectivity at that time is the largest of all samples up to
    0.5 s. *)
Theorem peak_is_the_largest_early_sample
  (times global_con_epochs : list F64.t) (t_con_max : nat) (t : F64.t) :
  Peak.ascending times ->
  Forall (fun v => F64.is_nan v = false) global_con_epochs ->
  Peak.peak_time times global_con_epochs = Py.Returned (t_con_max, t) ->
  nth_error times t_con_max = Some t /\
  F64.leb t Peak.half = true /\
  exists v,
    nth_error global_con_epochs t_con_max = Some v /\
    forall j tj vj,
      nth_error times j = Some tj -> F64.leb tj Peak.half = true ->
      nth_error global_con_epochs j = Some vj ->
      F64.leb vj v = true.
Proof.
  intros Hasc Hnan. unfold Peak.peak_time, Seq.compress.
  destruct (Nat.eqb_spec (length (Peak.early times)) (length global_con_epochs))
    as [L|]; [|discriminate].
  unfold Peak.early in L. rewrite length_map in L. cbn [Py.bind].
  destruct (early_is_a_prefix times Hasc) as (k & Hk & Ek).
  rewrite Ek, L, compress_prefix by lia.
  destruct (firstn k global_con_epochs) as [|x rest] eqn:Ef; [discriminate|].
  cbn [Peak.argmax Py.bind].
  assert (Hf : Forall (fun v => F64.is_nan v = false) (x :: rest)).
  { rewrite <- Ef. apply Forall_forall. intros v Hv.
    rewrite Forall_forall in Hnan. apply Hnan.
    rewrite <- (firstn_skipn k global_con_epochs). apply in_or_app. now left. }
  inversion Hf as [|? ? Hx Hrest]; subst.
  destruct (argmax_from_spec rest [x] x 0%nat eq_refl) as (v & Hv & Hmax);
    [constructor; [now apply leb_reflexive|constructor]|exact Hrest|].
  cbn [length app] in Hv, Hmax. rewrite <- Ef in Hv, Hmax.
  set (r := Peak.argmax_from x 0 1 rest) in *.
  assert (Hr : (r < k)%nat).
  { assert (r < length (firstn k global_con_epochs))%nat
      by (apply nth_error_Some; congruence).
    rewrite length_firstn in H. lia. }
  rewrite nth_error_firstn in Hv. destruct (Nat.ltb_spec r k); [|lia].
  unfold Seq.get_item.
  destruct (nth_error times r) as [tr|] eqn:Et; [|discriminate].
  cbn [Py.bind]. intros Heq; injection Heq as <- <-.
  assert (Hprefix : forall j tj, nth_error times j = Some tj ->
            F64.leb tj Peak.half = ((j <? k)%nat)).
  { intros j tj Hj.
    assert (Hm : nth_error (Peak.early times) j = Some (F64.leb tj Peak.half))
      by (unfold Peak.early; rewrite nth_error_map, Hj; reflexivity).
    rewrite Ek in Hm. destruct (Nat.ltb_spec j k).
    - rewrite nth_error_app1 in Hm by (rewrite repeat_length; lia).
      apply nth_error_In, repeat_spec in Hm. exact Hm.
    - rewrite nth_error_app2 in Hm by (rewrite repeat_length; lia).
      apply nth_error_In, repeat_spec in Hm. exact Hm. }
  split; [exact Et|]. split.
  - rewrite (Hprefix _ _ Et). now apply Nat.ltb_lt.
  - exists v. split; [exact Hv|].
    intros j tj vj Hj Hle Hvj. rewrite (Hprefix _ _ Hj) in Hle.
    apply Nat.ltb_lt in Hle. rewrite Forall_forall in Hmax. apply Hmax.
    apply (nth_error_In _ j). rewrite nth_error_firstn.
    destruct (Nat.ltb_spec j k); [exact Hvj|lia].
Qed.

Lemma peak_is_the_largest_early_sample_witness :
  nth_error [F64.zero; S754_finite false 4503599627370496 (-54);
             S754_finite false 6755399441055744 (-53)] 1
    = Some (S754_finite false 4503599627370496 (-54)) /\
  F64.leb (S754_finite false 4503599627370496 (-54)) Peak.half = true /\
  exists v,
    nth_error [F64.of_Z 1; F64.of_Z 3; F64.of_Z 5] 1 = Some v /\
    forall j tj vj,
      nth_error [F64.zero; S754_finite false 4503599627370496 (-54);
                 S754_finite false 6755399441055744 (-53)] j = Some tj ->
      F64.leb tj Peak.half = true ->
      nth_error [F64.of_Z 1; F64.of_Z 3; F64.of_Z 5] j = Some vj ->
      F64.leb vj v = true.
Proof.
  apply (peak_is_the_largest_early_sample
           [F64.zero; S754_finite false 4503599627370496 (-54);
            S754_finite false 6755399441055744 (-53)]
           [F64.of_Z 1; F64.of_Z 3; F64.of_Z 5] 1%nat
           (S754_finite false 4503599627370496 (-54))).
  - repeat constructor.
  - repeat constructor.
  - vm_compute. reflexivity.
Defined.

(** X12.  When no sample lies at or before 0.5 s (also when there is no
    sample at all), nothing is left to take the maximum of and the cell
    ends with a [ValueError]; when the times and the global connectivity
    differ in length, the mask does not fit and it is an [IndexError]. *)
Theorem peak_needs_an_early_sample (times global_con_epochs : list F64.t) :
  (length times = length global_con_epochs ->
   Forall (fun t => F64.leb t Peak.half = false) times ->
   exists e,
     Peak.peak_time times global_con_epochs = Py.Raised e /\
     Py.exc_type e = Py.ValueError) /\
  (length times <> length global_con_epochs ->
   exists e,
     Peak.peak_time times global_con_epochs = Py.Raised e /\
     Py.exc_type e = Py.IndexError).
Proof.
  unfold Peak.peak_time, Seq.compress. split.
  - intros L Hall.
    assert (E : Peak.early times = repeat false (length global_con_epochs)).
    { rewrite <- L. clear L. unfold Peak.early.
      induction Hall as [|t times Ht _ IH]; [reflexivity|].
      simpl. now rewrite Ht, IH. }
    rewrite E, repeat_length, Nat.eqb_refl, compress_none.
    exists Peak.empty_error. split; reflexivity.
  - intros L. unfold Peak.early. rewrite length_map.
    destruct (Nat.eqb_spec (length times) (length global_con_epochs));
      [contradiction|].
    exists Seq.index_error. split; reflexivity.
Qed.


(** ** The grid of connectivity spectra *)

Lemma for_each_appends {A B : Type} (body : A -> list B -> Py.outcome (list B))
  (g : A -> list B) :
  forall xs l,
    (forall x, In x xs -> forall l, body x l = Py.Returned (l ++ g x)) ->
    Seq.for_each A (list B) body xs l = Py.Returned (l ++ flat_map g xs).
Proof.
  induction xs as [|x xs IH]; intros l H; simpl.
  - now rewrite app_nil_r.
  - rewrite (H x (or_introl eq_refl)). simpl.
    rewrite IH by (intros y Hy; apply H; now right).
    now rewrite app_assoc.
Qed.

Lemma for_each_app {A S : Type} (body : A -> S -> Py.outcome S) :
  forall xs ys s,
    Seq.for_each A S body (xs ++ ys) s =
    (s' <- Seq.for_each A S body xs s ;; Seq.for_each A S body ys s').
Proof.
  induction xs as [|x xs IH]; intros ys s; simpl; [reflexivity|].
  destruct (body x s) as [s'|e]; simpl; [apply IH|reflexivity].
Qed.

Lemma panel_grid (n i j : nat) :
  (i < n)%nat -> (j < n)%nat ->
  Spectrum.panel (Spectrum.Grid n n) i j = Py.Returned (i, j).
Proof.
  intros Hi Hj. simpl.
  destruct (Nat.ltb_spec i n); [|lia]. destruct (Nat.ltb_spec j n); [|lia].
  reflexivity.
Qed.

Lemma dense_square (n i j : nat) :
  (i < n)%nat -> (j < n)%nat -> Spectrum.dense n n i j = Py.Returned (i, j).
Proof.
  intros Hi Hj. unfold Spectrum.dense.
  destruct (Nat.ltb_spec i n); [|lia]. destruct (Nat.ltb_spec j n); [|lia].
  reflexivity.
Qed.

Lemma get_item_nth (names : list string) (i : nat) :
  (i < length names)%nat ->
  Seq.get_item string names i = Py.Returned (nth i names EmptyString).
Proof.
  intros H. unfold Seq.get_item. now rewrite (nth_error_nth' names EmptyString H).
Qed.

Lemma entry_calls (n : nat) (names : list string) (i j : nat) (l : Spectrum.log) :
  (j <= i < n)%nat -> (i = 0%nat \/ i < length names)%nat ->
  Spectrum.entry n n names (Spectrum.Grid n n) i j l =
  Py.Returned (l ++ Spectrum.calls_of_entry n names i j).
Proof.
  intros Hij Hn. unfold Spectrum.entry, Spectrum.calls_of_entry.
  destruct (Nat.eqb_spec i j) as [->|Hne].
  - rewrite panel_grid by lia. reflexivity.
  - unfold Spectrum.band_limits. cbn [Seq.for_each].
    rewrite !(panel_grid n i j), !(panel_grid n j i), !(dense_square n i j)
      by lia.
    cbn [Py.bind fst snd].
    destruct (Nat.eqb_spec j 0) as [->|Hj];
      destruct (Nat.eqb_spec i (n - 1)) as [Hi|Hi];
      rewrite ?(panel_grid n i 0), ?(panel_grid n 0 i), ?(panel_grid n i j),
        ?(get_item_nth names i), ?(get_item_nth names j), ?(get_item_nth names 0)
        by lia;
      cbn [Py.bind flat_map app]; rewrite <- ?app_assoc; reflexivity.
Qed.

Lemma grid_log (n : nat) (names : list string) :
  (2 <= n)%nat -> (n <= length names)%nat ->
  Spectrum.grid n n names =
  Py.Returned
    (flat_map (fun i => flat_map (Spectrum.calls_of_entry n names i) (seq 0 (i + 1)))
       (seq 0 n)).
Proof.
  intros Hn Hnames. unfold Spectrum.grid, Spectrum.subplots.
  destruct (Nat.eqb_spec n 0); [lia|]. destruct (Nat.eqb_spec n 1); [lia|].
  cbn [andb Py.bind]. unfold Spectrum.rows, Seq.range.
  rewrite (for_each_appends _
             (fun i => flat_map (Spectrum.calls_of_entry n names i) (seq 0 (i + 1)))).
  - reflexivity.
  - intros i Hi l. apply in_seq in Hi. apply for_each_appends.
    intros j Hj l'. apply in_seq in Hj. apply entry_calls; lia.
Qed.

Lemma in_grid_log (n : nat) (names : list string) (c : Spectrum.call) :
  In c (flat_map (fun i => flat_map (Spectrum.calls_of_entry n names i)
                             (seq 0 (i + 1))) (seq 0 n)) <->
  exists i j, (j <= i < n)%nat /\ In c (Spectrum.calls_of_entry n names i j).
Proof.
  rewrite in_flat_map. split.
  - intros (i & Hi & H). apply in_flat_map in H as (j & Hj & H).
    apply in_seq in Hi, Hj. exists i, j. split; [lia|exact H].
  - intros (i & j & Hij & H). exists i. split; [apply in_seq; lia|].
    apply in_flat_map. exists j. split; [apply in_seq; lia|exact H].
Qed.

Ltac entry_cases H :=
  unfold Spectrum.calls_of_entry in H;
  repeat match type of H with
         | context [Nat.eqb ?a ?b] => destruct (Nat.eqb_spec a b)
         end;
  simpl in H;
  repeat match type of H with
         | _ \/ _ => destruct H as [H|H]
         | False => destruct H
         end;
  try discriminate H.

(** X13.  With at least two rows and a name for each, the loop runs to
    its end; every panel off the diagonal gets a curve, the one of the
    entry below the diagonal at the panel or at its mirror image, so
    that the upper half of the data is never read; the panels on the
    diagonal are switched off and get no curve. *)
Theorem grid_mirrors_the_lower_triangle (n : nat) (names : list string) :
  (2 <= n)%nat -> (n <= length names)%nat ->
  exists l,
    Spectrum.grid n n names = Py.Returned l /\
    (forall r c i j,
       In (Spectrum.plot (r, c) i j) l <->
       (r < n /\ c < n /\ r <> c /\ i = Nat.max r c /\ j = Nat.min r c)%nat) /\
    (forall r c,
       In (Spectrum.set_axis_off (r, c)) l <-> (r < n /\ r = c)%nat).
Proof.
  intros Hn Hnames. rewrite (grid_log n names Hn Hnames).
  eexists. split; [reflexivity|]. split.
  - intros r c i j. rewrite in_grid_log. split.
    + intros (i0 & j0 & Hij & H). entry_cases H;
        injection H as <- <- <- <-; lia.
    + intros (Hr & Hc & Hne & -> & ->).
      exists (Nat.max r c), (Nat.min r c). split; [lia|].
      unfold Spectrum.calls_of_entry.
      destruct (Nat.eqb_spec (Nat.max r c) (Nat.min r c)); [lia|].
      destruct (Nat.max_spec r c) as [[Hlt E]|[Hlt E]];
        destruct (Nat.min_spec r c) as [[Hlt' E']|[Hlt' E']]; try lia.
      * rewrite E, E'. right. left. reflexivity.
      * rewrite E, E'. left. reflexivity.
  - intros r c. rewrite in_grid_log. split.
    + intros (i0 & j0 & Hij & H). entry_cases H.
      injection H as <- <-. lia.
    + intros (Hr & <-). exists r, r. split; [lia|].
      unfold Spectrum.calls_of_entry. rewrite Nat.eqb_refl. now left.
Qed.

Lemma grid_mirrors_the_lower_triangle_witness :
  exists l,
    Spectrum.grid 4 4 ["Aud-lh"; "Aud-rh"; "Vis-lh"; "Vis-rh"]%string
      = Py.Returned l /\
    (forall r c i j,
       In (Spectrum.plot (r, c) i j) l <->
       (r < 4 /\ c < 4 /\ r <> c /\ i = Nat.max r c /\ j = Nat.min r c)%nat) /\
    (forall r c,
       In (Spectrum.set_axis_off (r, c)) l <-> (r < 4 /\ r = c)%nat).
Proof.
  apply (grid_mirrors_the_lower_triangle 4
           ["Aud-lh"; "Aud-rh"; "Vis-lh"; "Vis-rh"]%string).
  - lia.
  - simpl. lia.
Defined.

(** X14.  In the same run the labels go where the lower triangle meets
    the border: the panels of the first column, from the second row on,
    get the name of their row as y label; the panels of the first row,
    from the second column on, the name of their column as title; the
    panels of the last row, up to the last column but one, the name of
    their column as x label.  No other panel gets a label. *)
Theorem grid_labels_the_border (n : nat) (names : list string) :
  (2 <= n)%nat -> (n <= length names)%nat ->
  exists l,
    Spectrum.grid n n names = Py.Returned l /\
    (forall r c s,
       In (Spectrum.set_ylabel (r, c) s) l <->
       (0 < r < n /\ c = 0)%nat /\ nth_error names r = Some s) /\
    (forall r c s,
       In (Spectrum.set_title (r, c) s) l <->
       (r = 0 /\ 0 < c < n)%nat /\ nth_error names c = Some s) /\
    (forall r c s,
       In (Spectrum.set_xlabel (r, c) s) l <->
       (r = n - 1 /\ c < n - 1)%nat /\ nth_error names c = Some s).
Proof.
  intros Hn Hnames. rewrite (grid_log n names Hn Hnames).
  eexists. split; [reflexivity|].
  assert (Hnth : forall i s, (i < n)%nat ->
            nth i names EmptyString = s <-> nth_error names i = Some s).
  { intros i s Hi. rewrite (nth_error_nth' names EmptyString) by lia.
    split; [now intros ->|now intros [= ->]]. }
  split; [|split].
  - intros r c s. rewrite in_grid_log. split.
    + intros (i0 & j0 & Hij & H). entry_cases H;
        injection H as <- <- <-; (split; [lia|apply Hnth; [lia|reflexivity]]).
    + intros ((Hr & ->) & Hs). exists r, 0%nat. split; [lia|].
      apply Hnth in Hs; [|lia]. subst s.
      unfold Spectrum.calls_of_entry.
      destruct (Nat.eqb_spec r 0); [lia|]. cbn [Nat.eqb].
      right. right. left. reflexivity.
  - intros r c s. rewrite in_grid_log. split.
    + intros (i0 & j0 & Hij & H). entry_cases H;
        injection H as <- <- <-; (split; [lia|apply Hnth; [lia|reflexivity]]).
    + intros ((-> & Hc) & Hs). exists c, 0%nat. split; [lia|].
      apply Hnth in Hs; [|lia]. subst s.
      unfold Spectrum.calls_of_entry.
      destruct (Nat.eqb_spec c 0); [lia|]. cbn [Nat.eqb].
      right. right. right. left. reflexivity.
  - intros r c s. rewrite in_grid_log. split.
    + intros (i0 & j0 & Hij & H). entry_cases H;
        injection H as <- <- <-; (split; [lia|apply Hnth; [lia|reflexivity]]).
    + intros ((-> & Hc) & Hs). exists (n - 1)%nat, c. split; [lia|].
      apply Hnth in Hs; [|lia]. subst s.
      unfold Spectrum.calls_of_entry.
      destruct (Nat.eqb_spec (n - 1) c); [lia|]. rewrite Nat.eqb_refl.
      destruct (Nat.eqb_spec c 0); simpl; auto 10.
Qed.

Lemma grid_labels_the_border_witness :
  exists l,
    Spectrum.grid 4 4 ["Aud-lh"; "Aud-rh"; "Vis-lh"; "Vis-rh"]%string
      = Py.Returned l /\
    (forall r c s,
       In (Spectrum.set_ylabel (r, c) s) l <->
       (0 < r < 4 /\ c = 0)%nat /\
       nth_error ["Aud-lh"; "Aud-rh"; "Vis-lh"; "Vis-rh"]%string r = Some s) /\
    (forall r c s,
       In (Spectrum.set_title (r, c) s) l <->
       (r = 0 /\ 0 < c < 4)%nat /\
       nth_error ["Aud-lh"; "Aud-rh"; "Vis-lh"; "Vis-rh"]%string c = Some s) /\
    (forall r c s,
       In (Spectrum.set_xlabel (r, c) s) l <->
       (r = 4 - 1 /\ c < 4 - 1)%nat /\
       nth_error ["Aud-lh"; "Aud-rh"; "Vis-lh"; "Vis-rh"]%string c = Some s).
Proof.
  apply (grid_labels_the_border 4
           ["Aud-lh"; "Aud-rh"; "Vis-lh"; "Vis-rh"]%string).
  - lia.
  - simpl. lia.
Defined.

Lemma entry_without_name (n : nat) (names : list string) (i : nat)
  (l : Spectrum.log) :
  (0 < i < n)%nat -> (length names <= i)%nat ->
  Spectrum.entry n n names (Spectrum.Grid n n) i 0 l = Py.Raised Seq.index_error.
Proof.
  intros Hi Hn. unfold Spectrum.entry.
  destruct (Nat.eqb_spec i 0); [lia|].
  rewrite !(panel_grid n i 0), !(panel_grid n 0 i), !(dense_square n i 0) by lia.
  cbn [Py.bind Nat.eqb]. unfold Seq.get_item at 1.
  destruct (nth_error names i) eqn:E; [|reflexivity].
  assert (i < length names)%nat by (apply nth_error_Some; congruence). lia.
Qed.

(** X15.  The loop needs a grid of panels and a name for every row:
    without any row [plt.subplots] refuses with a [ValueError]; with one row
    [axes] is a single panel and indexing it is a [TypeError]; with two
    rows or more and fewer names than rows the loop stops with an
    [IndexError]. *)
Theorem grid_needs_rows_and_names (n : nat) (names : list string) :
  (n = 0%nat ->
   exists e, Spectrum.grid n n names = Py.Raised e /\
             Py.exc_type e = Py.ValueError) /\
  (n = 1%nat ->
   exists e, Spectrum.grid n n names = Py.Raised e /\
             Py.exc_type e = Py.TypeError) /\
  ((2 <= n)%nat -> (length names < n)%nat ->
   exists e, Spectrum.grid n n names = Py.Raised e /\
             Py.exc_type e = Py.IndexError).
Proof.
  split; [|split].
  - intros ->. eexists. split; reflexivity.
  - intros ->. eexists. split; reflexivity.
  - intros Hn Hnames. exists Seq.index_error. split; [|reflexivity].
    unfold Spectrum.grid, Spectrum.subplots.
    destruct (Nat.eqb_spec n 0); [lia|]. destruct (Nat.eqb_spec n 1); [lia|].
    cbn [andb Py.bind]. unfold Spectrum.rows, Seq.range.
    set (i0 := Nat.max 1 (length names)).
    assert (Hs : seq 0 n = seq 0 i0 ++ i0 :: seq (S i0) (n - i0 - 1)).
    { replace n with (i0 + S (n - i0 - 1))%nat at 1 by lia.
      rewrite seq_app. reflexivity. }
    rewrite Hs, for_each_app.
    rewrite (for_each_appends _
               (fun i => flat_map (Spectrum.calls_of_entry n names i)
                           (seq 0 (i + 1)))).
    + cbn [Py.bind Seq.for_each]. rewrite Nat.add_1_r.
      cbn [seq Seq.for_each]. rewrite entry_without_name by lia.
      reflexivity.
    + intros i Hi l. apply in_seq in Hi. apply for_each_appends.
      intros j Hj l'. apply in_seq in Hj. apply entry_calls; lia.
Qed.


(** ** The seed vertex *)

Lemma increasing_nth (a : list Z) :
  SeedVertex.increasing a ->
  forall i j, (i < j < length a)%nat -> nth i a 0 < nth j a 0.
Proof.
  induction 1 as [|x a Hs IH Hx]; intros i j Hij; simpl in Hij; [lia|].
  destruct j as [|j]; [lia|]. destruct i as [|i]; simpl.
  - rewrite Forall_forall in Hx. apply Hx, nth_In. lia.
  - apply IH. lia.
Qed.

Lemma bisect_finds (a : list Z) (p : nat) :
  SeedVertex.increasing a -> (p < length a)%nat ->
  forall fuel lo hi,
    (lo <= p <= hi)%nat -> (hi <= length a)%nat -> (hi - lo <= fuel)%nat ->
    SeedVertex.bisect fuel a (nth p a 0) lo hi = p.
Proof.
  intros Ha Hp. induction fuel as [|fuel IH]; intros lo hi Hlo Hhi Hf;
    cbn [SeedVertex.bisect]; cbv zeta.
  - lia.
  - destruct (Nat.ltb_spec lo hi); [|lia].
    assert (Hd : ((hi - lo) / 2 < hi - lo)%nat)
      by (apply Nat.div_lt; lia).
    assert (Hh : (hi - lo <= 2 * ((hi - lo) / 2) + 1)%nat).
    { pose proof (Nat.div_mod_eq (hi - lo) 2) as E.
      pose proof (Nat.mod_upper_bound (hi - lo) 2). lia. }
    set (mid := (lo + (hi - lo) / 2)%nat) in *.
    destruct (Z.ltb_spec (nth mid a 0) (nth p a 0)) as [Hlt|Hge].
    + assert (mid < p)%nat.
      { destruct (Nat.lt_ge_cases mid p) as [|Hc]; [assumption|].
        destruct (Nat.eq_dec mid p) as [E|Hne]; [rewrite E in Hlt; lia|].
        pose proof (increasing_nth a Ha p mid). lia. }
      apply IH; lia.
    + assert (p <= mid)%nat.
      { destruct (Nat.le_gt_cases p mid) as [|Hc]; [assumption|].
        pose proof (increasing_nth a Ha mid p). lia. }
      apply IH; lia.
Qed.

(** X16.  With the vertices of the source estimate in increasing order
    and every vertex of the label among them, the index kept for the
    seed is the position of the seed vertex in the source estimate; and
    without NaN among the powers, no vertex of the label has more power
    than the seed. *)
Theorem seed_index_points_at_the_seed_vertex
  (label_vertices stc_vertices : list Z) (src_pow : list F64.t)
  (seed_vertno : Z) (seed_idx : nat) :
  SeedVertex.increasing stc_vertices ->
  incl label_vertices stc_vertices ->
  Forall (fun v => F64.is_nan v = false) src_pow ->
  SeedVertex.seed label_vertices stc_vertices src_pow
    = Py.Returned (seed_vertno, seed_idx) ->
  nth_error stc_vertices seed_idx = Some seed_vertno /\
  exists k pow,
    nth_error label_vertices k = Some seed_vertno /\
    nth_error src_pow k = Some pow /\
    Forall (fun w => F64.leb w pow = true) src_pow.
Proof.
  intros Hinc Hincl Hnan. unfold SeedVertex.seed.
  destruct src_pow as [|x rest]; [discriminate|].
  cbn [Peak.argmax Py.bind]. set (k := Peak.argmax_from x 0 1 rest).
  unfold Seq.get_item.
  destruct (nth_error label_vertices k) as [v|] eqn:Ev; [|discriminate].
  cbn [Py.bind]. intros H; injection H as <- <-.
  split.
  - assert (Hin : In v stc_vertices) by (apply Hincl; eapply nth_error_In; eauto).
    apply (In_nth _ _ 0) in Hin as (p & Hp & <-).
    unfold SeedVertex.searchsorted.
    rewrite (bisect_finds stc_vertices p Hinc Hp) by lia.
    apply nth_error_nth'. exact Hp.
  - inversion Hnan as [|? ? Hx Hrest]; subst.
    destruct (argmax_from_spec rest [x] x 0%nat eq_refl) as (pow & Hpow & Hmax);
      [constructor; [now apply leb_reflexive|constructor]|exact Hrest|].
    exists k, pow. split; [exact Ev|]. split; [exact Hpow|exact Hmax].
Qed.

Lemma seed_index_points_at_the_seed_vertex_witness :
  nth_error [3; 8; 15; 21; 40] 2%nat = Some 15 /\
  exists k pow,
    nth_error [8; 15; 21] k = Some 15 /\
    nth_error [F64.of_Z 2; F64.of_Z 9; F64.of_Z 4] k = Some pow /\
    Forall (fun w => F64.leb w pow = true)
      [F64.of_Z 2; F64.of_Z 9; F64.of_Z 4].
Proof.
  apply (seed_index_points_at_the_seed_vertex
           [8; 15; 21] [3; 8; 15; 21; 40]
           [F64.of_Z 2; F64.of_Z 9; F64.of_Z 4] 15 2%nat).
  - repeat constructor.
  - intros v Hv. simpl in *. intuition.
  - repeat constructor.
  - vm_compute. reflexivity.
Defined.


(** ** Simulated case 2: a sine wave with its own phase in every row *)

Section Case2Properties.
Variables R F : Type.
Variable random : R -> F * R.
Variable wave : F -> list F.
Variables E C T : nat.
Hypothesis wave_length : forall phase, length (wave phase) = T.

Local Abbreviation rows := (@Np.item2 (list F)).

Lemma item2_update (d : Np.array3 F) (i c : nat) (ep : list (list F))
  (w : list F) :
  nth_error d i = Some ep -> (c < length ep)%nat ->
  forall i' c',
    rows (Seq.update (list (list F)) d i (Seq.update (list F) ep c w)) i' c' =
    if ((i' =? i) && (c' =? c))%nat then Some w else rows d i' c'.
Proof.
  intros Hep Hc i' c'. unfold Np.item2.
  assert (Hi : (i < length d)%nat) by (apply nth_error_Some; congruence).
  rewrite nth_error_update by exact Hi.
  destruct (Nat.eqb_spec i' i) as [->|Hne]; simpl; [|reflexivity].
  rewrite nth_error_update by exact Hc. rewrite Hep.
  destruct (c' =? c)%nat; reflexivity.
Qed.

Lemma set_row_spec (d : Np.array3 F) (i c : nat) (phase : F) :
  Np.shape3 E C T d -> (i < E)%nat -> (c < C)%nat ->
  exists d',
    Case2.set_row F d i c (wave phase) = Py.Returned d' /\
    Np.shape3 E C T d' /\
    forall i' c',
      rows d' i' c' =
      if ((i' =? i) && (c' =? c))%nat then Some (wave phase) else rows d i' c'.
Proof.
  intros [Ld Hd] Hi Hc. unfold Case2.set_row, Seq.get_item.
  destruct (nth_error d i) as [ep|] eqn:Eep;
    [|apply nth_error_None in Eep; lia].
  assert (Hep : Np.shape2 C T ep)
    by (rewrite Forall_forall in Hd; apply Hd; eapply nth_error_In; eauto).
  destruct Hep as [Lep Hrows]. cbn [Py.bind].
  destruct (nth_error ep c) as [old|] eqn:Eold;
    [|apply nth_error_None in Eold; lia].
  assert (Lold : length old = T)
    by (rewrite Forall_forall in Hrows; apply Hrows; eapply nth_error_In; eauto).
  cbn [Py.bind]. unfold Case2.broadcast.
  rewrite wave_length, Lold, Nat.eqb_refl. cbn [Py.bind].
  unfold Seq.set_item.
  destruct (Nat.ltb_spec c (length ep)); [|lia]. cbn [Py.bind].
  destruct (Nat.ltb_spec i (length d)); [|lia].
  eexists. split; [reflexivity|]. split.
  - split; [now rewrite length_update|].
    apply Forall_forall. intros ep' Hin. apply In_nth_error in Hin as [k Hk].
    rewrite nth_error_update in Hk by assumption.
    destruct (Nat.eqb_spec k i).
    + injection Hk as <-. split; [now rewrite length_update|].
      apply Forall_forall. intros r Hr. apply In_nth_error in Hr as [k' Hk'].
      rewrite nth_error_update in Hk' by assumption.
      destruct (Nat.eqb_spec k' c).
      * injection Hk' as <-. apply wave_length.
      * rewrite Forall_forall in Hrows. apply Hrows. eapply nth_error_In; eauto.
    + rewrite Forall_forall in Hd. apply Hd. eapply nth_error_In; eauto.
  - apply item2_update; [exact Eep|lia].
Qed.

Lemma after_S (k : nat) (rng : R) :
  Case2.after R F random k (snd (random rng)) = Case2.after R F random (S k) rng.
Proof. unfold Case2.after. symmetry. apply Nat.iter_succ_r. Qed.

Lemma after_add (a b : nat) (rng : R) :
  Case2.after R F random b (Case2.after R F random a rng)
  = Case2.after R F random (a + b) rng.
Proof.
  unfold Case2.after. rewrite Nat.add_comm. symmetry. apply Nat.iter_add.
Qed.

Lemma channels_loop (i : nat) : (i < E)%nat ->
  forall m c0 rng d,
    Np.shape3 E C T d -> (c0 + m <= C)%nat ->
    exists d',
      Seq.for_each nat (R * Np.array3 F) (Case2.channel R F random wave i)
        (seq c0 m) (rng, d)
      = Py.Returned (Case2.after R F random m rng, d') /\
      Np.shape3 E C T d' /\
      forall i' c',
        rows d' i' c' =
        if ((i' =? i) && (c0 <=? c') && (c' <? c0 + m))%nat
        then Some (wave (Case2.phase_at R F random (c' - c0) rng))
        else rows d i' c'.
Proof.
  intros Hi. induction m as [|m IH]; intros c0 rng d Hd Hc;
    cbn [seq Seq.for_each].
  - exists d. split; [reflexivity|]. split; [exact Hd|].
    intros i' c'. destruct (i' =? i)%nat; cbn [andb]; [|reflexivity].
    destruct (Nat.leb_spec c0 c'); cbn [andb]; [|reflexivity].
    destruct (Nat.ltb_spec c' (c0 + 0)); [lia|reflexivity].
  - unfold Case2.channel at 1. cbn [fst snd].
    destruct (random rng) as [phase rng1] eqn:Er.
    destruct (set_row_spec d i c0 phase Hd Hi) as (d1 & E1 & Hd1 & H1); [lia|].
    rewrite E1. cbn [Py.bind].
    destruct (IH (S c0) rng1 d1 Hd1) as (d' & E' & Hd' & H'); [lia|].
    exists d'. split.
    + rewrite E'. f_equal. f_equal.
      replace rng1 with (snd (random rng)) by now rewrite Er.
      apply after_S.
    + split; [exact Hd'|]. intros i' c'. rewrite H', H1.
      destruct (Nat.eqb_spec i' i); cbn [andb]; [|reflexivity].
      destruct (Nat.leb_spec (S c0) c'), (Nat.leb_spec c0 c'),
        (Nat.ltb_spec c' (S c0 + m)), (Nat.ltb_spec c' (c0 + S m)),
        (Nat.eqb_spec c' c0); cbn [andb]; try lia; try reflexivity.
      * replace rng1 with (snd (random rng)) by now rewrite Er.
        unfold Case2.phase_at. rewrite after_S.
        replace (S (c' - S c0)) with (c' - c0)%nat by lia. reflexivity.
      * subst c'. rewrite Nat.sub_diag. unfold Case2.phase_at. simpl.
        now rewrite Er.
Qed.

Lemma epochs_loop (n_channels : nat) : (n_channels <= C)%nat ->
  forall m i0 rng d,
    Np.shape3 E C T d -> (i0 + m <= E)%nat ->
    exists d',
      Seq.for_each nat (R * Np.array3 F)
        (fun i s =>
           Seq.for_each nat (R * Np.array3 F) (Case2.channel R F random wave i)
             (Seq.range n_channels) s)
        (seq i0 m) (rng, d)
      = Py.Returned (Case2.after R F random (m * n_channels) rng, d') /\
      Np.shape3 E C T d' /\
      forall i' c',
        rows d' i' c' =
        if ((i0 <=? i') && (i' <? i0 + m) && (c' <? n_channels))%nat
        then Some (wave (Case2.phase_at R F random
                           ((i' - i0) * n_channels + c') rng))
        else rows d i' c'.
Proof.
  intros Hn. induction m as [|m IH]; intros i0 rng d Hd Hi;
    cbn [seq Seq.for_each].
  - exists d. split; [reflexivity|]. split; [exact Hd|].
    intros i' c'. destruct (Nat.leb_spec i0 i'); cbn [andb]; [|reflexivity].
    destruct (Nat.ltb_spec i' (i0 + 0)); [lia|reflexivity].
  - unfold Seq.range at 1.
    destruct (channels_loop i0 ltac:(lia) n_channels 0%nat rng d Hd)
      as (d1 & E1 & Hd1 & H1); [lia|].
    rewrite E1. cbn [Py.bind].
    destruct (IH (S i0) (Case2.after R F random n_channels rng) d1 Hd1)
      as (d' & E' & Hd' & H'); [lia|].
    exists d'. split.
    + rewrite E'. f_equal. f_equal. rewrite after_add. reflexivity.
    + split; [exact Hd'|]. intros i' c'. rewrite H', H1.
      unfold Case2.phase_at. rewrite !after_add.
      destruct (Nat.leb_spec (S i0) i'), (Nat.leb_spec i0 i'),
        (Nat.ltb_spec i' (S i0 + m)), (Nat.ltb_spec i' (i0 + S m)),
        (Nat.eqb_spec i' i0), (Nat.ltb_spec c' n_channels),
        (Nat.ltb_spec c' (0 + n_channels)), (Nat.leb_spec 0 c');
        cbn [andb]; try lia; try reflexivity.
      * replace (n_channels + ((i' - S i0) * n_channels + c'))%nat
          with ((i' - i0) * n_channels + c')%nat by nia.
        reflexivity.
      * subst i'. rewrite Nat.sub_diag, Nat.sub_0_r. reflexivity.
Qed.

(** X17.  On data of shape [E x C x T], the loops of case 2 over
    [n_epochs <= E] epochs and [n_channels <= C] channels draw one phase
    for each pair of an epoch and a channel, epoch by epoch and channel by
    channel, and put the wave of that phase in its row: the row of
    channel [c] in epoch [i] holds the wave of the draw number
    [i * n_channels + c].  The rows outside these epochs and channels
    stay as they were, and the shape of the data is kept. *)
Theorem case2_every_row_has_its_own_phase
  (n_epochs n_channels : nat) (rng : R) (data : Np.array3 F) :
  Np.shape3 E C T data -> (n_epochs <= E)%nat -> (n_channels <= C)%nat ->
  exists data',
    Case2.sine_waves R F random wave n_epochs n_channels (rng, data)
    = Py.Returned (Case2.after R F random (n_epochs * n_channels) rng, data') /\
    Np.shape3 E C T data' /\
    forall i c,
      Np.item2 data' i c =
      if ((i <? n_epochs) && (c <? n_channels))%nat
      then Some (wave (Case2.phase_at R F random (i * n_channels + c) rng))
      else Np.item2 data i c.
Proof.
  intros Hd He Hc. unfold Case2.sine_waves. unfold Seq.range at 2.
  destruct (epochs_loop n_channels Hc n_epochs 0%nat rng data Hd)
    as (d' & E' & Hd' & H'); [lia|].
  exists d'. split; [exact E'|]. split; [exact Hd'|].
  intros i c. rewrite H'. rewrite Nat.sub_0_r. reflexivity.
Qed.

End Case2Properties.

Lemma case2_every_row_has_its_own_phase_witness :
  exists data',
    Case2.sine_waves nat Z (fun r => (Z.of_nat r, S r)) (fun ph => [ph; ph + 1])
      2 2 (0%nat, [[[0; 0]; [0; 0]]; [[0; 0]; [0; 0]]])
    = Py.Returned
        (Case2.after nat Z (fun r => (Z.of_nat r, S r)) (2 * 2) 0%nat, data') /\
    Np.shape3 2 2 2 data' /\
    forall i c,
      Np.item2 data' i c =
      if ((i <? 2) && (c <? 2))%nat
      then Some ((fun ph => [ph; ph + 1])
                   (Case2.phase_at nat Z (fun r => (Z.of_nat r, S r))
                      (i * 2 + c) 0%nat))
      else Np.item2 [[[0; 0]; [0; 0]]; [[0; 0]; [0; 0]]] i c.
Proof.
  apply (case2_every_row_has_its_own_phase nat Z
           (fun r => (Z.of_nat r, S r)) (fun ph => [ph; ph + 1]) 2 2 2
           (fun _ => eq_refl) 2 2 0%nat [[[0; 0]; [0; 0]]; [[0; 0]; [0; 0]]]).
  - split; [reflexivity|]. repeat constructor.
  - lia.
  - lia.
Defined.


(** ** The connectivity matrices, one panel per method *)

Lemma method_calls (foi : nat) (methods ch_names : list string)
  (n_data n_bands n c : nat) (l : ConMatrix.log) :
  (2 <= n)%nat -> (c < n)%nat -> (c < length methods)%nat ->
  (c < n_data)%nat -> (foi < n_bands)%nat ->
  ConMatrix.method foi methods ch_names n_data n_bands (ConMatrix.Many n) c l =
  Py.Returned (l ++ ConMatrix.calls_of_method foi methods ch_names c).
Proof.
  intros Hn Hc Hm Hd Hf.
  unfold ConMatrix.method, ConMatrix.matrix, ConMatrix.panel.
  destruct (Nat.ltb_spec c n); [|lia].
  destruct (Nat.ltb_spec c n_data); [|lia].
  destruct (Nat.ltb_spec foi n_bands); [|lia].
  rewrite (get_item_nth methods c Hm).
  cbn [andb Py.bind]. unfold ConMatrix.calls_of_method.
  rewrite <- !app_assoc. reflexivity.
Qed.

(** X18.  [plot_con_matrix] needs at least two methods: for none
    [plt.subplots] refuses with a [ValueError], and for one it returns a
    single panel, so that [ax[c]] is a [TypeError].  With two or more,
    each of them named and present in the data, and the band of interest
    within the data, it runs to its end: panel [c] shows the matrix of
    method [c] at the band of interest and is titled with the name of
    that method, and the same matrix is printed under that name. *)
Theorem plot_con_matrix_needs_two_methods
  (foi : nat) (methods ch_names : list string) (n_data n_bands n : nat) :
  (n = 0%nat ->
   exists e,
     ConMatrix.plot_con_matrix foi methods ch_names n_data n_bands n
       = Py.Raised e /\ Py.exc_type e = Py.ValueError) /\
  (n = 1%nat ->
   exists e,
     ConMatrix.plot_con_matrix foi methods ch_names n_data n_bands n
       = Py.Raised e /\ Py.exc_type e = Py.TypeError) /\
  ((2 <= n)%nat -> (n <= length methods)%nat -> (n <= n_data)%nat ->
   (foi < n_bands)%nat ->
   exists l,
     ConMatrix.plot_con_matrix foi methods ch_names n_data n_bands n
       = Py.Returned l /\
     (forall c m, In (ConMatrix.imshow c m) l <-> (c < n)%nat /\ m = (c, foi)) /\
     (forall c name,
        In (ConMatrix.set_title c name) l <->
        (c < n)%nat /\ nth_error methods c = Some name) /\
     (forall name m,
        In (ConMatrix.printed name m) l <->
        exists c, (c < n)%nat /\ nth_error methods c = Some name /\ m = (c, foi))).
Proof.
  split; [|split].
  - intros ->. eexists. split; reflexivity.
  - intros ->. eexists. split; reflexivity.
  - intros Hn Hm Hd Hf. unfold ConMatrix.plot_con_matrix.
    destruct n as [|[|n']]; try lia. cbn [ConMatrix.subplots Py.bind].
    set (n := S (S n')) in *. unfold Seq.range.
    rewrite (for_each_appends _ (ConMatrix.calls_of_method foi methods ch_names))
      by (intros c Hc l; apply in_seq in Hc; apply method_calls; lia).
    eexists. split; [reflexivity|]. cbn [app].
    assert (Hnth : forall c name, (c < n)%nat ->
              nth c methods EmptyString = name <-> nth_error methods c = Some name).
    { intros c name Hc. rewrite (nth_error_nth' methods EmptyString) by lia.
      split; [now intros ->|now intros [= ->]]. }
    split; [|split].
    + intros c m. rewrite in_flat_map. split.
      * intros (c0 & Hc0 & H). apply in_seq in Hc0. simpl in H.
        repeat (destruct H as [H|H]; try discriminate H); [|destruct H].
        injection H as <- <-. split; [lia|reflexivity].
      * intros (Hc & ->). exists c. split; [apply in_seq; lia|]. now left.
    + intros c name. rewrite in_flat_map. split.
      * intros (c0 & Hc0 & H). apply in_seq in Hc0. simpl in H.
        repeat (destruct H as [H|H]; try discriminate H); [|destruct H].
        injection H as <- <-. split; [lia|]. apply Hnth; [lia|reflexivity].
      * intros (Hc & Hname). exists c. split; [apply in_seq; lia|].
        right. left. f_equal. now apply Hnth.
    + intros name m. rewrite in_flat_map. split.
      * intros (c0 & Hc0 & H). apply in_seq in Hc0. simpl in H.
        repeat (destruct H as [H|H]; try discriminate H); [|destruct H].
        injection H as <- <-. exists c0. split; [lia|].
        split; [apply Hnth; [lia|reflexivity]|reflexivity].
      * intros (c & Hc & Hname & ->). exists c. split; [apply in_seq; lia|].
        simpl. do 7 right. left. f_equal. now apply Hnth.
Qed.

